(** * BetCode Marketplace: authentication and authorization core

    A shallow embedding of the server's authentication code (credential
    hashing, verification-token issuance, the passport local strategy, the
    session-bound route handlers and the two authorization gates) together
    with the part of the storage layer those handlers call, and the
    properties of that code.  The admin surface, the message routes and the
    advertisement query of the main router follow the same conventions.

    Conventions.
    - A JavaScript string is a [string]; its characters stand for code units.
    - A [Buffer] is a [list byte].
    - A [Date] is its millisecond timestamp, a [Z].
    - A number in a JSON body is an integer, a [Z]; the numbers of the
      [real] columns are binary64 floats.
    - A thrown exception or rejected promise is the [Throw] branch of
      [result]; [await] is the bind of that monad.
    - [crypto.randomBytes] reads from an explicit entropy stream that is
      threaded through the handlers; [Date.now()] is a field of the request
      context. *)

From Stdlib Require Import ZArith NArith List String Ascii Bool Lia.
From Stdlib Require Import Strings.Byte.
From Stdlib Require Import Sorting.Permutation Sorting.Sorted.
From Stdlib Require Floats.
Import ListNotations.

Local Open Scope string_scope.
Local Open Scope list_scope.
Local Open Scope Z_scope.

Set Implicit Arguments.
Set Warnings "-register-all".

(* ================================================================== *)
(** * Exceptions and the error monad *)

(** One issue of a [ZodError]: the offending path and, for a length or
    range check, the message the schema attaches to it. *)
Inductive ZodIssue : Type :=
| invalid_type (path : string)
| too_small (path : string) (message : string)
| too_big (path : string) (message : string).

Inductive exn : Type :=
| TypeError (msg : string)
| RangeError (msg : string)
| ZodError (issues : list ZodIssue)
| DbError (msg : string)
| Error (msg : string).

Inductive result (A : Type) : Type :=
| Ok (a : A)
| Throw (e : exn).

Arguments Ok {A} a.
Arguments Throw {A} e.

Definition bind {A B : Type} (m : result A) (k : A -> result B) : result B :=
  match m with
  | Ok a => k a
  | Throw e => Throw e
  end.

Notation "'await' x <- m ;; k" := (bind m (fun x => k))
  (at level 61, x name, m at next level, right associativity).

(* ================================================================== *)
(** * Buffers and the hex encoding *)

Definition hex_alphabet : list ascii :=
  list_ascii_of_string "0123456789abcdef".

Definition hex_digit (n : N) : ascii :=
  nth (N.to_nat n) hex_alphabet "0"%char.

(** [buf.toString("hex")]: two lower-case digits per byte. *)
Fixpoint toString_hex (buf : list byte) : string :=
  match buf with
  | [] => ""
  | b :: rest =>
      let n := Byte.to_N b in
      String (hex_digit (n / 16)) (String (hex_digit (n mod 16)) (toString_hex rest))
  end.

(** The value of one hexadecimal character, either case. *)
Definition unhex (c : ascii) : option N :=
  let n := N_of_ascii c in
  if ((48 <=? n) && (n <=? 57))%N then Some (n - 48)%N
  else if ((97 <=? n) && (n <=? 102))%N then Some (n - 87)%N
  else if ((65 <=? n) && (n <=? 70))%N then Some (n - 55)%N
  else None.

(** [Buffer.from(s, "hex")]: decodes pairs of digits and truncates at the
    first pair that is not hexadecimal, or at a trailing single digit. *)
Fixpoint Buffer_from_hex (s : string) : list byte :=
  match s with
  | String c1 (String c2 rest) =>
      match unhex c1, unhex c2 with
      | Some h, Some l =>
          match Byte.of_N (16 * h + l) with
          | Some b => b :: Buffer_from_hex rest
          | None => []
          end
      | _, _ => []
      end
  | _ => []
  end.

(** [Buffer.from(x, "hex")] where [x] may be [undefined]. *)
Definition Buffer_from (x : option string) : result (list byte) :=
  match x with
  | Some s => Ok (Buffer_from_hex s)
  | None => Throw (TypeError "The first argument must be of type string")
  end.

Definition byte_eqb (a b : byte) : bool := Byte.eqb a b.

Fixpoint buffer_eqb (a b : list byte) : bool :=
  match a, b with
  | [], [] => true
  | x :: a', y :: b' => byte_eqb x y && buffer_eqb a' b'
  | _, _ => false
  end.

(** [crypto.timingSafeEqual]: throws when the byte lengths differ. *)
Definition timingSafeEqual (a b : list byte) : result bool :=
  if Nat.eqb (List.length a) (List.length b) then Ok (buffer_eqb a b)
  else Throw (RangeError "Input buffers must have the same byte length").

(** [s.split(sep)] for a one-character separator. *)
Fixpoint split (sep : ascii) (s : string) : list string :=
  match s with
  | "" => [""]
  | String c rest =>
      let parts := split sep rest in
      if Ascii.eqb c sep then "" :: parts
      else match parts with
           | p :: ps => String c p :: ps
           | [] => [String c ""]
           end
  end.

Definition is_hex_char (c : ascii) : bool :=
  match unhex c with Some _ => true | None => false end.

Fixpoint string_forallb (f : ascii -> bool) (s : string) : bool :=
  match s with
  | "" => true
  | String c rest => f c && string_forallb f rest
  end.

(** No occurrence of the character [c] in [s]. *)
Definition lacks (c : ascii) (s : string) : bool :=
  string_forallb (fun x => negb (Ascii.eqb x c)) s.

(* ================================================================== *)
(** * Randomness *)

(** The operating system's random source, as the stream of bytes it will
    deliver. *)
Definition Entropy : Type := nat -> byte.

(** [crypto.randomBytes(n)]: the next [n] bytes, and the rest of the stream. *)
Definition randomBytes (n : nat) (e : Entropy) : list byte * Entropy :=
  (map e (seq 0 n), fun i => e (n + i)%nat).

(* ================================================================== *)
(** * Credential hashing *)

Section Hashing.

(** [crypto.scrypt(password, salt, keylen)] for a string salt. *)
Variable scrypt : string -> string -> nat -> list byte.

(** [promisify(scrypt)]: the argument check of [scrypt] rejects a salt
    that is [undefined]. *)
Definition scryptAsync (password : string) (salt : option string) (keylen : nat)
  : result (list byte) :=
  match salt with
  | Some s => Ok (scrypt password s keylen)
  | None => Throw (TypeError "The salt argument must be of type string")
  end.

Definition hashPassword (password : string) (e : Entropy) : string * Entropy :=
  let (bytes, e') := randomBytes 16 e in
  let salt := toString_hex bytes in
  let buf := scrypt password salt 64 in
  ((toString_hex buf ++ "." ++ salt)%string, e').

Definition comparePasswords (supplied stored : string) : result bool :=
  let parts := split "." stored in
  let hashed := nth_error parts 0 in
  let salt := nth_error parts 1 in
  await hashedBuf <- Buffer_from hashed ;;
  await suppliedBuf <- scryptAsync supplied salt 64 ;;
  timingSafeEqual hashedBuf suppliedBuf.

End Hashing.

(** [generateVerificationToken]: 32 random bytes in hex. *)
Definition generateVerificationToken (e : Entropy) : string * Entropy :=
  let (bytes, e') := randomBytes 32 e in
  (toString_hex bytes, e').

(* ================================================================== *)
(** * JavaScript values and objects *)

(** The values that travel in request and response bodies.  A [Date] is
    kept as such until the response is serialised. *)
Inductive value : Type :=
| VNull
| VBool (b : bool)
| VNum (n : Z)
| VStr (s : string)
| VDate (ms : Z)
| VArr (items : list value)
| VObj (fields : list (string * value)).

(** An object: its own enumerable properties, in insertion order. *)
Definition object : Type := list (string * value).

(** [o[k]]; [None] is [undefined]. *)
Fixpoint get (k : string) (o : object) : option value :=
  match o with
  | [] => None
  | (k', v) :: rest => if String.eqb k k' then Some v else get k rest
  end.

(** [const { k, ...rest } = o]: the object without the property [k]. *)
Definition omit (k : string) (o : object) : object :=
  filter (fun kv => negb (String.eqb k (fst kv))) o.

(** Truthiness of a possibly absent string: [undefined] and the empty
    string are falsy. *)
Definition truthy (s : option string) : bool :=
  match s with
  | Some "" => false
  | Some _ => true
  | None => false
  end.

(* ================================================================== *)
(** * Data model: the [users] table *)

Record User : Type := mkUser {
  id : Z;
  username : string;
  email : string;
  password : string;
  fullName : option string;
  country : string;
  isAdmin : bool;
  isEmailVerified : bool;
  verificationToken : option string;
  verificationTokenExpiry : option Z;
  bankDetails : option value;
  createdAt : Z
}.

(** [InsertUser]: what [insertUserSchema] lets through.  An outer [None] is
    an absent property, an inner [None] is [null]. *)
Record InsertUser : Type := mkInsertUser {
  iu_username : string;
  iu_email : string;
  iu_password : string;
  iu_fullName : option (option string);
  iu_country : option string;
  iu_bankDetails : option (option value)
}.

(** [Partial<User>]: each property is absent ([None]) or carries the new
    value of its column. *)
Record PartialUser : Type := mkPartialUser {
  p_id : option Z;
  p_username : option string;
  p_email : option string;
  p_password : option string;
  p_fullName : option (option string);
  p_country : option string;
  p_isAdmin : option bool;
  p_isEmailVerified : option bool;
  p_verificationToken : option (option string);
  p_verificationTokenExpiry : option (option Z);
  p_bankDetails : option (option value);
  p_createdAt : option Z
}.

Definition is_set {A : Type} (x : option A) : bool :=
  match x with Some _ => true | None => false end.

(** Does the object name at least one column? *)
Definition sets_something (p : PartialUser) : bool :=
  is_set (p_id p) || is_set (p_username p) || is_set (p_email p)
  || is_set (p_password p) || is_set (p_fullName p) || is_set (p_country p)
  || is_set (p_isAdmin p) || is_set (p_isEmailVerified p)
  || is_set (p_verificationToken p) || is_set (p_verificationTokenExpiry p)
  || is_set (p_bankDetails p) || is_set (p_createdAt p).

Definition or_else {A : Type} (x : option A) (d : A) : A :=
  match x with Some a => a | None => d end.

(** [UPDATE users SET ...] on one row. *)
Definition apply_update (p : PartialUser) (u : User) : User :=
  {| id := or_else (p_id p) (id u);
     username := or_else (p_username p) (username u);
     email := or_else (p_email p) (email u);
     password := or_else (p_password p) (password u);
     fullName := or_else (p_fullName p) (fullName u);
     country := or_else (p_country p) (country u);
     isAdmin := or_else (p_isAdmin p) (isAdmin u);
     isEmailVerified := or_else (p_isEmailVerified p) (isEmailVerified u);
     verificationToken := or_else (p_verificationToken p) (verificationToken u);
     verificationTokenExpiry :=
       or_else (p_verificationTokenExpiry p) (verificationTokenExpiry u);
     bankDetails := or_else (p_bankDetails p) (bankDetails u);
     createdAt := or_else (p_createdAt p) (createdAt u) |}.

(** The database as far as the authentication code sees it: the rows of
    [users] and the sequence behind the [serial] primary key. *)
Record DB : Type := mkDB {
  users : list User;
  users_id_seq : Z
}.

Fixpoint distinct {A : Type} (eqb : A -> A -> bool) (l : list A) : bool :=
  match l with
  | [] => true
  | x :: rest => negb (existsb (eqb x) rest) && distinct eqb rest
  end.

(** The table's key constraints: primary key [id], [username] and [email]
    declared [unique()]. *)
Definition constraints_ok (rows : list User) : bool :=
  distinct Z.eqb (map id rows)
  && distinct String.eqb (map username rows)
  && distinct String.eqb (map email rows).

(* ================================================================== *)
(** * Storage layer ([DatabaseStorage]) *)

Definition getUser (db : DB) (i : Z) : option User :=
  hd_error (filter (fun u => Z.eqb (id u) i) (users db)).

Definition getUserByUsername (db : DB) (name : string) : option User :=
  hd_error (filter (fun u => String.eqb (username u) name) (users db)).

Definition getUserByEmail (db : DB) (addr : string) : option User :=
  hd_error (filter (fun u => String.eqb (email u) addr) (users db)).

Definition token_is (token : string) (u : User) : bool :=
  match verificationToken u with
  | Some t => String.eqb t token
  | None => false
  end.

Definition getUserByVerificationToken (db : DB) (token : string) : list User :=
  filter (token_is token) (users db).

(** The row [createUser] inserts: the spread of the input, then
    [isAdmin: false]; the remaining columns take their defaults. *)
Definition new_row (i : Z) (insertUser : InsertUser) (now : Z) : User :=
  {| id := i;
     username := iu_username insertUser;
     email := iu_email insertUser;
     password := iu_password insertUser;
     fullName := or_else (iu_fullName insertUser) None;
     country := or_else (iu_country insertUser) "NG";
     isAdmin := false;
     isEmailVerified := false;
     verificationToken := None;
     verificationTokenExpiry := None;
     bankDetails := or_else (iu_bankDetails insertUser) None;
     createdAt := now |}.

(** [createUser]: the sequence advances whether or not the insert passes
    the key constraints. *)
Definition createUser (db : DB) (insertUser : InsertUser) (now : Z)
  : DB * result User :=
  let user := new_row (users_id_seq db) insertUser now in
  let rows := users db ++ [user] in
  let next := users_id_seq db + 1 in
  if constraints_ok rows
  then (mkDB rows next, Ok user)
  else (mkDB (users db) next, Throw (DbError "duplicate key value")).

(** The table after [UPDATE users SET ... WHERE id = i]. *)
Definition updated_rows (i : Z) (p : PartialUser) (rows : list User) : list User :=
  map (fun u => if Z.eqb (id u) i then apply_update p u else u) rows.

(** [updateUser]: an update that names no column is refused by the query
    builder; one that breaks a key constraint is refused by the database.
    The result is the first returned row, [None] when no row has that id. *)
Definition updateUser (db : DB) (i : Z) (userData : PartialUser)
  : DB * result (option User) :=
  if negb (sets_something userData)
  then (db, Throw (DbError "No values to set"))
  else
    let rows := updated_rows i userData (users db) in
    let returning :=
      map (apply_update userData) (filter (fun u => Z.eqb (id u) i) (users db)) in
    if constraints_ok rows
    then (mkDB rows (users_id_seq db), Ok (hd_error returning))
    else (db, Throw (DbError "duplicate key value")).

(* ================================================================== *)
(** * Requests, responses and middleware *)

(** What a handler reads from [req] and from its environment: the parsed
    JSON body, [req.query.token] when it is a string, the route parameter
    [:id] after [parseInt], the [adminToken] cookie, the user id passport
    keeps in the session, the clock and the random source. *)
Record Req : Type := mkReq {
  body : object;
  query_token : option string;
  params_id : Z;
  cookies_adminToken : option string;
  session_user : option Z;
  now : Z;
  entropy : Entropy
}.

(** The variable parts of the HTML pages of [/verify-email]. *)
Record Page : Type := mkPage {
  page_title : string;
  heading_class : string;
  heading : string;
  paragraph : string;
  link_href : string;
  link_text : string
}.

Inductive Body : Type :=
| json (v : value)
| html (p : Page)
| text (s : string).

(** How a handler ends: [res.status(s).json/send(...)] or [next(err)]. *)
Inductive Outcome : Type :=
| Respond (status : Z) (b : Body)
| Next (e : exn).

Record Served : Type := mkServed {
  db_after : DB;
  session_after : option Z;
  outcome : Outcome
}.

Definition Handler : Type := Req -> DB -> Served.

(** A middleware either calls [next()] or answers itself. *)
Inductive Gate : Type :=
| Pass
| Block (status : Z) (b : Body).

Definition Middleware : Type := Req -> DB -> Gate.

(** [app.METHOD(path, middleware, handler)]. *)
Definition guarded (m : Middleware) (h : Handler) : Handler :=
  fun req db =>
    match m req db with
    | Pass => h req db
    | Block status b => mkServed db (session_user req) (Respond status b)
    end.

Definition message (s : string) : Body := json (VObj [("message", VStr s)]).

(** [passport.deserializeUser]: [req.user] as a route handler finds it.
    The handlers are mounted behind passport's session middleware
    ([passport_session] below), which lets a request through only when its
    session is empty or names a row. *)
Definition req_user (req : Req) (db : DB) : option User :=
  match session_user req with
  | Some i => getUser db i
  | None => None
  end.

Definition isAuthenticated (req : Req) (db : DB) : bool :=
  is_set (req_user req db).

Definition nullable {A : Type} (f : A -> value) (x : option A) : value :=
  match x with Some a => f a | None => VNull end.

(** A row as the object the driver returns. *)
Definition user_object (u : User) : object :=
  [ ("id", VNum (id u));
    ("username", VStr (username u));
    ("email", VStr (email u));
    ("password", VStr (password u));
    ("fullName", nullable VStr (fullName u));
    ("country", VStr (country u));
    ("isAdmin", VBool (isAdmin u));
    ("isEmailVerified", VBool (isEmailVerified u));
    ("verificationToken", nullable VStr (verificationToken u));
    ("verificationTokenExpiry", nullable VDate (verificationTokenExpiry u));
    ("bankDetails", nullable (fun v => v) (bankDetails u));
    ("createdAt", VDate (createdAt u)) ].

(** [const { password, ...userWithoutPassword } = user]. *)
Definition userWithoutPassword (u : User) : object :=
  omit "password" (user_object u).

(* ------------------------------------------------------------------ *)
(** ** Schemas *)

Definition expect_string (path : string) (o : object) : list ZodIssue :=
  match get path o with
  | Some (VStr _) => []
  | _ => [invalid_type path]
  end.

Definition expect_optional_string (path : string) (o : object) : list ZodIssue :=
  match get path o with
  | None | Some (VStr _) => []
  | _ => [invalid_type path]
  end.

Definition expect_nullish_string (path : string) (o : object) : list ZodIssue :=
  match get path o with
  | None | Some VNull | Some (VStr _) => []
  | _ => [invalid_type path]
  end.

Definition expect_min (path : string) (n : nat) (msg : string) (o : object)
  : list ZodIssue :=
  match get path o with
  | Some (VStr s) => if Nat.ltb (String.length s) n then [too_small path msg] else []
  | _ => [invalid_type path]
  end.

Definition string_of (v : option value) : string :=
  match v with Some (VStr s) => s | _ => "" end.

Definition nullish_string_of (v : option value) : option (option string) :=
  match v with
  | Some (VStr s) => Some (Some s)
  | Some VNull => Some None
  | _ => None
  end.

Definition optional_string_of (v : option value) : option string :=
  match v with Some (VStr s) => Some s | _ => None end.

Definition nullish_of (v : option value) : option (option value) :=
  match v with
  | Some VNull => Some None
  | Some x => Some (Some x)
  | None => None
  end.

(** [insertUserSchema.parse]: the insert schema of [users] without [id],
    [isAdmin], [isEmailVerified], [verificationToken],
    [verificationTokenExpiry] and [createdAt]; properties outside the
    schema are dropped. *)
Definition insertUserSchema_parse (o : object) : result InsertUser :=
  let issues :=
    expect_string "username" o ++ expect_string "email" o
    ++ expect_string "password" o ++ expect_nullish_string "fullName" o
    ++ expect_optional_string "country" o in
  match issues with
  | [] =>
      Ok {| iu_username := string_of (get "username" o);
            iu_email := string_of (get "email" o);
            iu_password := string_of (get "password" o);
            iu_fullName := nullish_string_of (get "fullName" o);
            iu_country := optional_string_of (get "country" o);
            iu_bankDetails := nullish_of (get "bankDetails" o) |}
  | _ => Throw (ZodError issues)
  end.

Record LoginCredentials : Type := mkLoginCredentials {
  lc_username : string;
  lc_password : string
}.

Definition loginSchema_parse (o : object) : result LoginCredentials :=
  let issues :=
    expect_min "username" 3 "Username must be at least 3 characters" o
    ++ expect_min "password" 6 "Password must be at least 6 characters" o in
  match issues with
  | [] => Ok {| lc_username := string_of (get "username" o);
                lc_password := string_of (get "password" o) |}
  | _ => Throw (ZodError issues)
  end.

(* ------------------------------------------------------------------ *)
(** ** Untyped objects handed to [updateUser] *)

(** Two routes pass an object of type [any] where [Partial<User>] is
    expected.  Each named column must carry a value of the column's type;
    anything else is taken to be refused by the driver.  (The driver
    converts some such values instead, a number given for a text column
    for one; this embedding covers the bodies whose values have the
    columns' types.)  Properties that are not columns are ignored. *)
Definition column {A : Type} (k : string) (read : value -> option A) (o : object)
  : result (option A) :=
  match get k o with
  | None => Ok None
  | Some v =>
      match read v with
      | Some a => Ok (Some a)
      | None => Throw (DbError "invalid input value")
      end
  end.

Definition read_num (v : value) : option Z :=
  match v with VNum n => Some n | _ => None end.
Definition read_str (v : value) : option string :=
  match v with VStr s => Some s | _ => None end.
Definition read_bool (v : value) : option bool :=
  match v with VBool b => Some b | _ => None end.
Definition read_date (v : value) : option Z :=
  match v with VDate ms => Some ms | _ => None end.
Definition read_nullable {A : Type} (read : value -> option A) (v : value)
  : option (option A) :=
  match v with
  | VNull => Some None
  | _ => match read v with Some a => Some (Some a) | None => None end
  end.
Definition read_json (v : value) : option (option value) :=
  match v with VNull => Some None | _ => Some (Some v) end.

Definition as_PartialUser (o : object) : result PartialUser :=
  await c_id <- column "id" read_num o ;;
  await c_username <- column "username" read_str o ;;
  await c_email <- column "email" read_str o ;;
  await c_password <- column "password" read_str o ;;
  await c_fullName <- column "fullName" (read_nullable read_str) o ;;
  await c_country <- column "country" read_str o ;;
  await c_isAdmin <- column "isAdmin" read_bool o ;;
  await c_isEmailVerified <- column "isEmailVerified" read_bool o ;;
  await c_token <- column "verificationToken" (read_nullable read_str) o ;;
  await c_expiry <- column "verificationTokenExpiry" (read_nullable read_date) o ;;
  await c_bankDetails <- column "bankDetails" read_json o ;;
  await c_createdAt <- column "createdAt" read_date o ;;
  Ok (mkPartialUser c_id c_username c_email c_password c_fullName c_country
        c_isAdmin c_isEmailVerified c_token c_expiry c_bankDetails c_createdAt).

(* ------------------------------------------------------------------ *)
(** ** Authorization gates *)

Definition requireAuth : Middleware :=
  fun req db =>
    if negb (isAuthenticated req db)
    then Block 401 (message "Unauthorized")
    else Pass.

Definition requireAdmin : Middleware :=
  fun req db =>
    if negb (isAuthenticated req db)
       || negb (match req_user req db with
                | Some user => isAdmin user
                | None => false
                end)
    then Block 403 (message "Forbidden")
    else Pass.

(** The separate admin surface: any non-empty [adminToken] cookie passes. *)
Definition requireAdminToken : Middleware :=
  fun req db =>
    if negb (truthy (cookies_adminToken req))
    then Block 401 (message "Admin authentication required")
    else Pass.

(* ================================================================== *)
(** * Route handlers *)

Definition day_ms : Z := 24 * 60 * 60 * 1000.

Definition invalid_link_page : Page :=
  {| page_title := "Email Verification Failed";
     heading_class := "error";
     heading := "Invalid Verification Link";
     paragraph := "The verification link you clicked is invalid or has expired.";
     link_href := "/";
     link_text := "Return to Home Page" |}.

Definition expired_link_page : Page :=
  {| page_title := "Email Verification Failed";
     heading_class := "error";
     heading := "Verification Link Expired";
     paragraph := "The verification link has expired. Please request a new one.";
     link_href := "/";
     link_text := "Return to Home Page" |}.

Definition verified_page : Page :=
  {| page_title := "Email Verified Successfully";
     heading_class := "success";
     heading := "Email Verified Successfully!";
     paragraph := "Your email has been verified. You can now enjoy full access to BetCode Marketplace.";
     link_href := "/dashboard";
     link_text := "Go to Dashboard" |}.

Definition verification_error_page : Page :=
  {| page_title := "Email Verification Error";
     heading_class := "error";
     heading := "Verification Error";
     paragraph := "An error occurred during email verification. Please try again later.";
     link_href := "/";
     link_text := "Return to Home Page" |}.

(** What the local strategy reports through [done]. *)
Inductive Done : Type :=
| done_error (e : exn)
| done_fail (info_message : string)
| done_user (user : User).

Section Auth.

Variable scrypt : string -> string -> nat -> list byte.

(** [fromZodError(error).message]. *)
Variable fromZodError : list ZodIssue -> string.

(** The verify callback given to [LocalStrategy]. *)
Definition verify (db : DB) (name pass : string) : Done :=
  match getUserByUsername db name with
  | None => done_fail "Invalid username or password"
  | Some user =>
      match comparePasswords scrypt pass (password user) with
      | Throw error => done_error error
      | Ok false => done_fail "Invalid username or password"
      | Ok true => done_user user
      end
  end.

(** [passport.authenticate("local", callback)]: the strategy reads the
    credentials from the body and fails on its own when one is missing or
    empty; otherwise it runs [verify]. *)
Definition authenticate_local (db : DB) (o : object) : Done :=
  let name := optional_string_of (get "username" o) in
  let pass := optional_string_of (get "password" o) in
  if negb (truthy name) || negb (truthy pass)
  then done_fail "Missing credentials"
  else verify db (string_of (get "username" o)) (string_of (get "password" o)).

(** [POST /api/register].  [sendVerificationEmail] only writes to the
    console and is left out; [req.login] stores the user's id in the
    session. *)
Definition post_api_register : Handler :=
  fun req db =>
    let session := session_user req in
    match insertUserSchema_parse (body req) with
    | Throw (ZodError issues) =>
        mkServed db session (Respond 400 (message (fromZodError issues)))
    | Throw error => mkServed db session (Next error)
    | Ok userData =>
        match getUserByUsername db (iu_username userData) with
        | Some _ =>
            mkServed db session (Respond 400 (message "Username already exists"))
        | None =>
        match getUserByEmail db (iu_email userData) with
        | Some _ =>
            mkServed db session (Respond 400 (message "Email already exists"))
        | None =>
            let (verificationToken, e1) := generateVerificationToken (entropy req) in
            let verificationTokenExpiry := now req + day_ms in
            let (hashed, _) := hashPassword scrypt (iu_password userData) e1 in
            let insertUser :=
              {| iu_username := iu_username userData;
                 iu_email := iu_email userData;
                 iu_password := hashed;
                 iu_fullName := iu_fullName userData;
                 iu_country := iu_country userData;
                 iu_bankDetails := iu_bankDetails userData |} in
            match createUser db insertUser (now req) with
            | (db1, Throw error) => mkServed db1 session (Next error)
            | (db1, Ok user) =>
                let userData' :=
                  {| p_id := None; p_username := None; p_email := None;
                     p_password := None; p_fullName := None; p_country := None;
                     p_isAdmin := None;
                     p_isEmailVerified := Some false;
                     p_verificationToken := Some (Some verificationToken);
                     p_verificationTokenExpiry := Some (Some verificationTokenExpiry);
                     p_bankDetails := None; p_createdAt := None |} in
                match updateUser db1 (id user) userData' with
                | (db2, Throw error) => mkServed db2 session (Next error)
                | (db2, Ok _) =>
                    mkServed db2 (Some (id user))
                      (Respond 201
                         (json (VObj (userWithoutPassword user
                                      ++ [("message", VStr "Account created successfully. Please check your email to verify your account.")]))))
                end
            end
        end
        end
    end.

(** [POST /api/login] *)
Definition post_api_login : Handler :=
  fun req db =>
    let session := session_user req in
    match loginSchema_parse (body req) with
    | Throw (ZodError issues) =>
        mkServed db session (Respond 400 (message (fromZodError issues)))
    | Throw error => mkServed db session (Next error)
    | Ok _ =>
        match authenticate_local db (body req) with
        | done_error err => mkServed db session (Next err)
        | done_fail info_message =>
            mkServed db session
              (Respond 401
                 (message (if truthy (Some info_message) then info_message
                           else "Invalid credentials")))
        | done_user user =>
            mkServed db (Some (id user))
              (Respond 200 (json (VObj (userWithoutPassword user))))
        end
    end.

(** [POST /api/logout] *)
Definition post_api_logout : Handler :=
  fun req db => mkServed db None (Respond 200 (text "OK")).

(** [GET /api/user] *)
Definition get_api_user : Handler :=
  fun req db =>
    match req_user req db with
    | None => mkServed db (session_user req) (Respond 401 (text "Unauthorized"))
    | Some user =>
        mkServed db (session_user req)
          (Respond 200 (json (VObj (userWithoutPassword user))))
    end.

(** [POST /api/resend-verification] *)
Definition post_api_resend_verification : Handler :=
  fun req db =>
    let session := session_user req in
    match req_user req db with
    | None =>
        mkServed db session
          (Respond 401 (message "You must be logged in to request a verification email"))
    | Some user =>
        if isEmailVerified user
        then mkServed db session (Respond 400 (message "Your email is already verified"))
        else
          let (verificationToken, _) := generateVerificationToken (entropy req) in
          let verificationTokenExpiry := now req + day_ms in
          let userData :=
            {| p_id := None; p_username := None; p_email := None;
               p_password := None; p_fullName := None; p_country := None;
               p_isAdmin := None; p_isEmailVerified := None;
               p_verificationToken := Some (Some verificationToken);
               p_verificationTokenExpiry := Some (Some verificationTokenExpiry);
               p_bankDetails := None; p_createdAt := None |} in
          match updateUser db (id user) userData with
          | (db1, Throw error) => mkServed db1 session (Next error)
          | (db1, Ok _) =>
              mkServed db1 session
                (Respond 200 (message "Verification email sent successfully. Please check your inbox."))
          end
    end.

(** [GET /verify-email] *)
Definition get_verify_email : Handler :=
  fun req db =>
    let session := session_user req in
    if negb (truthy (query_token req))
    then mkServed db session (Respond 400 (html invalid_link_page))
    else
      let token := or_else (query_token req) "" in
      match getUserByVerificationToken db token with
      | [] => mkServed db session (Respond 404 (html invalid_link_page))
      | user :: _ =>
          if match verificationTokenExpiry user with
             | Some expiry => expiry <? now req
             | None => false
             end
          then mkServed db session (Respond 400 (html expired_link_page))
          else
            let userData :=
              {| p_id := None; p_username := None; p_email := None;
                 p_password := None; p_fullName := None; p_country := None;
                 p_isAdmin := None;
                 p_isEmailVerified := Some true;
                 p_verificationToken := Some None;
                 p_verificationTokenExpiry := Some None;
                 p_bankDetails := None; p_createdAt := None |} in
            match updateUser db (id user) userData with
            | (db1, Throw _) =>
                mkServed db1 session (Respond 500 (html verification_error_page))
            | (db1, Ok _) => mkServed db1 session (Respond 200 (html verified_page))
            end
      end.

End Auth.

(* ------------------------------------------------------------------ *)
(** ** Routes of the main router that write to [users] *)

(** [o[k] = v]. *)
Fixpoint put (k : string) (v : value) (o : object) : object :=
  match o with
  | [] => [(k, v)]
  | (k', v') :: rest =>
      if String.eqb k k' then (k, v) :: rest else (k', v') :: put k v rest
  end.

Definition allowedUpdates : list string := ["fullName"; "bankDetails"].

(** The [forEach] that copies the allowed properties of the body. *)
Definition collect_updates (o : object) : object :=
  fold_left
    (fun updates field =>
       match get field o with
       | Some v => put field v updates
       | None => updates
       end)
    allowedUpdates [].

(** [PATCH /api/users/profile], behind [requireAuth]. *)
Definition patch_api_users_profile : Handler :=
  guarded requireAuth
    (fun req db =>
       let session := session_user req in
       let failed := Respond 500 (message "Failed to update profile") in
       let updates := collect_updates (body req) in
       match req_user req db with
       | None => mkServed db session failed
       | Some user =>
           match as_PartialUser updates with
           | Throw _ => mkServed db session failed
           | Ok userData =>
               match updateUser db (id user) userData with
               | (db1, Throw _) => mkServed db1 session failed
               | (db1, Ok None) =>
                   mkServed db1 session (Respond 404 (message "User not found"))
               | (db1, Ok (Some updatedUser)) =>
                   mkServed db1 session
                     (Respond 200 (json (VObj (userWithoutPassword updatedUser))))
               end
           end
       end).

(** [PATCH /api/admin/users/:id], behind [requireAdminToken]: the body goes
    to [updateUser] as it came. *)
Definition patch_api_admin_users : Handler :=
  guarded requireAdminToken
    (fun req db =>
       let session := session_user req in
       let failed := Respond 500 (message "Failed to update user") in
       match as_PartialUser (body req) with
       | Throw _ => mkServed db session failed
       | Ok userData =>
           match updateUser db (params_id req) userData with
           | (db1, Throw _) => mkServed db1 session failed
           | (db1, Ok None) =>
               mkServed db1 session (Respond 404 (message "User not found"))
           | (db1, Ok (Some updatedUser)) =>
               mkServed db1 session (Respond 200 (json (VObj (user_object updatedUser))))
           end
       end).

(** The operations on identities. *)
Inductive Route : Type :=
| Register
| Login
| Logout
| CurrentUser
| ResendVerification
| VerifyEmail
| UpdateProfile
| AdminUpdateUser.

(** The update object names neither the token nor the expiry, or sets both
    to a value, or sets both to [null]. *)
Definition sets_pair_together (o : object) : bool :=
  match get "verificationToken" o, get "verificationTokenExpiry" o with
  | None, None => true
  | Some VNull, Some VNull => true
  | Some (VStr _), Some (VDate _) => true
  | _, _ => false
  end.

Section Server.

Variable scrypt : string -> string -> nat -> list byte.
Variable fromZodError : list ZodIssue -> string.

Definition serve (r : Route) : Handler :=
  match r with
  | Register => post_api_register scrypt fromZodError
  | Login => post_api_login scrypt fromZodError
  | Logout => post_api_logout
  | CurrentUser => get_api_user
  | ResendVerification => post_api_resend_verification
  | VerifyEmail => get_verify_email
  | UpdateProfile => patch_api_users_profile
  | AdminUpdateUser => patch_api_admin_users
  end.

(** The database before any request. *)
Definition initial_db : DB := {| users := []; users_id_seq := 1 |}.

(** The databases the server can reach when every admin user update sets
    the token and its expiry together or names neither. *)
Inductive reachable : DB -> Prop :=
| reach_initial : reachable initial_db
| reach_serve (r : Route) (req : Req) (db : DB) :
    reachable db ->
    (r = AdminUpdateUser -> sets_pair_together (body req) = true) ->
    reachable (db_after (serve r req db)).

End Server.

(* ================================================================== *)
(** * Predicates of the specification *)

(** A verification token and its expiry are set together or cleared
    together. *)
Definition token_paired (u : User) : Prop :=
  verificationToken u = None <-> verificationTokenExpiry u = None.

Definition all_paired (db : DB) : Prop := Forall token_paired (users db).

(** A database whose table satisfies its key constraints, as every table
    the database engine holds does. *)
Definition db_ok (db : DB) : Prop := constraints_ok (users db) = true.

Definition is_success (o : Outcome) : bool :=
  match o with
  | Respond status _ => (200 <=? status) && (status <? 300)
  | Next _ => false
  end.

(** The JSON object of a response, if it has one. *)
Definition response_object (o : Outcome) : option object :=
  match o with
  | Respond _ (json (VObj fields)) => Some fields
  | _ => None
  end.

(** A row with its stored verifier blanked, and a database seen that way. *)
Definition without_verifier (u : User) : User :=
  apply_update
    {| p_id := None; p_username := None; p_email := None;
       p_password := Some ""; p_fullName := None; p_country := None;
       p_isAdmin := None; p_isEmailVerified := None;
       p_verificationToken := None; p_verificationTokenExpiry := None;
       p_bankDetails := None; p_createdAt := None |} u.

(** Two rows that differ at most in the stored verifier. *)
Definition alike (u1 u2 : User) : Prop := without_verifier u1 = without_verifier u2.

Definition alike_option (x y : option User) : Prop :=
  match x, y with
  | Some u1, Some u2 => alike u1 u2
  | None, None => True
  | _, _ => False
  end.

(** Two databases that differ at most in stored verifiers. *)
Definition same_but_verifiers (db1 db2 : DB) : Prop :=
  Forall2 alike (users db1) (users db2)
  /\ users_id_seq db1 = users_id_seq db2.

(** An update that leaves the key columns alone. *)
Definition keeps_keys (p : PartialUser) : Prop :=
  p_id p = None /\ p_username p = None /\ p_email p = None.

(** An update under which a paired row stays paired. *)
Definition pairs_kept (p : PartialUser) : Prop :=
  forall u, token_paired u -> token_paired (apply_update p u).

(** The object literals the handlers pass to [updateUser]. *)
Definition token_update (verified : option bool) (t : option string) (e : option Z)
  : PartialUser :=
  {| p_id := None; p_username := None; p_email := None;
     p_password := None; p_fullName := None; p_country := None;
     p_isAdmin := None; p_isEmailVerified := verified;
     p_verificationToken := Some t;
     p_verificationTokenExpiry := Some e;
     p_bankDetails := None; p_createdAt := None |}.

(* ================================================================== *)
(** * Sample data *)

(** A stand-in key derivation for running the handlers on examples: the
    bytes of password and salt, padded to the key length. *)
Definition sample_kdf (pass salt : string) (keylen : nat) : list byte :=
  firstn keylen (list_byte_of_string (pass ++ salt) ++ repeat x00 keylen).

Definition sample_fromZodError (issues : list ZodIssue) : string :=
  "Validation error".

Definition sample_entropy : Entropy := fun i => or_else (Byte.of_nat (i mod 256)) x00.

Definition alice_verifier : string :=
  fst (hashPassword sample_kdf "secret123" sample_entropy).

Definition alice : User :=
  {| id := 1; username := "alice"; email := "alice@example.com";
     password := alice_verifier; fullName := Some "Alice"; country := "NG";
     isAdmin := false; isEmailVerified := false;
     verificationToken := Some "c0ffee";
     verificationTokenExpiry := Some 1000;
     bankDetails := None; createdAt := 0 |}.

Definition carol : User :=
  {| id := 2; username := "carol"; email := "carol@example.com";
     password := alice_verifier; fullName := None; country := "GH";
     isAdmin := false; isEmailVerified := true;
     verificationToken := None;
     verificationTokenExpiry := None;
     bankDetails := None; createdAt := 0 |}.

Definition sample_db : DB := {| users := [alice; carol]; users_id_seq := 3 |}.

Definition sample_req : Req :=
  {| body := []; query_token := None; params_id := 0;
     cookies_adminToken := None; session_user := None;
     now := 5000; entropy := sample_entropy |}.

Definition with_body (o : object) (r : Req) : Req :=
  mkReq o (query_token r) (params_id r) (cookies_adminToken r)
        (session_user r) (now r) (entropy r).

Definition with_session (s : option Z) (r : Req) : Req :=
  mkReq (body r) (query_token r) (params_id r) (cookies_adminToken r)
        s (now r) (entropy r).

Definition credentials (name pass : string) : object :=
  [("username", VStr name); ("password", VStr pass)].

(** A registration that asks for the administrator flag. *)
Definition bob_registration : object :=
  [("username", VStr "bob"); ("email", VStr "bob@example.com");
   ("password", VStr "hunter22"); ("isAdmin", VBool true)].

(** The database after bob has registered on the empty one. *)
Definition bob_registered : DB :=
  db_after (serve sample_kdf sample_fromZodError Register
              (with_body bob_registration sample_req) initial_db).

(** An admin update whose body is [{ "verificationToken": null }]. *)
Definition admin_clears_token_only : Req :=
  {| body := [("verificationToken", VNull)];
     query_token := None; params_id := 1;
     cookies_adminToken := Some "anything"; session_user := None;
     now := 6000; entropy := sample_entropy |}.

(** An admin update that stores a password as it was typed:
    [{ "password": "hunter22" }] for user 1. *)
Definition admin_sets_plain_password : Req :=
  {| body := [("password", VStr "hunter22")];
     query_token := None; params_id := 1;
     cookies_adminToken := Some "anything"; session_user := None;
     now := 6000; entropy := sample_entropy |}.

(** The database after bob has registered and that update was served. *)
Definition bob_with_plain_password : DB :=
  db_after (serve sample_kdf sample_fromZodError AdminUpdateUser
              admin_sets_plain_password bob_registered).

(** [sample_db] with other verifiers stored. *)
Definition sample_db_rehashed : DB :=
  {| users := map (apply_update
                     {| p_id := None; p_username := None; p_email := None;
                        p_password :=
                          Some (fst (hashPassword sample_kdf "secret123"
                                       (fun i => sample_entropy (7 + i)%nat)));
                        p_fullName := None; p_country := None;
                        p_isAdmin := None; p_isEmailVerified := None;
                        p_verificationToken := None;
                        p_verificationTokenExpiry := None;
                        p_bankDetails := None; p_createdAt := None |})
                  (users sample_db);
     users_id_seq := users_id_seq sample_db |}.

(* ================================================================== *)
(** * Further predicates on the users table *)

(** Every id handed out so far lies below the sequence. *)
Definition ids_below_seq (db : DB) : Prop :=
  Forall (fun u => id u < users_id_seq db) (users db).

(** A row with the two columns a profile update may write blanked. *)
Definition without_profile (u : User) : User :=
  apply_update
    {| p_id := None; p_username := None; p_email := None;
       p_password := None; p_fullName := Some None; p_country := None;
       p_isAdmin := None; p_isEmailVerified := None;
       p_verificationToken := None; p_verificationTokenExpiry := None;
       p_bankDetails := Some None; p_createdAt := None |} u.

(** A row with its verification state blanked. *)
Definition without_verification (u : User) : User :=
  apply_update
    {| p_id := None; p_username := None; p_email := None;
       p_password := None; p_fullName := None; p_country := None;
       p_isAdmin := None; p_isEmailVerified := Some false;
       p_verificationToken := Some None; p_verificationTokenExpiry := Some None;
       p_bankDetails := None; p_createdAt := None |} u.

(** The ids of the identities a token resolves to. *)
Definition token_holders (db : DB) (token : string) : list Z :=
  map id (getUserByVerificationToken db token).

(* ================================================================== *)
(** * The session middleware *)

(** [app.use(passport.session())] with the [deserializeUser] callback,
    mounted before every route.  Without a session the request goes on
    with no [req.user]; a session that names a row goes on with that row;
    for a session whose id has no row [storage.getUser] hands passport
    [undefined], no deserializer is left, and passport ends the request
    with an error before any gate or handler runs. *)
Definition passport_session (h : Handler) : Handler :=
  fun req db =>
    match session_user req with
    | None => h req db
    | Some i =>
        match getUser db i with
        | Some _ => h req db
        | None =>
            mkServed db (session_user req)
              (Next (Error "Failed to deserialize user out of session"))
        end
    end.

(* ================================================================== *)
(** * The admin surface of the main router *)

(** What a handler does to the [adminToken] cookie. *)
Inductive CookieChange : Type :=
| cookie_kept
| cookie_set (token : string)
| cookie_cleared.

Record AdminServed : Type := mkAdminServed {
  cookie_change : CookieChange;
  admin_outcome : Outcome
}.

(** The cookie the browser sends with its next request. *)
Definition next_cookie (c : CookieChange) (old : option string) : option string :=
  match c with
  | cookie_kept => old
  | cookie_set token => Some token
  | cookie_cleared => None
  end.

(** [v === s] for a body property [v]. *)
Definition is_string (v : option value) (s : string) : bool :=
  match v with
  | Some (VStr t) => String.eqb t s
  | _ => false
  end.

(** [POST /api/admin/login]: one fixed pair of credentials; the token is
    put in the cookie and kept nowhere else. *)
Definition post_api_admin_login (req : Req) : AdminServed :=
  let username := get "username" (body req) in
  let password := get "password" (body req) in
  if is_string username "admin" && is_string password "admin123"
  then
    let (bytes, _) := randomBytes 32 (entropy req) in
    let token := toString_hex bytes in
    mkAdminServed (cookie_set token)
      (Respond 200 (json (VObj [("success", VBool true);
                                ("message", VStr "Admin login successful")])))
  else
    mkAdminServed cookie_kept
      (Respond 401 (json (VObj [("success", VBool false);
                                ("message", VStr "Invalid admin credentials")]))).

(** [POST /api/admin/logout], behind [requireAdminToken]. *)
Definition post_api_admin_logout (req : Req) (db : DB) : AdminServed :=
  match requireAdminToken req db with
  | Block status b => mkAdminServed cookie_kept (Respond status b)
  | Pass =>
      mkAdminServed cookie_cleared
        (Respond 200 (json (VObj [("success", VBool true);
                                  ("message", VStr "Admin logout successful")])))
  end.

Definition with_cookie (c : option string) (r : Req) : Req :=
  mkReq (body r) (query_token r) (params_id r) c (session_user r) (now r) (entropy r).

Definition with_params_id (i : Z) (r : Req) : Req :=
  mkReq (body r) (query_token r) i (cookies_adminToken r) (session_user r)
        (now r) (entropy r).

Definition with_query_token (t : option string) (r : Req) : Req :=
  mkReq (body r) t (params_id r) (cookies_adminToken r) (session_user r)
        (now r) (entropy r).

Definition with_now (t : Z) (r : Req) : Req :=
  mkReq (body r) (query_token r) (params_id r) (cookies_adminToken r)
        (session_user r) t (entropy r).

(* ================================================================== *)
(** * Names for the parts of a registration *)

Section RegistrationParts.

Variable scrypt : string -> string -> nat -> list byte.

(** The row a registration inserts, before the token is written to it. *)
Definition registered_row (req : Req) (db : DB) (userData : InsertUser) : User :=
  new_row (users_id_seq db)
    {| iu_username := iu_username userData;
       iu_email := iu_email userData;
       iu_password :=
         fst (hashPassword scrypt (iu_password userData)
                (snd (generateVerificationToken (entropy req))));
       iu_fullName := iu_fullName userData;
       iu_country := iu_country userData;
       iu_bankDetails := iu_bankDetails userData |} (now req).

End RegistrationParts.

(** The update a registration applies to its new row. *)
Definition registration_token_update (req : Req) : PartialUser :=
  token_update (Some false) (Some (fst (generateVerificationToken (entropy req))))
    (Some (now req + day_ms)).

Definition created_message : object :=
  [("message", VStr "Account created successfully. Please check your email to verify your account.")].

(* ================================================================== *)
(** * Sorting *)

(** A stable sort: [before x y] says that [x] may stand before [y].  Both
    [Array.prototype.sort] with a comparator [c], as [c(x, y) <= 0], and
    [ORDER BY] are taken as this sort; rows that compare equal keep the
    order they had. *)
Fixpoint insert_sorted {A : Type} (before : A -> A -> bool) (x : A) (l : list A)
  : list A :=
  match l with
  | [] => [x]
  | y :: rest => if before x y then x :: l else y :: insert_sorted before x rest
  end.

Fixpoint stable_sort {A : Type} (before : A -> A -> bool) (l : list A) : list A :=
  match l with
  | [] => []
  | x :: rest => insert_sorted before x (stable_sort before rest)
  end.

Definition descending {A : Type} (key : A -> Z) (x y : A) : bool := key y <=? key x.

(* ================================================================== *)
(** * Messages *)

Record Message : Type := mkMessage {
  m_id : Z;
  m_senderId : Z;
  m_receiverId : Z;
  m_message : string;
  m_isRead : bool;
  m_createdAt : Z
}.

(** [InsertMessage]: the insert schema of [messages] without [id],
    [isRead] and [createdAt]. *)
Record InsertMessage : Type := mkInsertMessage {
  im_senderId : Z;
  im_receiverId : Z;
  im_message : string
}.

(** The users and the [messages] table with its sequence. *)
Record MessagesDB : Type := mkMessagesDB {
  accounts : DB;
  messages : list Message;
  messages_id_seq : Z
}.

Definition getMessage (db : MessagesDB) (i : Z) : option Message :=
  hd_error (filter (fun m => Z.eqb (m_id m) i) (messages db)).

(** One optional equality condition of a query. *)
Definition matches (param : option Z) (x : Z) : bool :=
  match param with
  | Some v => Z.eqb x v
  | None => true
  end.

(** [getMessages]: the conditions that are given, newest first. *)
Definition getMessages (db : MessagesDB) (senderId receiverId : option Z)
  : list Message :=
  stable_sort (descending m_createdAt)
    (filter (fun m => matches senderId (m_senderId m)
                      && matches receiverId (m_receiverId m))
            (messages db)).

Definition user_exists (db : DB) (i : Z) : bool := existsb (fun u => Z.eqb (id u) i) (users db).

(** [createMessage]: the spread of the input, then [isRead: false].  The
    insert must respect the primary key and the two references to
    [users]. *)
Definition createMessage (db : MessagesDB) (insertMessage : InsertMessage) (t : Z)
  : MessagesDB * result Message :=
  let msg :=
    {| m_id := messages_id_seq db;
       m_senderId := im_senderId insertMessage;
       m_receiverId := im_receiverId insertMessage;
       m_message := im_message insertMessage;
       m_isRead := false;
       m_createdAt := t |} in
  let next := messages_id_seq db + 1 in
  if distinct Z.eqb (map m_id (messages db ++ [msg]))
     && user_exists (accounts db) (m_senderId msg)
     && user_exists (accounts db) (m_receiverId msg)
  then (mkMessagesDB (accounts db) (messages db ++ [msg]) next, Ok msg)
  else (mkMessagesDB (accounts db) (messages db) next,
        Throw (DbError "constraint violation")).

Definition read (m : Message) : Message :=
  mkMessage (m_id m) (m_senderId m) (m_receiverId m) (m_message m) true (m_createdAt m).

(** [markMessageAsRead]: [SET is_read = true WHERE id = i]. *)
Definition markMessageAsRead (db : MessagesDB) (i : Z)
  : MessagesDB * option Message :=
  (mkMessagesDB (accounts db)
     (map (fun m => if Z.eqb (m_id m) i then read m else m) (messages db))
     (messages_id_seq db),
   hd_error (map read (filter (fun m => Z.eqb (m_id m) i) (messages db)))).

Definition message_object (m : Message) : object :=
  [ ("id", VNum (m_id m));
    ("senderId", VNum (m_senderId m));
    ("receiverId", VNum (m_receiverId m));
    ("message", VStr (m_message m));
    ("isRead", VBool (m_isRead m));
    ("createdAt", VDate (m_createdAt m)) ].

(** The checks [createInsertSchema] derives from the column types: an
    [integer] column asks for an integer from -2147483648 to 2147483647,
    a [real] column for a number from -8388608 to 8388607. *)
Definition int4_min : Z := -2147483648.
Definition int4_max : Z := 2147483647.

Definition in_int4 (n : Z) : bool := (int4_min <=? n) && (n <=? int4_max).

Definition expect_integer (path : string) (o : object) : list ZodIssue :=
  match get path o with
  | Some (VNum n) =>
      if n <? int4_min
      then [too_small path "Number must be greater than or equal to -2147483648"]
      else if int4_max <? n
      then [too_big path "Number must be less than or equal to 2147483647"]
      else []
  | _ => [invalid_type path]
  end.

Definition expect_real (path : string) (o : object) : list ZodIssue :=
  match get path o with
  | Some (VNum n) =>
      if n <? -8388608
      then [too_small path "Number must be greater than or equal to -8388608"]
      else if 8388607 <? n
      then [too_big path "Number must be less than or equal to 8388607"]
      else []
  | _ => [invalid_type path]
  end.

(** The [id] column of [users] holds 4-byte integers. *)
Definition ids_int4 (db : DB) : Prop :=
  Forall (fun u => in_int4 (id u) = true) (users db).

Definition number_of (v : option value) : Z :=
  match v with Some (VNum n) => n | _ => 0 end.

(** [insertMessageSchema.parse]. *)
Definition insertMessageSchema_parse (o : object) : result InsertMessage :=
  let issues :=
    expect_integer "senderId" o ++ expect_integer "receiverId" o
    ++ expect_string "message" o in
  match issues with
  | [] => Ok {| im_senderId := number_of (get "senderId" o);
                im_receiverId := number_of (get "receiverId" o);
                im_message := string_of (get "message" o) |}
  | _ => Throw (ZodError issues)
  end.

(** How a handler of the main router ends: with an answer, or, when
    [handleValidationError] rethrows, with a rejected promise and no
    answer. *)
Inductive Reply : Type :=
| Answered (status : Z) (b : Body)
| Unanswered (e : exn).

Record MessagesServed : Type := mkMessagesServed {
  messages_after : MessagesDB;
  reply : Reply
}.

Section MessageRoutes.

Variable fromZodError : list ZodIssue -> string.

(** [handleValidationError]. *)
Definition handleValidationError (error : exn) : Reply :=
  match error with
  | ZodError issues => Answered 400 (message (fromZodError issues))
  | _ => Unanswered error
  end.

(** The conversation between two users as [GET /api/messages/:userId]
    assembles it. *)
Definition conversation (db : MessagesDB) (currentUserId otherUserId : Z)
  : list Message :=
  let sentMessages := getMessages db (Some currentUserId) (Some otherUserId) in
  let receivedMessages := getMessages db (Some otherUserId) (Some currentUserId) in
  stable_sort (fun a b => m_createdAt a - m_createdAt b <=? 0)
    (sentMessages ++ receivedMessages).

(** [GET /api/messages/:userId], behind [requireAuth]. *)
Definition get_api_messages (req : Req) (db : MessagesDB) : MessagesServed :=
  match requireAuth req (accounts db) with
  | Block status b => mkMessagesServed db (Answered status b)
  | Pass =>
      match req_user req (accounts db) with
      | None => mkMessagesServed db (Answered 500 (message "Failed to fetch messages"))
      | Some user =>
          let allMessages := conversation db (id user) (params_id req) in
          mkMessagesServed db
            (Answered 200 (json (VArr (map (fun m => VObj (message_object m))
                                           allMessages))))
      end
  end.

(** [POST /api/messages], behind [requireAuth]. *)
Definition post_api_messages (req : Req) (db : MessagesDB) : MessagesServed :=
  match requireAuth req (accounts db) with
  | Block status b => mkMessagesServed db (Answered status b)
  | Pass =>
      match req_user req (accounts db) with
      | None =>
          mkMessagesServed db
            (handleValidationError (TypeError "Cannot read properties of undefined"))
      | Some user =>
          match insertMessageSchema_parse (put "senderId" (VNum (id user)) (body req)) with
          | Throw error => mkMessagesServed db (handleValidationError error)
          | Ok messageData =>
              match getUser (accounts db) (im_receiverId messageData) with
              | None => mkMessagesServed db (Answered 404 (message "Recipient not found"))
              | Some _ =>
                  match createMessage db messageData (now req) with
                  | (db1, Throw error) =>
                      mkMessagesServed db1 (handleValidationError error)
                  | (db1, Ok newMessage) =>
                      mkMessagesServed db1
                        (Answered 201 (json (VObj (message_object newMessage))))
                  end
              end
          end
      end
  end.

End MessageRoutes.

(** [PATCH /api/messages/:id/read], behind [requireAuth]. *)
Definition patch_api_messages_read (req : Req) (db : MessagesDB) : MessagesServed :=
  match requireAuth req (accounts db) with
  | Block status b => mkMessagesServed db (Answered status b)
  | Pass =>
      match getMessage db (params_id req) with
      | None => mkMessagesServed db (Answered 404 (message "Message not found"))
      | Some msg =>
          match req_user req (accounts db) with
          | None =>
              mkMessagesServed db
                (Answered 500 (message "Failed to mark message as read"))
          | Some user =>
              if negb (Z.eqb (m_receiverId msg) (id user))
              then mkMessagesServed db
                     (Answered 403 (message "You can only mark messages sent to you as read"))
              else
                let (db1, updatedMessage) := markMessageAsRead db (params_id req) in
                mkMessagesServed db1
                  (Answered 200 (json (nullable (fun m => VObj (message_object m))
                                                updatedMessage)))
          end
      end
  end.

(** The messages table is well formed: ids distinct and below the
    sequence. *)
Definition messages_ok (db : MessagesDB) : Prop :=
  distinct Z.eqb (map m_id (messages db)) = true
  /\ Forall (fun m => m_id m < messages_id_seq db) (messages db).

(** A message with its read flag blanked. *)
Definition unread (m : Message) : Message :=
  mkMessage (m_id m) (m_senderId m) (m_receiverId m) (m_message m) false (m_createdAt m).

(** A message exchanged between the two users. *)
Definition between (a b : Z) (m : Message) : bool :=
  (Z.eqb (m_senderId m) a && Z.eqb (m_receiverId m) b)
  || (Z.eqb (m_senderId m) b && Z.eqb (m_receiverId m) a).

(* ================================================================== *)
(** * Advertisements *)

Record Advertisement : Type := mkAdvertisement {
  ad_id : Z;
  ad_title : string;
  ad_description : string;
  ad_imageUrl : option string;
  ad_linkUrl : string;
  ad_actionText : option string;
  ad_placement : string;
  ad_country : option string;
  ad_priority : Z;
  ad_isActive : bool;
  ad_startDate : option Z;
  ad_endDate : option Z;
  ad_createdAt : Z;
  ad_updatedAt : option Z
}.

(** The optional parameters of [getAdvertisements]. *)
Record AdParams : Type := mkAdParams {
  ap_placement : option string;
  ap_country : option string;
  ap_isActive : option bool
}.

Definition placement_matches (params : AdParams) (ad : Advertisement) : bool :=
  match ap_placement params with
  | Some p => String.eqb (ad_placement ad) p
  | None => true
  end.

(** The country condition lets ads without a country through. *)
Definition country_matches (params : AdParams) (ad : Advertisement) : bool :=
  match ap_country params with
  | Some c =>
      match ad_country ad with
      | Some c' => String.eqb c' c
      | None => true
      end
  | None => true
  end.

Definition isActive_matches (params : AdParams) (ad : Advertisement) : bool :=
  match ap_isActive params with
  | Some b => Bool.eqb (ad_isActive ad) b
  | None => true
  end.

(** The date window, applied only when [isActive === true]. *)
Definition window_matches (params : AdParams) (currentDate : Z) (ad : Advertisement)
  : bool :=
  match ap_isActive params with
  | Some true =>
      match ad_startDate ad with
      | Some s => s <=? currentDate
      | None => true
      end
      && match ad_endDate ad with
         | Some e => currentDate <=? e
         | None => true
         end
  | _ => true
  end.

(** [getAdvertisements]: the conditions the parameters give, highest
    priority first. *)
Definition getAdvertisements (ads : list Advertisement) (params : option AdParams)
  (currentDate : Z) : list Advertisement :=
  stable_sort (descending ad_priority)
    (match params with
     | Some params =>
         filter (fun ad => placement_matches params ad
                           && country_matches params ad
                           && isActive_matches params ad
                           && window_matches params currentDate ad)
                ads
     | None => ads
     end).

(** The parameters [GET /api/advertisements] builds from its query
    string: always active ads, and the placement and country that are
    given and not empty. *)
Definition public_ad_params (query_placement query_country : option string) : AdParams :=
  {| ap_placement := if truthy query_placement then query_placement else None;
     ap_country := if truthy query_country then query_country else None;
     ap_isActive := Some true |}.

(** The list [GET /api/advertisements] answers with. *)
Definition get_api_advertisements (ads : list Advertisement)
  (query_placement query_country : option string) (currentDate : Z)
  : list Advertisement :=
  getAdvertisements ads (Some (public_ad_params query_placement query_country))
    currentDate.

(* ================================================================== *)
(** * Sample messages *)

Definition sample_messages : MessagesDB :=
  {| accounts := sample_db;
     messages :=
       [ mkMessage 1 1 2 "Is the code still valid?" false 10;
         mkMessage 2 2 1 "Yes, until Sunday." false 20;
         mkMessage 3 2 1 "Earlier note" true 5 ];
     messages_id_seq := 4 |}.

(** A message body that tries to pose as another sender and as read. *)
Definition forged_message : object :=
  [("senderId", VNum 2); ("receiverId", VNum 2); ("message", VStr "hello");
   ("isRead", VBool true); ("id", VNum 77)].
(* ================================================================== *)
(** * Bet codes, transactions and reviews *)

Section Marketplace.

(** JavaScript numbers that need not be integers (the [real] columns
    [price] and [amount]), with their addition and the embedding of the
    integer literals. *)
Variable real : Type.
Variable real_add : real -> real -> real.
Variable real_of_Z : Z -> real.

(** What a [real] column stores of a number: PostgreSQL rounds it to the
    nearest 4-byte float and refuses a number that is out of that type's
    range. *)
Variable real_column : real -> option real.

Variable fromZodError : list ZodIssue -> string.

Record BetCode : Type := mkBetCode {
  bc_id : Z;
  bc_sellerId : Z;
  bc_country : string;
  bc_platform : string;
  bc_code : string;
  bc_title : string;
  bc_description : option string;
  bc_price : real;
  bc_currency : string;
  bc_validUntil : Z;
  bc_isActive : bool;
  bc_createdAt : Z
}.

Record Transaction : Type := mkTransaction {
  tx_id : Z;
  tx_buyerId : Z;
  tx_sellerId : Z;
  tx_betCodeId : Z;
  tx_amount : real;
  tx_flutterwaveRef : option string;
  tx_status : string;
  tx_notes : option string;
  tx_createdAt : Z;
  tx_updatedAt : option Z
}.

Record Review : Type := mkReview {
  rv_id : Z;
  rv_sellerId : Z;
  rv_reviewerId : Z;
  rv_betCodeId : option Z;
  rv_rating : Z;
  rv_comment : option string;
  rv_createdAt : Z
}.

(** The users and the three tables, with the sequences of the two the
    routes below insert into. *)
Record Market : Type := mkMarket {
  market_users : DB;
  betCodes : list BetCode;
  transactions : list Transaction;
  transactions_id_seq : Z;
  reviews : list Review;
  reviews_id_seq : Z
}.

Definition getBetCode (db : Market) (i : Z) : option BetCode :=
  hd_error (filter (fun b => Z.eqb (bc_id b) i) (betCodes db)).

Definition betCode_exists (db : Market) (i : Z) : bool :=
  existsb (fun b => Z.eqb (bc_id b) i) (betCodes db).

(** Is the bet code referenced by a transaction or a review? *)
Definition betCode_referenced (db : Market) (i : Z) : bool :=
  existsb (fun t => Z.eqb (tx_betCodeId t) i) (transactions db)
  || existsb (fun r => match rv_betCodeId r with
                       | Some b => Z.eqb b i
                       | None => false
                       end) (reviews db).

(** [deleteBetCode]: whether a row was deleted; the foreign keys of
    [transactions] and [reviews] forbid deleting a referenced row. *)
Definition deleteBetCode (db : Market) (i : Z) : Market * result bool :=
  if betCode_exists db i && betCode_referenced db i
  then (db, Throw (DbError "violates foreign key constraint"))
  else
    (mkMarket (market_users db)
       (filter (fun b => negb (Z.eqb (bc_id b) i)) (betCodes db))
       (transactions db) (transactions_id_seq db) (reviews db) (reviews_id_seq db),
     Ok (betCode_exists db i)).

(** The parameters of [getTransactions]. *)
Record TransactionParams : Type := mkTransactionParams {
  tp_buyerId : option Z;
  tp_sellerId : option Z;
  tp_betCodeId : option Z;
  tp_status : option string
}.

Definition getTransactions (db : Market) (params : TransactionParams)
  : list Transaction :=
  stable_sort (descending tx_createdAt)
    (filter (fun t => matches (tp_buyerId params) (tx_buyerId t)
                      && matches (tp_sellerId params) (tx_sellerId t)
                      && matches (tp_betCodeId params) (tx_betCodeId t)
                      && match tp_status params with
                         | Some s => String.eqb (tx_status t) s
                         | None => true
                         end)
            (transactions db)).

(** [InsertTransaction] as the purchase route builds it. *)
Record InsertTransaction : Type := mkInsertTransaction {
  it_buyerId : Z;
  it_sellerId : Z;
  it_betCodeId : Z;
  it_amount : real;
  it_flutterwaveRef : option (option string);
  it_status : string
}.

(** [createTransaction]: the row that [returning()] gives back carries
    the amount as the [real] column stored it.  A value the column refuses
    fails the statement before the sequence is advanced; a violated
    constraint fails it afterwards. *)
Definition createTransaction (db : Market) (insertTransaction : InsertTransaction)
  (t : Z) : Market * result Transaction :=
  match real_column (it_amount insertTransaction) with
  | None => (db, Throw (DbError "value out of range for type real"))
  | Some amount =>
      let row :=
        {| tx_id := transactions_id_seq db;
           tx_buyerId := it_buyerId insertTransaction;
           tx_sellerId := it_sellerId insertTransaction;
           tx_betCodeId := it_betCodeId insertTransaction;
           tx_amount := amount;
           tx_flutterwaveRef := or_else (it_flutterwaveRef insertTransaction) None;
           tx_status := it_status insertTransaction;
           tx_notes := None;
           tx_createdAt := t;
           tx_updatedAt := None |} in
      let next := transactions_id_seq db + 1 in
      if distinct Z.eqb (map tx_id (transactions db ++ [row]))
         && user_exists (market_users db) (tx_buyerId row)
         && user_exists (market_users db) (tx_sellerId row)
         && betCode_exists db (tx_betCodeId row)
      then (mkMarket (market_users db) (betCodes db) (transactions db ++ [row]) next
              (reviews db) (reviews_id_seq db),
            Ok row)
      else (mkMarket (market_users db) (betCodes db) (transactions db) next
              (reviews db) (reviews_id_seq db),
            Throw (DbError "constraint violation"))
  end.

(** [InsertReview]: the insert schema of [reviews] without [id] and
    [createdAt]. *)
Record InsertReview : Type := mkInsertReview {
  ir_sellerId : Z;
  ir_reviewerId : Z;
  ir_betCodeId : option (option Z);
  ir_rating : Z;
  ir_comment : option (option string)
}.

Definition createReview (db : Market) (insertReview : InsertReview) (t : Z)
  : Market * result Review :=
  let row :=
    {| rv_id := reviews_id_seq db;
       rv_sellerId := ir_sellerId insertReview;
       rv_reviewerId := ir_reviewerId insertReview;
       rv_betCodeId := or_else (ir_betCodeId insertReview) None;
       rv_rating := ir_rating insertReview;
       rv_comment := or_else (ir_comment insertReview) None;
       rv_createdAt := t |} in
  let next := reviews_id_seq db + 1 in
  if distinct Z.eqb (map rv_id (reviews db ++ [row]))
     && user_exists (market_users db) (rv_sellerId row)
     && user_exists (market_users db) (rv_reviewerId row)
     && match rv_betCodeId row with
        | Some b => betCode_exists db b
        | None => true
        end
  then (mkMarket (market_users db) (betCodes db) (transactions db)
          (transactions_id_seq db) (reviews db ++ [row]) next,
        Ok row)
  else (mkMarket (market_users db) (betCodes db) (transactions db)
          (transactions_id_seq db) (reviews db) next,
        Throw (DbError "constraint violation")).

Definition expect_nullish_integer (path : string) (o : object) : list ZodIssue :=
  match get path o with
  | None | Some VNull => []
  | _ => expect_integer path o
  end.

Definition nullish_number_of (v : option value) : option (option Z) :=
  match v with
  | Some (VNum n) => Some (Some n)
  | Some VNull => Some None
  | _ => None
  end.

(** What the purchase route keeps of [insertTransactionSchema.parse]: the
    schema asks for [buyerId], [sellerId], [betCodeId], [amount] and
    [status]; the route reads [betCodeId] and [flutterwaveRef]. *)
Definition insertTransactionSchema_parse (o : object)
  : result (Z * option (option string)) :=
  let issues :=
    expect_integer "buyerId" o ++ expect_integer "sellerId" o
    ++ expect_integer "betCodeId" o ++ expect_real "amount" o
    ++ expect_nullish_string "flutterwaveRef" o ++ expect_string "status" o
    ++ expect_nullish_string "notes" o in
  match issues with
  | [] => Ok (number_of (get "betCodeId" o),
              nullish_string_of (get "flutterwaveRef" o))
  | _ => Throw (ZodError issues)
  end.

Definition insertReviewSchema_parse (o : object) : result InsertReview :=
  let issues :=
    expect_integer "sellerId" o ++ expect_integer "reviewerId" o
    ++ expect_nullish_integer "betCodeId" o ++ expect_integer "rating" o
    ++ expect_nullish_string "comment" o in
  match issues with
  | [] => Ok {| ir_sellerId := number_of (get "sellerId" o);
                ir_reviewerId := number_of (get "reviewerId" o);
                ir_betCodeId := nullish_number_of (get "betCodeId" o);
                ir_rating := number_of (get "rating" o);
                ir_comment := nullish_string_of (get "comment" o) |}
  | _ => Throw (ZodError issues)
  end.

(** The answers of these routes: a message or error as before, a row sent
    as JSON, or an empty answer. *)
Inductive MarketReply : Type :=
| replied (r : Reply)
| replied_transaction (status : Z) (row : Transaction)
| replied_review (status : Z) (row : Review)
| replied_empty (status : Z).

Record MarketServed : Type := mkMarketServed {
  market_after : Market;
  market_reply : MarketReply
}.

Definition missing_user : exn := TypeError "Cannot read properties of undefined".

(** [POST /api/transactions], behind [requireAuth]. *)
Definition post_api_transactions (req : Req) (db : Market) : MarketServed :=
  match requireAuth req (market_users db) with
  | Block status b => mkMarketServed db (replied (Answered status b))
  | Pass =>
      match insertTransactionSchema_parse (body req) with
      | Throw error =>
          mkMarketServed db (replied (handleValidationError fromZodError error))
      | Ok (betCodeId, flutterwaveRef) =>
          match getBetCode db betCodeId with
          | None =>
              mkMarketServed db (replied (Answered 404 (message "Bet code not found")))
          | Some betCode =>
              match req_user req (market_users db) with
              | None =>
                  mkMarketServed db
                    (replied (handleValidationError fromZodError missing_user))
              | Some user =>
                  if Z.eqb (bc_sellerId betCode) (id user)
                  then mkMarketServed db
                         (replied (Answered 400 (message "You cannot buy your own bet code")))
                  else
                    let serviceFee := real_of_Z 200 in
                    let totalAmount := real_add (bc_price betCode) serviceFee in
                    match createTransaction db
                            {| it_buyerId := id user;
                               it_sellerId := bc_sellerId betCode;
                               it_betCodeId := betCodeId;
                               it_amount := totalAmount;
                               it_flutterwaveRef := flutterwaveRef;
                               it_status := "completed" |} (now req) with
                    | (db1, Throw error) =>
                        mkMarketServed db1
                          (replied (handleValidationError fromZodError error))
                    | (db1, Ok transaction) =>
                        mkMarketServed db1 (replied_transaction 201 transaction)
                    end
              end
          end
      end
  end.

(** [DELETE /api/betcodes/:id], behind [requireAuth]. *)
Definition delete_api_betcodes (req : Req) (db : Market) : MarketServed :=
  let failed := replied (Answered 500 (message "Failed to delete bet code")) in
  match requireAuth req (market_users db) with
  | Block status b => mkMarketServed db (replied (Answered status b))
  | Pass =>
      match getBetCode db (params_id req) with
      | None => mkMarketServed db (replied (Answered 404 (message "Bet code not found")))
      | Some betCode =>
          match req_user req (market_users db) with
          | None => mkMarketServed db failed
          | Some user =>
              if negb (Z.eqb (bc_sellerId betCode) (id user)) && negb (isAdmin user)
              then mkMarketServed db
                     (replied (Answered 403 (message "Unauthorized to delete this bet code")))
              else
                match deleteBetCode db (params_id req) with
                | (db1, Throw _) => mkMarketServed db1 failed
                | (db1, Ok _) => mkMarketServed db1 (replied_empty 204)
                end
          end
      end
  end.

(** Is the optional id present and truthy? *)
Definition truthy_id (x : option Z) : bool :=
  match x with
  | Some n => negb (Z.eqb n 0)
  | None => false
  end.

(** [POST /api/reviews], behind [requireAuth]. *)
Definition post_api_reviews (req : Req) (db : Market) : MarketServed :=
  match requireAuth req (market_users db) with
  | Block status b => mkMarketServed db (replied (Answered status b))
  | Pass =>
      match req_user req (market_users db) with
      | None =>
          mkMarketServed db (replied (handleValidationError fromZodError missing_user))
      | Some user =>
          match insertReviewSchema_parse (put "reviewerId" (VNum (id user)) (body req)) with
          | Throw error =>
              mkMarketServed db (replied (handleValidationError fromZodError error))
          | Ok reviewData =>
              match getUser (market_users db) (ir_sellerId reviewData) with
              | None =>
                  mkMarketServed db (replied (Answered 404 (message "Seller not found")))
              | Some _ =>
                  let betCodeId := or_else (ir_betCodeId reviewData) None in
                  let store :=
                    match createReview db reviewData (now req) with
                    | (db1, Throw error) =>
                        mkMarketServed db1
                          (replied (handleValidationError fromZodError error))
                    | (db1, Ok newReview) =>
                        mkMarketServed db1 (replied_review 201 newReview)
                    end in
                  if truthy_id betCodeId
                  then
                    match getBetCode db (or_else betCodeId 0) with
                    | None =>
                        mkMarketServed db
                          (replied (Answered 404 (message "Bet code not found")))
                    | Some _ =>
                        match getTransactions db
                                {| tp_buyerId := Some (id user);
                                   tp_sellerId := None;
                                   tp_betCodeId := betCodeId;
                                   tp_status := Some "completed" |} with
                        | [] =>
                            mkMarketServed db
                              (replied (Answered 403
                                 (message "You can only review bet codes you've purchased")))
                        | _ :: _ => store
                        end
                    end
                  else store
              end
          end
      end
  end.

End Marketplace.

(* ================================================================== *)
(** * Sample market *)

(** JavaScript numbers are binary64 floats; [+] is their addition. *)
Definition number : Type := PrimFloat.float.

Definition number_add : number -> number -> number := PrimFloat.add.

(** The number an integer literal denotes. *)
Definition number_of_Z (z : Z) : number :=
  FloatOps.SF2Prim (SpecFloat.binary_normalize 53 1024 z 0 false).

(** The nearest 4-byte float of a number, ties to even. *)
Definition fround (x : number) : number :=
  match FloatOps.Prim2SF x with
  | SpecFloat.S754_finite s m e =>
      FloatOps.SF2Prim
        (SpecFloat.binary_round_aux 24 128 s (Zpos m) e SpecFloat.loc_Exact)
  | _ => x
  end.

(** A [real] column of PostgreSQL: the driver sends the number as its
    decimal text, where [-0] reads [0]; the column keeps the nearest
    4-byte float and refuses a finite number that this rounding takes to
    infinity or, when it is not zero, to zero.  [NaN] and the infinities
    are stored as they are.  The rounding is taken of the number itself,
    which is what the column does whenever the decimal text is exact, as
    it is for every integer. *)
Definition float4_column (x : number) : option number :=
  match FloatOps.Prim2SF x with
  | SpecFloat.S754_zero _ => Some (number_of_Z 0)
  | SpecFloat.S754_finite _ _ _ =>
      match FloatOps.Prim2SF (fround x) with
      | SpecFloat.S754_finite _ _ _ => Some (fround x)
      | _ => None
      end
  | _ => Some x
  end.

(** A market: alice sells two bet codes, carol has bought the first. *)
Definition sample_market : Market number :=
  {| market_users := sample_db;
     betCodes :=
       [ mkBetCode 1 1 "NG" "Bet9ja" "B9-12345" "Weekend accumulator" None
           (number_of_Z 1000) "NGN" 900000 true 100;
         mkBetCode 2 1 "NG" "SportyBet" "SB-777" "Season ticket" None
           (number_of_Z 16777215) "NGN" 900000 true 150 ];
     transactions :=
       [ mkTransaction 1 2 1 1 (number_of_Z 1200) None "completed" None 200 None ];
     transactions_id_seq := 2;
     reviews := [];
     reviews_id_seq := 1 |}.

Definition purchase_of (betCodeId : Z) : object :=
  [("buyerId", VNum 2); ("sellerId", VNum 2); ("betCodeId", VNum betCodeId);
   ("amount", VNum 0); ("status", VStr "pending")].

(* ================================================================== *)
(** * Properties of the hex encoding *)

Lemma unhex_hex_byte (b : byte) :
  let n := Byte.to_N b in
  unhex (hex_digit (n / 16)) = Some (n / 16)%N
  /\ unhex (hex_digit (n mod 16)) = Some (n mod 16)%N
  /\ Byte.of_N (16 * (n / 16) + n mod 16) = Some b.
Proof. destruct b; vm_compute; repeat split. Qed.

Lemma hex_digit_not_dot (b : byte) :
  let n := Byte.to_N b in
  Ascii.eqb (hex_digit (n / 16)) "." = false
  /\ Ascii.eqb (hex_digit (n mod 16)) "." = false.
Proof. destruct b; vm_compute; split; reflexivity. Qed.

Lemma hex_digit_is_hex (b : byte) :
  let n := Byte.to_N b in
  is_hex_char (hex_digit (n / 16)) = true
  /\ is_hex_char (hex_digit (n mod 16)) = true.
Proof. destruct b; vm_compute; split; reflexivity. Qed.

Lemma Buffer_from_hex_toString (buf : list byte) :
  Buffer_from_hex (toString_hex buf) = buf.
Proof.
  induction buf as [|b rest IH]; [reflexivity|].
  cbn [toString_hex Buffer_from_hex].
  destruct (unhex_hex_byte b) as (Hh & Hl & Hb).
  cbv zeta in Hh, Hl, Hb. rewrite Hh, Hl, Hb, IH. reflexivity.
Qed.

Lemma toString_hex_lacks_dot (buf : list byte) :
  lacks "." (toString_hex buf) = true.
Proof.
  induction buf as [|b rest IH]; [reflexivity|].
  unfold lacks in *. cbn [toString_hex string_forallb].
  destruct (hex_digit_not_dot b) as (Hh & Hl). cbv zeta in Hh, Hl.
  rewrite Hh, Hl, IH. reflexivity.
Qed.

Lemma toString_hex_length (buf : list byte) :
  String.length (toString_hex buf) = (2 * List.length buf)%nat.
Proof.
  induction buf as [|b rest IH]; [reflexivity|].
  cbn [toString_hex String.length List.length]. rewrite IH. lia.
Qed.

Lemma toString_hex_is_hex (buf : list byte) :
  string_forallb is_hex_char (toString_hex buf) = true.
Proof.
  induction buf as [|b rest IH]; [reflexivity|].
  cbn [toString_hex string_forallb].
  destruct (hex_digit_is_hex b) as (Hh & Hl). cbv zeta in Hh, Hl.
  rewrite Hh, Hl, IH. reflexivity.
Qed.

Lemma split_lacks (sep : ascii) (s : string) :
  lacks sep s = true -> split sep s = [s].
Proof.
  unfold lacks. induction s as [|c rest IH]; cbn [split string_forallb]; [reflexivity|].
  intros H. apply andb_true_iff in H. destruct H as [Hc Hrest].
  apply negb_true_iff in Hc. rewrite Hc, (IH Hrest). reflexivity.
Qed.

Lemma split_append (sep : ascii) (a b : string) :
  lacks sep a = true ->
  split sep (a ++ String sep b) = a :: split sep b.
Proof.
  unfold lacks. induction a as [|c rest IH]; cbn [split string_forallb String.append].
  - intros _. rewrite Ascii.eqb_refl. reflexivity.
  - intros H. apply andb_true_iff in H. destruct H as [Hc Hrest].
    apply negb_true_iff in Hc. rewrite Hc, (IH Hrest). reflexivity.
Qed.

Lemma buffer_eqb_refl (a : list byte) : buffer_eqb a a = true.
Proof.
  induction a as [|x a IH]; [reflexivity|].
  cbn [buffer_eqb]. unfold byte_eqb. rewrite (Byte.byte_dec_lb (eq_refl x)). exact IH.
Qed.

Lemma randomBytes_length (n : nat) (e : Entropy) :
  List.length (fst (randomBytes n e)) = n.
Proof. unfold randomBytes. cbn [fst]. rewrite length_map, length_seq. reflexivity. Qed.

Section HashingProps.

Variable scrypt : string -> string -> nat -> list byte.

Lemma hashPassword_shape (p : string) (e : Entropy) :
  fst (hashPassword scrypt p e)
  = (toString_hex (scrypt p (toString_hex (fst (randomBytes 16 e))) 64)
     ++ String "." (toString_hex (fst (randomBytes 16 e))))%string.
Proof. reflexivity. Qed.

(** C1. Verifying a plaintext against the verifier that hashing it
    produced succeeds, whatever salt was drawn: [comparePasswords p
    (hashPassword p)] returns [true]. *)
Theorem comparePasswords_hashPassword (p : string) (e : Entropy) :
  comparePasswords scrypt p (fst (hashPassword scrypt p e)) = Ok true.
Proof.
  rewrite hashPassword_shape.
  set (salt := toString_hex (fst (randomBytes 16 e))).
  set (key := scrypt p salt 64).
  unfold comparePasswords.
  rewrite split_append by apply toString_hex_lacks_dot.
  rewrite split_lacks by apply toString_hex_lacks_dot.
  cbn [nth_error Buffer_from bind scryptAsync].
  rewrite Buffer_from_hex_toString. fold key.
  unfold timingSafeEqual. rewrite Nat.eqb_refl, buffer_eqb_refl. reflexivity.
Qed.

End HashingProps.

(* ================================================================== *)
(** * Login *)

Lemma loginSchema_parse_Ok (o : object) (c : LoginCredentials) :
  loginSchema_parse o = Ok c ->
  get "username" o = Some (VStr (lc_username c))
  /\ get "password" o = Some (VStr (lc_password c))
  /\ (3 <= String.length (lc_username c))%nat
  /\ (6 <= String.length (lc_password c))%nat.
Proof.
  unfold loginSchema_parse, expect_min.
  destruct (get "username" o) as [[| | |name| | |]|]; try discriminate;
  destruct (get "password" o) as [[| | |pass| | |]|];
    try (destruct (Nat.ltb (String.length name) 3); discriminate).
  destruct (Nat.ltb (String.length name) 3) eqn:Hn; [discriminate|].
  destruct (Nat.ltb (String.length pass) 6) eqn:Hp; [discriminate|].
  cbn. intros H. injection H as <-. cbn.
  apply Nat.ltb_ge in Hn. apply Nat.ltb_ge in Hp. auto.
Qed.

Lemma truthy_of_length (s : string) (n : nat) :
  (S n <= String.length s)%nat -> truthy (Some s) = true.
Proof. destruct s; cbn; [lia|reflexivity]. Qed.

Section LoginProps.

Variable scrypt : string -> string -> nat -> list byte.
Variable fromZodError : list ZodIssue -> string.

Lemma authenticate_local_validated (db : DB) (o : object) (c : LoginCredentials) :
  loginSchema_parse o = Ok c ->
  authenticate_local scrypt db o = verify scrypt db (lc_username c) (lc_password c).
Proof.
  intros H. destruct (loginSchema_parse_Ok _ H) as (Hu & Hp & Hlu & Hlp).
  unfold authenticate_local. rewrite Hu, Hp. cbn [optional_string_of string_of].
  rewrite (truthy_of_length _ Hlu), (truthy_of_length _ Hlp). reflexivity.
Qed.

(** C3 (as the code has it). A login whose handle matches no identity is
    answered 401 with the message "Invalid username or password".  A login
    whose handle matches an identity gets that same answer exactly when
    [comparePasswords] returns [false]; then neither run changes the
    database or the session.  When [comparePasswords] throws, the login
    for the existing identity ends in [next(err)], which is not the 401
    answer: the two failures can then be told apart. *)
Theorem login_failures_indistinguishable
  (req1 req2 : Req) (db1 db2 : DB) (c1 c2 : LoginCredentials) (user : User)
  (Hvalid1 : loginSchema_parse (body req1) = Ok c1)
  (Hvalid2 : loginSchema_parse (body req2) = Ok c2)
  (Hunknown : getUserByUsername db1 (lc_username c1) = None)
  (Hknown : getUserByUsername db2 (lc_username c2) = Some user) :
  let unknown_handle := post_api_login scrypt fromZodError req1 db1 in
  let known_handle := post_api_login scrypt fromZodError req2 db2 in
  let verified := comparePasswords scrypt (lc_password c2) (password user) in
  unknown_handle
  = mkServed db1 (session_user req1)
      (Respond 401 (message "Invalid username or password"))
  /\ db_after known_handle = db2
  /\ (outcome known_handle = outcome unknown_handle <-> verified = Ok false)
  /\ (verified = Ok false -> session_after known_handle = session_user req2)
  /\ (forall e, verified = Throw e ->
                known_handle = mkServed db2 (session_user req2) (Next e)).
Proof.
  cbv zeta. unfold post_api_login.
  rewrite Hvalid1, Hvalid2.
  rewrite (authenticate_local_validated db1 _ Hvalid1).
  rewrite (authenticate_local_validated db2 _ Hvalid2).
  unfold verify. rewrite Hunknown, Hknown.
  destruct (comparePasswords scrypt (lc_password c2) (password user)) as [[|]|e];
    cbn; (split; [reflexivity|]); (split; [reflexivity|]).
  - split; [split; discriminate|]. split; [discriminate|]. discriminate.
  - split; [split; reflexivity|]. split; [reflexivity|]. discriminate.
  - split; [split; discriminate|]. split; [discriminate|].
    intros e' He. injection He as <-. reflexivity.
Qed.

(** C2 (as the code has it). A stored verifier without the delimiter
    leaves the salt [undefined]; [scrypt] rejects it, so
    [comparePasswords] throws a [TypeError] instead of returning [false].
    The local strategy reports that error through [done(error)], and a
    login for an identity with such a verifier ends in [next(err)], not in
    the 401 answer. *)
Theorem comparePasswords_without_delimiter
  (supplied stored : string) (Hstored : lacks "." stored = true) :
  comparePasswords scrypt supplied stored
  = Throw (TypeError "The salt argument must be of type string")
  /\ (forall (db : DB) (name : string) (user : User),
         getUserByUsername db name = Some user ->
         password user = stored ->
         verify scrypt db name supplied
         = done_error (TypeError "The salt argument must be of type string"))
  /\ (forall (req : Req) (db : DB) (user : User),
         loginSchema_parse (body req)
         = Ok (mkLoginCredentials (username user) supplied) ->
         getUserByUsername db (username user) = Some user ->
         password user = stored ->
         outcome (post_api_login scrypt fromZodError req db)
         = Next (TypeError "The salt argument must be of type string")).
Proof.
  assert (Hthrow : comparePasswords scrypt supplied stored
                   = Throw (TypeError "The salt argument must be of type string")).
  { unfold comparePasswords. rewrite (split_lacks _ _ Hstored). reflexivity. }
  assert (Hverify : forall (db : DB) (name : string) (user : User),
             getUserByUsername db name = Some user ->
             password user = stored ->
             verify scrypt db name supplied
             = done_error (TypeError "The salt argument must be of type string")).
  { intros db name user Hfind Hpw. unfold verify. rewrite Hfind, Hpw, Hthrow.
    reflexivity. }
  split; [exact Hthrow|]. split; [exact Hverify|].
  intros req db user Hvalid Hfind Hpw. unfold post_api_login. rewrite Hvalid.
  rewrite (authenticate_local_validated db _ Hvalid). cbn [lc_username lc_password].
  rewrite (Hverify db _ user Hfind Hpw). reflexivity.
Qed.

End LoginProps.

Lemma login_failures_indistinguishable_witness :
  post_api_login sample_kdf sample_fromZodError
    (with_body (credentials "mallory" "secret123") sample_req) sample_db
  = mkServed sample_db None (Respond 401 (message "Invalid username or password"))
  /\ outcome (post_api_login sample_kdf sample_fromZodError
                (with_body (credentials "alice" "wrong-password") sample_req) sample_db)
     = Respond 401 (message "Invalid username or password").
Proof.
  pose proof (@login_failures_indistinguishable sample_kdf sample_fromZodError
                (with_body (credentials "mallory" "secret123") sample_req)
                (with_body (credentials "alice" "wrong-password") sample_req)
                sample_db sample_db
                (mkLoginCredentials "mallory" "secret123")
                (mkLoginCredentials "alice" "wrong-password")
                alice eq_refl eq_refl eq_refl eq_refl) as H.
  cbv zeta in H. destruct H as (Hunknown & _ & Hsame & _).
  split; [exact Hunknown|].
  rewrite (proj2 Hsame); [rewrite Hunknown; reflexivity|].
  vm_compute. reflexivity.
Defined.

(** C3, the claim as worded, on a database the server reaches: bob
    registers, an admin update stores his password as typed, and from then
    on a login as bob ends in [next(err)] while a login under an unknown
    handle gets the 401 answer, although both logins fail. *)
Lemma login_reveals_known_handle :
  let unknown_handle :=
    post_api_login sample_kdf sample_fromZodError
      (with_body (credentials "mallory" "hunter22") sample_req)
      bob_with_plain_password in
  let known_handle :=
    post_api_login sample_kdf sample_fromZodError
      (with_body (credentials "bob" "hunter22") sample_req)
      bob_with_plain_password in
  reachable sample_kdf sample_fromZodError bob_with_plain_password
  /\ getUserByUsername bob_with_plain_password "mallory" = None
  /\ option_map password (getUserByUsername bob_with_plain_password "bob")
     = Some "hunter22"
  /\ comparePasswords sample_kdf "hunter22" "hunter22" <> Ok true
  /\ outcome unknown_handle = Respond 401 (message "Invalid username or password")
  /\ outcome known_handle
     = Next (TypeError "The salt argument must be of type string")
  /\ is_success (outcome unknown_handle) = false
  /\ is_success (outcome known_handle) = false
  /\ outcome unknown_handle <> outcome known_handle.
Proof.
  cbv zeta.
  split.
  { unfold bob_with_plain_password.
    apply reach_serve; [|intros _; reflexivity].
    unfold bob_registered. apply reach_serve; [apply reach_initial|discriminate]. }
  split; [vm_compute; reflexivity|].
  split; [vm_compute; reflexivity|].
  split; [vm_compute; discriminate|].
  split; [vm_compute; reflexivity|].
  split; [vm_compute; reflexivity|].
  split; [vm_compute; reflexivity|].
  split; [vm_compute; reflexivity|].
  vm_compute. discriminate.
Qed.

Lemma comparePasswords_without_delimiter_witness :
  lacks "." "abcdef" = true
  /\ comparePasswords sample_kdf "secret123" "abcdef"
     = Throw (TypeError "The salt argument must be of type string").
Proof.
  split; [reflexivity|].
  apply (@comparePasswords_without_delimiter sample_kdf sample_fromZodError
           "secret123" "abcdef").
  reflexivity.
Defined.

Lemma comparePasswords_without_delimiter_not_false :
  ~ (forall (scrypt : string -> string -> nat -> list byte) (supplied stored : string),
       lacks "." stored = true ->
       comparePasswords scrypt supplied stored = Ok false).
Proof.
  intros H. specialize (H sample_kdf "secret123" "abcdef" eq_refl).
  vm_compute in H. discriminate H.
Qed.

(* ================================================================== *)
(** * Authorization gates *)

Lemma requireAdmin_Pass_iff (req : Req) (db : DB) :
  requireAdmin req db = Pass
  <-> isAuthenticated req db = true
      /\ exists user, req_user req db = Some user /\ isAdmin user = true.
Proof.
  unfold requireAdmin, isAuthenticated.
  destruct (req_user req db) as [user|]; cbn.
  - destruct (isAdmin user) eqn:Hflag; cbn; split.
    + intros _. split; [reflexivity|]. exists user. split; [reflexivity|exact Hflag].
    + reflexivity.
    + discriminate.
    + intros (_ & u & Hu & Ha). injection Hu as <-. congruence.
  - split; [discriminate|]. intros (H & _). discriminate.
Qed.

(** C7. [requireAdmin] lets a request through exactly when the session is
    authenticated and the attached identity is an administrator.  For an
    authenticated identity that is not an administrator it answers 403
    "Forbidden", which is not the 401 of [requireAuth] (a gate that this
    request passes), and whatever handler it guards is not run: the
    answer and the state do not depend on the handler. *)
Theorem requireAdmin_forbids_non_admin
  (req : Req) (db : DB) (user : User)
  (Hauth : req_user req db = Some user)
  (Hflag : isAdmin user = false) :
  (forall req' db',
      requireAdmin req' db' = Pass
      <-> isAuthenticated req' db' = true
          /\ exists u, req_user req' db' = Some u /\ isAdmin u = true)
  /\ requireAdmin req db = Block 403 (message "Forbidden")
  /\ requireAuth req db = Pass
  /\ (forall req' db' status b,
         requireAuth req' db' = Block status b ->
         status = 401 /\ Block status b <> requireAdmin req db)
  /\ forall h : Handler,
       guarded requireAdmin h req db
       = mkServed db (session_user req) (Respond 403 (message "Forbidden")).
Proof.
  assert (Hblock : requireAdmin req db = Block 403 (message "Forbidden")).
  { unfold requireAdmin, isAuthenticated. rewrite Hauth, Hflag. reflexivity. }
  split; [exact requireAdmin_Pass_iff|].
  split; [exact Hblock|].
  split; [unfold requireAuth, isAuthenticated; rewrite Hauth; reflexivity|].
  split.
  - intros req' db' status b H. rewrite Hblock.
    unfold requireAuth in H.
    destruct (negb (isAuthenticated req' db')); [|discriminate].
    injection H as <- <-. split; [reflexivity|discriminate].
  - intros h. unfold guarded. rewrite Hblock. reflexivity.
Qed.

Lemma requireAdmin_forbids_non_admin_witness :
  requireAdmin (with_session (Some 1) sample_req) sample_db
  = Block 403 (message "Forbidden").
Proof.
  apply (requireAdmin_forbids_non_admin (with_session (Some 1) sample_req)
           sample_db (user := alice)).
  - reflexivity.
  - reflexivity.
Defined.

(* ================================================================== *)
(** * Resending and checking verification tokens *)

(** C8. Asking for a new verification mail as an identity whose email is
    already verified is refused with status 400, and the database is left
    as it was: no token is issued, so the stored token and expiry of that
    identity are the ones it had. *)
Theorem resend_rejected_when_verified
  (req : Req) (db : DB) (user : User)
  (Hauth : req_user req db = Some user)
  (Hverified : isEmailVerified user = true) :
  let served := post_api_resend_verification req db in
  outcome served = Respond 400 (message "Your email is already verified")
  /\ db_after served = db
  /\ req_user req (db_after served) = Some user
  /\ option_map verificationToken (getUser (db_after served) (id user))
     = option_map verificationToken (getUser db (id user))
  /\ option_map verificationTokenExpiry (getUser (db_after served) (id user))
     = option_map verificationTokenExpiry (getUser db (id user)).
Proof.
  cbv zeta. unfold post_api_resend_verification.
  rewrite Hauth, Hverified. cbn [outcome db_after].
  rewrite Hauth. repeat split; reflexivity.
Qed.

Lemma resend_rejected_when_verified_witness :
  db_after (post_api_resend_verification (with_session (Some 2) sample_req) sample_db)
  = sample_db.
Proof.
  apply (resend_rejected_when_verified (with_session (Some 2) sample_req)
           sample_db (user := carol)).
  - reflexivity.
  - reflexivity.
Defined.

Lemma truthy_Some_nonempty (s : string) : s <> "" -> truthy (Some s) = true.
Proof. destruct s; [congruence|reflexivity]. Qed.

(** C6. A verification request whose token resolves to an identity with
    an expiry strictly before the current time is refused with status 400,
    and nothing is written: the database is unchanged, so the identity is
    not marked verified.  The answer differs from the 404 given when the
    token matches no identity; for a non-empty token it is the "Verification
    Link Expired" page. *)
Theorem verify_email_expired_rejected
  (req : Req) (db : DB) (token : string) (user : User) (others : list User)
  (expiry : Z)
  (Htoken : query_token req = Some token)
  (Hmatch : getUserByVerificationToken db token = user :: others)
  (Hexpiry : verificationTokenExpiry user = Some expiry)
  (Hpast : expiry < now req) :
  let served := get_verify_email req db in
  (exists page, outcome served = Respond 400 (html page)
                /\ (token <> "" -> page = expired_link_page))
  /\ db_after served = db
  /\ forall req' db' token',
       query_token req' = Some token' -> token' <> "" ->
       getUserByVerificationToken db' token' = [] ->
       outcome (get_verify_email req' db') = Respond 404 (html invalid_link_page)
       /\ outcome (get_verify_email req' db') <> outcome served.
Proof.
  cbv zeta.
  assert (Hserved : get_verify_email req db
                    = mkServed db (session_user req)
                        (Respond 400 (html (if truthy (Some token) then expired_link_page
                                            else invalid_link_page)))).
  { unfold get_verify_email. rewrite Htoken.
    destruct (truthy (Some token)); cbn [negb]; [|reflexivity].
    cbn [or_else]. rewrite Hmatch, Hexpiry.
    apply Z.ltb_lt in Hpast. rewrite Hpast. reflexivity. }
  rewrite Hserved. cbn [outcome db_after].
  split; [|split; [reflexivity|]].
  - eexists. split; [reflexivity|].
    intros Hne. rewrite (truthy_Some_nonempty Hne). reflexivity.
  - intros req' db' token' Htoken' Hne Hnone.
    unfold get_verify_email. rewrite Htoken', (truthy_Some_nonempty Hne).
    cbn [negb or_else]. rewrite Hnone. cbn [outcome].
    split; [reflexivity|discriminate].
Qed.

Lemma verify_email_expired_rejected_witness :
  db_after (get_verify_email
              (mkReq [] (Some "c0ffee") 0 None None 5000 sample_entropy) sample_db)
  = sample_db.
Proof.
  apply (verify_email_expired_rejected
           (mkReq [] (Some "c0ffee") 0 None None 5000 sample_entropy) sample_db
           (token := "c0ffee") (user := alice) (others := []) (expiry := 1000)).
  - reflexivity.
  - reflexivity.
  - reflexivity.
  - reflexivity.
Defined.

(* ================================================================== *)
(** * What the storage operations write *)

Lemma updateUser_cases (db : DB) (i : Z) (p : PartialUser) :
  (exists e, updateUser db i p = (db, Throw e))
  \/ (sets_something p = true
      /\ constraints_ok (updated_rows i p (users db)) = true
      /\ updateUser db i p
         = (mkDB (updated_rows i p (users db)) (users_id_seq db),
            Ok (hd_error (map (apply_update p)
                            (filter (fun u => Z.eqb (id u) i) (users db)))))).
Proof.
  unfold updateUser. fold (updated_rows i p (users db)).
  destruct (sets_something p); cbn [negb].
  - destruct (constraints_ok (updated_rows i p (users db))) eqn:Hok.
    + right. auto.
    + left. eauto.
  - left. eauto.
Qed.

Lemma createUser_cases (db : DB) (insertUser : InsertUser) (t : Z) :
  let user := new_row (users_id_seq db) insertUser t in
  (exists e, createUser db insertUser t
             = (mkDB (users db) (users_id_seq db + 1), Throw e))
  \/ (constraints_ok (users db ++ [user]) = true
      /\ createUser db insertUser t
         = (mkDB (users db ++ [user]) (users_id_seq db + 1), Ok user)).
Proof.
  cbv zeta. unfold createUser.
  destruct (constraints_ok _) eqn:Hok; [right; auto|left; eauto].
Qed.

Lemma updated_rows_keys (i : Z) (p : PartialUser) (rows : list User) :
  keeps_keys p ->
  map id (updated_rows i p rows) = map id rows
  /\ map username (updated_rows i p rows) = map username rows
  /\ map email (updated_rows i p rows) = map email rows.
Proof.
  intros (Hi & Hu & He). unfold updated_rows. rewrite !map_map.
  repeat split; apply map_ext; intros u; destruct (Z.eqb (id u) i);
    try reflexivity; unfold apply_update; cbn; rewrite ?Hi, ?Hu, ?He; reflexivity.
Qed.

Lemma constraints_ok_updated_rows (i : Z) (p : PartialUser) (rows : list User) :
  keeps_keys p ->
  constraints_ok (updated_rows i p rows) = constraints_ok rows.
Proof.
  intros Hk. destruct (updated_rows_keys i rows Hk) as (H1 & H2 & H3).
  unfold constraints_ok. rewrite H1, H2, H3. reflexivity.
Qed.

Lemma updateUser_keeps_keys (db : DB) (i : Z) (p : PartialUser) :
  keeps_keys p -> sets_something p = true -> db_ok db ->
  updateUser db i p
  = (mkDB (updated_rows i p (users db)) (users_id_seq db),
     Ok (hd_error (map (apply_update p)
                     (filter (fun u => Z.eqb (id u) i) (users db))))).
Proof.
  intros Hk Hs Hok. unfold updateUser. fold (updated_rows i p (users db)).
  rewrite Hs, (constraints_ok_updated_rows i (users db) Hk), Hok. reflexivity.
Qed.

Lemma In_updated_rows (i : Z) (p : PartialUser) (rows : list User) (u' : User) :
  In u' (updated_rows i p rows) ->
  exists u, In u rows
            /\ ((id u = i /\ u' = apply_update p u) \/ (id u <> i /\ u' = u)).
Proof.
  unfold updated_rows. intros H. apply in_map_iff in H.
  destruct H as (u & Hu & Hin). exists u. split; [exact Hin|].
  destruct (Z.eqb_spec (id u) i); [left|right]; auto.
Qed.

Lemma hd_error_filter_In {A : Type} (f : A -> bool) (l : list A) (a : A) :
  hd_error (filter f l) = Some a -> In a l /\ f a = true.
Proof.
  intros H. apply filter_In. destruct (filter f l); [discriminate|].
  injection H as ->. left. reflexivity.
Qed.

Lemma getUser_In (db : DB) (i : Z) (u : User) :
  getUser db i = Some u -> In u (users db) /\ id u = i.
Proof.
  intros H. apply hd_error_filter_In in H. destruct H as [Hin Hid].
  apply Z.eqb_eq in Hid. auto.
Qed.

Lemma req_user_In (req : Req) (db : DB) (u : User) :
  req_user req db = Some u -> In u (users db) /\ session_user req = Some (id u).
Proof.
  unfold req_user. destruct (session_user req) as [i|]; [|discriminate].
  intros H. apply getUser_In in H. destruct H as [Hin <-]. auto.
Qed.

(* ================================================================== *)
(** * The pairing of token and expiry *)

Lemma pairs_kept_untouched (p : PartialUser) :
  p_verificationToken p = None -> p_verificationTokenExpiry p = None ->
  pairs_kept p.
Proof.
  intros Ht He u Hu. unfold token_paired, apply_update. cbn. rewrite Ht, He. exact Hu.
Qed.

Lemma pairs_kept_set (p : PartialUser) (t : string) (e : Z) :
  p_verificationToken p = Some (Some t) ->
  p_verificationTokenExpiry p = Some (Some e) ->
  pairs_kept p.
Proof.
  intros Ht He u _. unfold token_paired, apply_update. cbn. rewrite Ht, He.
  cbn. split; discriminate.
Qed.

Lemma pairs_kept_cleared (p : PartialUser) :
  p_verificationToken p = Some None ->
  p_verificationTokenExpiry p = Some None ->
  pairs_kept p.
Proof.
  intros Ht He u _. unfold token_paired, apply_update. cbn. rewrite Ht, He.
  cbn. split; reflexivity.
Qed.

Lemma all_paired_updateUser (db : DB) (i : Z) (p : PartialUser) :
  pairs_kept p -> all_paired db -> all_paired (fst (updateUser db i p)).
Proof.
  intros Hp Hdb.
  destruct (updateUser_cases db i p) as [(e & ->)|(_ & _ & ->)]; [exact Hdb|].
  unfold all_paired in *. cbn. apply Forall_forall. intros u' Hin.
  apply In_updated_rows in Hin. destruct Hin as (u & Hu & [[_ ->]|[_ ->]]).
  - apply Hp. exact (proj1 (Forall_forall _ _) Hdb u Hu).
  - exact (proj1 (Forall_forall _ _) Hdb u Hu).
Qed.

Lemma all_paired_createUser (db : DB) (insertUser : InsertUser) (t : Z) :
  all_paired db -> all_paired (fst (createUser db insertUser t)).
Proof.
  intros Hdb.
  destruct (createUser_cases db insertUser t) as [(e & ->)|(_ & ->)]; [exact Hdb|].
  unfold all_paired in *. cbn. apply Forall_app. split; [exact Hdb|].
  constructor; [|constructor]. unfold token_paired. cbn. split; reflexivity.
Qed.

Lemma as_PartialUser_Ok (o : object) (p : PartialUser) :
  as_PartialUser o = Ok p ->
  column "id" read_num o = Ok (p_id p)
  /\ column "username" read_str o = Ok (p_username p)
  /\ column "email" read_str o = Ok (p_email p)
  /\ column "password" read_str o = Ok (p_password p)
  /\ column "fullName" (read_nullable read_str) o = Ok (p_fullName p)
  /\ column "country" read_str o = Ok (p_country p)
  /\ column "isAdmin" read_bool o = Ok (p_isAdmin p)
  /\ column "isEmailVerified" read_bool o = Ok (p_isEmailVerified p)
  /\ column "verificationToken" (read_nullable read_str) o = Ok (p_verificationToken p)
  /\ column "verificationTokenExpiry" (read_nullable read_date) o
     = Ok (p_verificationTokenExpiry p)
  /\ column "bankDetails" read_json o = Ok (p_bankDetails p)
  /\ column "createdAt" read_date o = Ok (p_createdAt p).
Proof.
  unfold as_PartialUser.
  repeat match goal with
         | |- context [bind (column ?k ?r o) _] =>
             destruct (column k r o); cbn [bind]; [|discriminate]
         end.
  intros H. injection H as <-. cbn. repeat split; reflexivity.
Qed.

Lemma column_absent {A : Type} (k : string) (read : value -> option A) (o : object) :
  get k o = None -> column k read o = Ok None.
Proof. intros H. unfold column. rewrite H. reflexivity. Qed.

Lemma pairs_kept_of_body (o : object) (p : PartialUser) :
  as_PartialUser o = Ok p -> sets_pair_together o = true -> pairs_kept p.
Proof.
  intros Hp Hs. apply as_PartialUser_Ok in Hp.
  destruct Hp as (_ & _ & _ & _ & _ & _ & _ & _ & Ht & He & _).
  unfold sets_pair_together in Hs. unfold column in Ht, He.
  destruct (get "verificationToken" o) as [[| | |t| | |]|];
    destruct (get "verificationTokenExpiry" o) as [[| | | |e| |]|];
    try discriminate; cbn in Ht, He;
    injection Ht as Ht; injection He as He; symmetry in Ht, He.
  - apply pairs_kept_cleared; assumption.
  - eapply pairs_kept_set; eassumption.
  - apply pairs_kept_untouched; assumption.
Qed.

Lemma collect_updates_get (o : object) (k : string) :
  k <> "fullName" -> k <> "bankDetails" -> get k (collect_updates o) = None.
Proof.
  intros H1 H2. apply String.eqb_neq in H1. apply String.eqb_neq in H2.
  unfold collect_updates, allowedUpdates. cbn [fold_left].
  destruct (get "fullName" o), (get "bankDetails" o); cbn; rewrite ?H1, ?H2;
    reflexivity.
Qed.

Lemma profile_update_columns (o : object) (p : PartialUser) :
  as_PartialUser (collect_updates o) = Ok p ->
  p_id p = None /\ p_username p = None /\ p_email p = None
  /\ p_password p = None /\ p_isAdmin p = None
  /\ p_verificationToken p = None /\ p_verificationTokenExpiry p = None.
Proof.
  intros Hp. apply as_PartialUser_Ok in Hp.
  destruct Hp as (H1 & H2 & H3 & H4 & _ & _ & H7 & _ & H9 & H10 & _).
  repeat match goal with
         | H : column _ _ (collect_updates o) = Ok _ |- _ =>
             rewrite column_absent in H by (apply collect_updates_get; discriminate);
             injection H as H; symmetry in H
         end.
  repeat split; assumption.
Qed.

Section PairingProps.

Variable scrypt : string -> string -> nat -> list byte.
Variable fromZodError : list ZodIssue -> string.

Lemma register_keeps_pairing (req : Req) (db : DB) :
  all_paired db ->
  all_paired (db_after (post_api_register scrypt fromZodError req db)).
Proof.
  intros Hdb. unfold post_api_register.
  destruct (insertUserSchema_parse (body req)) as [userData|[]]; try exact Hdb.
  destruct (getUserByUsername db _); [exact Hdb|].
  destruct (getUserByEmail db _); [exact Hdb|].
  destruct (generateVerificationToken (entropy req)) as [token e1].
  destruct (hashPassword scrypt _ e1) as [hashed e2].
  match goal with
  | |- context [createUser db ?iu ?t] =>
      pose proof (all_paired_createUser iu t Hdb) as Hc;
      destruct (createUser db iu t) as [db1 [user|error]]
  end; cbn [fst] in Hc; [|exact Hc].
  match goal with
  | |- context [updateUser db1 ?i ?p] =>
      assert (Hk : pairs_kept p) by (eapply pairs_kept_set; reflexivity);
      pose proof (all_paired_updateUser i Hk Hc) as Hu;
      destruct (updateUser db1 i p) as [db2 [r|error]]
  end; exact Hu.
Qed.

Lemma resend_keeps_pairing (req : Req) (db : DB) :
  all_paired db -> all_paired (db_after (post_api_resend_verification req db)).
Proof.
  intros Hdb. unfold post_api_resend_verification.
  destruct (req_user req db) as [user|]; [|exact Hdb].
  destruct (isEmailVerified user); [exact Hdb|].
  destruct (generateVerificationToken (entropy req)) as [token e1].
  match goal with
  | |- context [updateUser db ?i ?p] =>
      assert (Hk : pairs_kept p) by (eapply pairs_kept_set; reflexivity);
      pose proof (all_paired_updateUser i Hk Hdb) as Hu;
      destruct (updateUser db i p) as [db2 [r|error]]
  end; exact Hu.
Qed.

Lemma verify_email_keeps_pairing (req : Req) (db : DB) :
  all_paired db -> all_paired (db_after (get_verify_email req db)).
Proof.
  intros Hdb. unfold get_verify_email.
  destruct (negb (truthy (query_token req))); [exact Hdb|].
  destruct (getUserByVerificationToken db _) as [|user others]; [exact Hdb|].
  match goal with |- context [if ?c then _ else _] => destruct c end; [exact Hdb|].
  match goal with
  | |- context [updateUser db ?i ?p] =>
      assert (Hk : pairs_kept p) by (apply pairs_kept_cleared; reflexivity);
      pose proof (all_paired_updateUser i Hk Hdb) as Hu;
      destruct (updateUser db i p) as [db2 [r|error]]
  end; exact Hu.
Qed.

Lemma profile_keeps_pairing (req : Req) (db : DB) :
  all_paired db -> all_paired (db_after (patch_api_users_profile req db)).
Proof.
  intros Hdb. unfold patch_api_users_profile, guarded.
  destruct (requireAuth req db); [|exact Hdb].
  destruct (req_user req db) as [user|]; [|exact Hdb].
  destruct (as_PartialUser (collect_updates (body req))) as [p|] eqn:Hp;
    [|exact Hdb].
  assert (Hk : pairs_kept p).
  { apply profile_update_columns in Hp.
    apply pairs_kept_untouched; apply Hp. }
  pose proof (all_paired_updateUser (id user) Hk Hdb) as Hu.
  destruct (updateUser db (id user) p) as [db1 [[updated|]|error]]; exact Hu.
Qed.

Lemma admin_update_keeps_pairing (req : Req) (db : DB) :
  sets_pair_together (body req) = true ->
  all_paired db -> all_paired (db_after (patch_api_admin_users req db)).
Proof.
  intros Hs Hdb. unfold patch_api_admin_users, guarded.
  destruct (requireAdminToken req db); [|exact Hdb].
  destruct (as_PartialUser (body req)) as [p|] eqn:Hp; [|exact Hdb].
  pose proof (all_paired_updateUser (params_id req)
                (pairs_kept_of_body _ Hp Hs) Hdb) as Hu.
  destruct (updateUser db (params_id req) p) as [db1 [[updated|]|error]]; exact Hu.
Qed.

(** One request keeps the pairing, an admin user update under the stated
    condition on its body. *)
Lemma serve_keeps_pairing (r : Route) (req : Req) (db : DB)
  (Hbefore : all_paired db)
  (Hadmin : r = AdminUpdateUser -> sets_pair_together (body req) = true) :
  all_paired (db_after (serve scrypt fromZodError r req db)).
Proof.
  destruct r; cbn [serve].
  - apply register_keeps_pairing; assumption.
  - unfold post_api_login.
    destruct (loginSchema_parse (body req)) as [c|[]]; try exact Hbefore.
    destruct (authenticate_local scrypt db (body req)); exact Hbefore.
  - exact Hbefore.
  - unfold get_api_user. destruct (req_user req db); exact Hbefore.
  - apply resend_keeps_pairing; assumption.
  - apply verify_email_keeps_pairing; assumption.
  - apply profile_keeps_pairing; assumption.
  - apply admin_update_keeps_pairing; auto.
Qed.

(** C4 (as the code has it). Registration, resend-verification, email
    verification and profile update (and login, logout and the
    current-user query) set or clear the token and its expiry together.
    The admin user update writes whatever columns its body names, so the
    pairing is an invariant of the states reached when every admin update
    names neither of the two columns or sets both together: in each such
    state every identity has a null token if and only if it has a null
    expiry. *)
Theorem token_pairing_invariant (db : DB)
  (Hreach : reachable scrypt fromZodError db) :
  all_paired db.
Proof.
  induction Hreach as [|r req db _ IH Hadmin].
  - constructor.
  - apply serve_keeps_pairing; assumption.
Qed.

End PairingProps.

Lemma toString_hex_inj (a b : list byte) :
  toString_hex a = toString_hex b -> a = b.
Proof.
  intros H. rewrite <- (Buffer_from_hex_toString a), <- (Buffer_from_hex_toString b), H.
  reflexivity.
Qed.

Lemma randomBytes_fst_eq (n : nat) (e1 e2 : Entropy) :
  fst (randomBytes n e1) = fst (randomBytes n e2)
  <-> forall i, (i < n)%nat -> e1 i = e2 i.
Proof.
  unfold randomBytes. cbn [fst]. split.
  - intros H i Hi.
    assert (Hin : In i (seq 0 n)) by (apply in_seq; lia).
    revert Hin. generalize (seq 0 n) H. clear.
    induction l as [|j l IH]; cbn; [intros _ []|].
    intros H [->|Hin]; injection H; auto.
  - intros H. apply map_ext_in. intros i Hi. apply in_seq in Hi. apply H. lia.
Qed.

Lemma map_nth_seq (l : list byte) :
  map (fun i => nth i l x00) (seq 0 (List.length l)) = l.
Proof.
  induction l as [|x l IH]; [reflexivity|].
  cbn [List.length seq map nth]. f_equal.
  rewrite <- seq_shift, map_map. exact IH.
Qed.

Lemma token_shape (e : Entropy) :
  let token := fst (generateVerificationToken e) in
  String.length token = 64%nat
  /\ string_forallb is_hex_char token = true
  /\ List.length (Buffer_from_hex token) = 32%nat.
Proof.
  cbv zeta. unfold generateVerificationToken.
  destruct (randomBytes 32 e) as [bytes e'] eqn:Hr. cbn [fst].
  assert (Hlen : List.length bytes = 32%nat).
  { pose proof (randomBytes_length 32 e) as H. rewrite Hr in H. exact H. }
  rewrite toString_hex_length, toString_hex_is_hex, Buffer_from_hex_toString, Hlen.
  repeat split; reflexivity.
Qed.

Lemma keeps_keys_token_update (v : option bool) (t : option string) (e : option Z) :
  keeps_keys (token_update v t e).
Proof. repeat split; reflexivity. Qed.

Lemma updated_rows_hit (i : Z) (p : PartialUser) (rows : list User) (u : User) :
  In u rows -> id u = i -> In (apply_update p u) (updated_rows i p rows).
Proof.
  intros Hin Hid. unfold updated_rows. apply in_map_iff. exists u.
  split; [|exact Hin]. rewrite <- Hid, Z.eqb_refl. reflexivity.
Qed.

Section IssuanceProps.

Variable scrypt : string -> string -> nat -> list byte.
Variable fromZodError : list ZodIssue -> string.

(** The runs of [POST /api/register]: either no row is written and the
    answer is not a success, or the new row is inserted, receives the
    token, and the answer is 201. *)
Lemma register_run (req : Req) (db : DB) :
  let served := post_api_register scrypt fromZodError req db in
  (users (db_after served) = users db /\ is_success (outcome served) = false)
  \/ exists userData,
       insertUserSchema_parse (body req) = Ok userData
       /\ let token := fst (generateVerificationToken (entropy req)) in
          let e1 := snd (generateVerificationToken (entropy req)) in
          let user :=
            new_row (users_id_seq db)
              {| iu_username := iu_username userData;
                 iu_email := iu_email userData;
                 iu_password := fst (hashPassword scrypt (iu_password userData) e1);
                 iu_fullName := iu_fullName userData;
                 iu_country := iu_country userData;
                 iu_bankDetails := iu_bankDetails userData |} (now req) in
          constraints_ok (users db ++ [user]) = true
          /\ served
             = mkServed
                 (mkDB (updated_rows (id user)
                          (token_update (Some false) (Some token)
                             (Some (now req + day_ms)))
                          (users db ++ [user]))
                       (users_id_seq db + 1))
                 (Some (id user))
                 (Respond 201
                    (json (VObj (userWithoutPassword user
                                 ++ [("message", VStr "Account created successfully. Please check your email to verify your account.")])))).
Proof.
  cbv zeta. unfold post_api_register.
  destruct (insertUserSchema_parse (body req)) as [userData|[]]; try (left; split; reflexivity).
  destruct (getUserByUsername db _); [left; split; reflexivity|].
  destruct (getUserByEmail db _); [left; split; reflexivity|].
  rewrite (surjective_pairing (generateVerificationToken (entropy req))).
  rewrite (surjective_pairing (hashPassword scrypt _ _)).
  match goal with
  | |- context [createUser db ?iu ?t] =>
      destruct (createUser_cases db iu t) as [(e & ->)|(Hok & ->)]
  end; [left; split; reflexivity|].
  right. exists userData. split; [reflexivity|]. split; [exact Hok|].
  match goal with
  | |- context [updateUser ?d ?i ?p] =>
      rewrite (@updateUser_keeps_keys d i p
                 (keeps_keys_token_update _ _ _) eq_refl Hok)
  end.
  reflexivity.
Qed.

(** The runs of [POST /api/resend-verification]. *)
Lemma resend_run (req : Req) (db : DB) :
  let served := post_api_resend_verification req db in
  (db_after served = db /\ is_success (outcome served) = false)
  \/ exists user,
       req_user req db = Some user
       /\ isEmailVerified user = false
       /\ served
          = mkServed
              (mkDB (updated_rows (id user)
                       (token_update None
                          (Some (fst (generateVerificationToken (entropy req))))
                          (Some (now req + day_ms)))
                       (users db))
                    (users_id_seq db))
              (session_user req)
              (Respond 200 (message "Verification email sent successfully. Please check your inbox.")).
Proof.
  cbv zeta. unfold post_api_resend_verification.
  destruct (req_user req db) as [user|] eqn:Hu; [|left; split; reflexivity].
  destruct (isEmailVerified user) eqn:Hv; [left; split; reflexivity|].
  rewrite (surjective_pairing (generateVerificationToken (entropy req))).
  match goal with
  | |- context [updateUser db ?i ?p] =>
      destruct (updateUser_cases db i p) as [(e & ->)|(_ & _ & ->)]
  end; [left; split; reflexivity|].
  right. exists user. split; [reflexivity|]. split; [exact Hv|reflexivity].
Qed.

(** C5. A token issued at registration or at resend is the hex encoding
    of 32 random bytes: 64 hexadecimal characters that decode to exactly
    the 256 bits the random source delivered.  No bit is lost: another
    draw gives the same token only if it delivered the same 32 bytes, and
    every string of 32 bytes is the token of some draw.  Every row these
    two operations write carries that token together with the expiry
    [now + 24 h], and when the operation succeeds the identity of the
    session has exactly this pair stored. *)
Theorem issued_token_and_expiry (r : Route) (req : Req) (db : DB)
  (Hr : r = Register \/ r = ResendVerification) :
  let served := serve scrypt fromZodError r req db in
  let token := fst (generateVerificationToken (entropy req)) in
  let expiry := now req + 24 * 60 * 60 * 1000 in
  String.length token = 64%nat
  /\ string_forallb is_hex_char token = true
  /\ (8 * List.length (Buffer_from_hex token) = 256)%nat
  /\ Buffer_from_hex token = map (entropy req) (seq 0 32)
  /\ (forall e : Entropy,
         fst (generateVerificationToken e) = token
         <-> forall i, (i < 32)%nat -> e i = entropy req i)
  /\ (forall bytes : list byte,
         List.length bytes = 32%nat ->
         exists e : Entropy,
           fst (generateVerificationToken e) = toString_hex bytes
           /\ Buffer_from_hex (fst (generateVerificationToken e)) = bytes)
  /\ (forall u, In u (users (db_after served)) -> ~ In u (users db) ->
                verificationToken u = Some token
                /\ verificationTokenExpiry u = Some expiry)
  /\ (is_success (outcome served) = true ->
      exists u, In u (users (db_after served))
                /\ session_after served = Some (id u)
                /\ verificationToken u = Some token
                /\ verificationTokenExpiry u = Some expiry).
Proof.
  cbv zeta. destruct (token_shape (entropy req)) as (Hlen & Hhex & Hbytes).
  cbv zeta in Hlen, Hhex, Hbytes.
  split; [exact Hlen|]. split; [exact Hhex|].
  split; [rewrite Hbytes; reflexivity|].
  split; [unfold generateVerificationToken, randomBytes; cbn [fst];
          apply Buffer_from_hex_toString|].
  split.
  { intros e. rewrite <- randomBytes_fst_eq. unfold generateVerificationToken.
    rewrite (surjective_pairing (randomBytes 32 e)).
    rewrite (surjective_pairing (randomBytes 32 (entropy req))). cbn [fst].
    split; [apply toString_hex_inj|intros ->; reflexivity]. }
  split.
  { intros bytes Hbytes32. exists (fun i => nth i bytes x00).
    unfold generateVerificationToken, randomBytes. cbn [fst].
    rewrite <- Hbytes32, map_nth_seq.
    split; [reflexivity|apply Buffer_from_hex_toString]. }
  fold day_ms.
  destruct Hr as [-> | ->]; cbn [serve].
  - destruct (register_run req db) as [[Hsame Hfail]|(userData & _ & Hrun)];
      cbv zeta in *.
    + rewrite Hsame, Hfail. split; [intros u Hin Hnot; contradiction|discriminate].
    + destruct Hrun as [Hok ->]. cbn [db_after users outcome session_after].
      set (user := new_row _ _ _) in *.
      split.
      * intros u Hin Hnot. apply In_updated_rows in Hin.
        destruct Hin as (u0 & Hu0 & [[_ ->]|[Hid ->]]); [split; reflexivity|].
        apply in_app_or in Hu0. destruct Hu0 as [Hu0|[<-|[]]];
          [contradiction|congruence].
      * intros _. exists (apply_update (token_update (Some false)
                            (Some (fst (generateVerificationToken (entropy req))))
                            (Some (now req + day_ms))) user).
        split; [|repeat split; reflexivity].
        apply updated_rows_hit; [|reflexivity].
        apply in_or_app. right. left. reflexivity.
  - destruct (resend_run req db) as [[Hsame Hfail]|(user & Hu & _ & Hrun)];
      cbv zeta in *.
    + rewrite Hsame, Hfail. split; [intros u Hin Hnot; contradiction|discriminate].
    + rewrite Hrun. cbn [db_after users outcome session_after].
      apply req_user_In in Hu. destruct Hu as [Hin Hsess].
      split.
      * intros u Hin' Hnot. apply In_updated_rows in Hin'.
        destruct Hin' as (u0 & Hu0 & [[_ ->]|[Hid ->]]); [split; reflexivity|].
        contradiction.
      * intros _. exists (apply_update (token_update None
                            (Some (fst (generateVerificationToken (entropy req))))
                            (Some (now req + day_ms))) user).
        split; [|split; [exact Hsess|split; reflexivity]].
        apply updated_rows_hit; [exact Hin|reflexivity].
Qed.

End IssuanceProps.

Lemma issued_token_and_expiry_witness :
  String.length (fst (generateVerificationToken (entropy sample_req))) = 64%nat
  /\ is_success (outcome (serve sample_kdf sample_fromZodError Register
                            (with_body bob_registration sample_req) sample_db)) = true.
Proof.
  split.
  - apply (issued_token_and_expiry sample_kdf sample_fromZodError
             (r := Register) (with_body bob_registration sample_req) sample_db).
    left. reflexivity.
  - vm_compute. reflexivity.
Defined.

(* ================================================================== *)
(** * Registration and the administrator flag *)

Lemma distinct_app_last {A : Type} (eqb : A -> A -> bool) (l : list A) (x y : A) :
  distinct eqb (l ++ [x]) = true -> In y l -> eqb y x = false.
Proof.
  induction l as [|a l IH]; cbn [app distinct]; [intros _ []|].
  intros H Hin. apply andb_true_iff in H. destruct H as [Ha Hl].
  destruct Hin as [->|Hin]; [|exact (IH Hl Hin)].
  apply negb_true_iff in Ha. rewrite existsb_app in Ha.
  apply orb_false_iff in Ha. destruct Ha as [_ Ha]. cbn in Ha.
  rewrite orb_false_r in Ha. exact Ha.
Qed.

Lemma constraints_ok_fresh_id (rows : list User) (user u : User) :
  constraints_ok (rows ++ [user]) = true -> In u rows -> id u <> id user.
Proof.
  unfold constraints_ok. intros H Hin.
  apply andb_true_iff in H. destruct H as [H _].
  apply andb_true_iff in H. destruct H as [H _].
  rewrite map_app in H. cbn [map] in H.
  apply Z.eqb_neq.
  exact (distinct_app_last Z.eqb _ _ (id u) H (in_map id _ _ Hin)).
Qed.

Section RegistrationProps.

Variable scrypt : string -> string -> nat -> list byte.
Variable fromZodError : list ZodIssue -> string.

(** C9. The row [createUser] inserts has its administrator flag false,
    whatever the input.  Hence registration creates no administrator:
    every administrator row present after [POST /api/register] is a row
    that was there before, and the user object of a 201 answer says
    [isAdmin: false], also when the request body asks for
    [isAdmin: true]. *)
Theorem registration_never_creates_admin (req : Req) (db : DB) :
  let served := post_api_register scrypt fromZodError req db in
  (forall insertUser t,
      match snd (createUser db insertUser t) with
      | Ok user => isAdmin user = false
      | Throw _ => True
      end)
  /\ (forall u, In u (users (db_after served)) -> isAdmin u = true ->
                In u (users db))
  /\ (forall o, is_success (outcome served) = true ->
                response_object (outcome served) = Some o ->
                get "isAdmin" o = Some (VBool false)).
Proof.
  cbv zeta. split.
  { intros insertUser t.
    destruct (createUser_cases db insertUser t) as [(e & ->)|(_ & ->)];
      cbn [snd]; [exact I|reflexivity]. }
  destruct (register_run scrypt fromZodError req db)
    as [[Hsame Hfail]|(userData & _ & Hrun)]; cbv zeta in *.
  - rewrite Hsame, Hfail. split; [auto|discriminate].
  - destruct Hrun as [Hok ->]. cbn [db_after users outcome].
    set (user := new_row _ _ _) in *.
    split.
    + intros u Hin Hadmin. apply In_updated_rows in Hin.
      destruct Hin as (u0 & Hu0 & [[Hid ->]|[Hid ->]]).
      * apply in_app_or in Hu0. destruct Hu0 as [Hu0|[<-|[]]].
        -- exfalso. exact (constraints_ok_fresh_id _ _ _ Hok Hu0 Hid).
        -- discriminate Hadmin.
      * apply in_app_or in Hu0. destruct Hu0 as [Hu0|[<-|[]]];
          [exact Hu0|discriminate Hadmin].
    + intros o _ Ho. cbn in Ho. injection Ho as <-. reflexivity.
Qed.

End RegistrationProps.

(** A body that asks for the administrator flag registers an ordinary
    identity. *)
Example register_with_isAdmin_true :
  let served := post_api_register sample_kdf sample_fromZodError
                  (with_body bob_registration sample_req) sample_db in
  get "isAdmin" bob_registration = Some (VBool true)
  /\ option_map isAdmin (getUser (db_after served) 3) = Some false.
Proof. vm_compute. split; reflexivity. Qed.

(* ================================================================== *)
(** * Witness and counterexample for the pairing of token and expiry *)

Lemma reachable_bob_registered :
  reachable sample_kdf sample_fromZodError bob_registered.
Proof.
  unfold bob_registered. apply reach_serve; [apply reach_initial|discriminate].
Defined.

Lemma token_pairing_invariant_witness : all_paired bob_registered.
Proof.
  apply (@token_pairing_invariant sample_kdf sample_fromZodError bob_registered).
  exact reachable_bob_registered.
Defined.

Lemma admin_update_breaks_pairing :
  reachable sample_kdf sample_fromZodError bob_registered
  /\ all_paired bob_registered
  /\ sets_pair_together (body admin_clears_token_only) = false
  /\ ~ all_paired (db_after (serve sample_kdf sample_fromZodError AdminUpdateUser
                               admin_clears_token_only bob_registered)).
Proof.
  split; [exact reachable_bob_registered|].
  split; [unfold all_paired, token_paired; vm_compute;
          repeat constructor; discriminate|].
  split; [reflexivity|].
  intros H. unfold all_paired, token_paired in H. vm_compute in H.
  inversion H as [|u rows [Hp _] _]. specialize (Hp eq_refl). discriminate Hp.
Qed.

(* ================================================================== *)
(** * Responses and the stored verifier *)

Lemma alike_fields (u1 u2 : User) :
  alike u1 u2 ->
  id u1 = id u2 /\ username u1 = username u2 /\ email u1 = email u2.
Proof.
  destruct u1, u2. unfold alike, without_verifier, apply_update. cbn.
  intros H. injection H as -> -> -> _. auto.
Qed.

Lemma alike_userWithoutPassword (u1 u2 : User) :
  alike u1 u2 -> userWithoutPassword u1 = userWithoutPassword u2.
Proof.
  destruct u1, u2. unfold alike, without_verifier, apply_update. cbn.
  intros H. injection H as -> -> -> -> -> -> -> -> -> -> ->. reflexivity.
Qed.

Lemma alike_apply_update (p : PartialUser) (u1 u2 : User) :
  alike u1 u2 -> alike (apply_update p u1) (apply_update p u2).
Proof.
  destruct u1, u2. unfold alike, without_verifier, apply_update. cbn.
  intros H. injection H as -> -> -> -> -> -> -> -> -> -> ->. reflexivity.
Qed.

Lemma alike_filter (f : User -> bool) (l1 l2 : list User) :
  (forall u1 u2, alike u1 u2 -> f u1 = f u2) ->
  Forall2 alike l1 l2 -> Forall2 alike (filter f l1) (filter f l2).
Proof.
  intros Hf H. induction H as [|u1 u2 l1 l2 Hu _ IH]; cbn [filter]; [constructor|].
  rewrite (Hf _ _ Hu). destruct (f u2); [constructor; assumption|exact IH].
Qed.

Lemma alike_hd_error (l1 l2 : list User) :
  Forall2 alike l1 l2 -> alike_option (hd_error l1) (hd_error l2).
Proof. intros H. destruct H; cbn; auto. Qed.

Lemma alike_map (f : User -> User) (l1 l2 : list User) :
  (forall u1 u2, alike u1 u2 -> alike (f u1) (f u2)) ->
  Forall2 alike l1 l2 -> Forall2 alike (map f l1) (map f l2).
Proof.
  intros Hf H. induction H; cbn [map]; constructor; auto.
Qed.

Lemma alike_getUser (db1 db2 : DB) (i : Z) :
  same_but_verifiers db1 db2 -> alike_option (getUser db1 i) (getUser db2 i).
Proof.
  intros [H _]. apply alike_hd_error, alike_filter; [|exact H].
  intros u1 u2 Hu. destruct (alike_fields Hu) as (-> & _). reflexivity.
Qed.

Lemma alike_getUserByUsername (db1 db2 : DB) (name : string) :
  same_but_verifiers db1 db2 ->
  alike_option (getUserByUsername db1 name) (getUserByUsername db2 name).
Proof.
  intros [H _]. apply alike_hd_error, alike_filter; [|exact H].
  intros u1 u2 Hu. destruct (alike_fields Hu) as (_ & -> & _). reflexivity.
Qed.

Lemma alike_req_user (req : Req) (db1 db2 : DB) :
  same_but_verifiers db1 db2 -> alike_option (req_user req db1) (req_user req db2).
Proof.
  intros H. unfold req_user. destruct (session_user req); [|exact I].
  apply alike_getUser, H.
Qed.

Section ResponseProps.

Variable scrypt : string -> string -> nat -> list byte.
Variable fromZodError : list ZodIssue -> string.

Lemma verify_done_user (db : DB) (name pass : string) (u : User) :
  verify scrypt db name pass = done_user u -> getUserByUsername db name = Some u.
Proof.
  unfold verify. destruct (getUserByUsername db name) as [user|]; [|discriminate].
  destruct (comparePasswords scrypt pass (password user)) as [[|]|];
    try discriminate.
  intros H. injection H as ->. reflexivity.
Qed.

(** The successful runs of [POST /api/login]. *)
Lemma login_success (req : Req) (db : DB) :
  is_success (outcome (post_api_login scrypt fromZodError req db)) = true ->
  exists c u,
    loginSchema_parse (body req) = Ok c
    /\ getUserByUsername db (lc_username c) = Some u
    /\ outcome (post_api_login scrypt fromZodError req db)
       = Respond 200 (json (VObj (userWithoutPassword u))).
Proof.
  unfold post_api_login.
  destruct (loginSchema_parse (body req)) as [c|[]] eqn:Hc; try discriminate.
  rewrite (authenticate_local_validated scrypt db _ Hc).
  destruct (verify scrypt db _ _) as [e|m|u] eqn:Hv; try discriminate.
  intros _. exists c, u. split; [reflexivity|].
  split; [exact (verify_done_user _ _ _ Hv)|reflexivity].
Qed.

(** The successful runs of [GET /api/user]. *)
Lemma current_user_success (req : Req) (db : DB) :
  is_success (outcome (get_api_user req db)) = true ->
  exists u, req_user req db = Some u
            /\ outcome (get_api_user req db)
               = Respond 200 (json (VObj (userWithoutPassword u))).
Proof.
  unfold get_api_user. destruct (req_user req db) as [u|]; [|discriminate].
  intros _. exists u. split; reflexivity.
Qed.

(** The successful runs of [PATCH /api/users/profile]. *)
Lemma profile_success (req : Req) (db : DB) :
  is_success (outcome (patch_api_users_profile req db)) = true ->
  exists user p updated,
    req_user req db = Some user
    /\ as_PartialUser (collect_updates (body req)) = Ok p
    /\ constraints_ok (updated_rows (id user) p (users db)) = true
    /\ hd_error (map (apply_update p)
                   (filter (fun u => Z.eqb (id u) (id user)) (users db)))
       = Some updated
    /\ outcome (patch_api_users_profile req db)
       = Respond 200 (json (VObj (userWithoutPassword updated))).
Proof.
  unfold patch_api_users_profile, guarded.
  destruct (requireAuth req db) as [|status b] eqn:Hgate.
  - destruct (req_user req db) as [user|]; [|discriminate].
    destruct (as_PartialUser _) as [p|]; [|discriminate].
    destruct (updateUser_cases db (id user) p) as [(e & ->)|(_ & Hok & ->)];
      [discriminate|].
    destruct (hd_error _) as [updated|] eqn:Hhd; [|discriminate].
    intros _. exists user, p, updated. repeat split; auto.
  - unfold requireAuth in Hgate.
    destruct (negb (isAuthenticated req db)); [|discriminate].
    injection Hgate as <- <-. discriminate.
Qed.

End ResponseProps.

Section VerifierFree.

Variable scrypt : string -> string -> nat -> list byte.
Variable fromZodError : list ZodIssue -> string.

Lemma login_alike (req : Req) (db db' : DB) :
  same_but_verifiers db db' ->
  is_success (outcome (post_api_login scrypt fromZodError req db)) = true ->
  is_success (outcome (post_api_login scrypt fromZodError req db')) = true ->
  outcome (post_api_login scrypt fromZodError req db')
  = outcome (post_api_login scrypt fromZodError req db).
Proof.
  intros Hdb H H'.
  destruct (login_success _ _ _ _ H) as (c & u & Hc & Hu & ->).
  destruct (login_success _ _ _ _ H') as (c' & u' & Hc' & Hu' & ->).
  rewrite Hc in Hc'. injection Hc' as <-.
  pose proof (alike_getUserByUsername (lc_username c) Hdb) as Ha.
  rewrite Hu, Hu' in Ha. cbn in Ha.
  rewrite (alike_userWithoutPassword Ha). reflexivity.
Qed.

Lemma current_user_alike (req : Req) (db db' : DB) :
  same_but_verifiers db db' ->
  is_success (outcome (get_api_user req db)) = true ->
  is_success (outcome (get_api_user req db')) = true ->
  outcome (get_api_user req db') = outcome (get_api_user req db).
Proof.
  intros Hdb H H'.
  destruct (current_user_success _ _ H) as (u & Hu & ->).
  destruct (current_user_success _ _ H') as (u' & Hu' & ->).
  pose proof (alike_req_user req Hdb) as Ha.
  rewrite Hu, Hu' in Ha. cbn in Ha.
  rewrite (alike_userWithoutPassword Ha). reflexivity.
Qed.

Lemma register_alike (req : Req) (db db' : DB) :
  same_but_verifiers db db' ->
  is_success (outcome (post_api_register scrypt fromZodError req db)) = true ->
  is_success (outcome (post_api_register scrypt fromZodError req db')) = true ->
  outcome (post_api_register scrypt fromZodError req db')
  = outcome (post_api_register scrypt fromZodError req db).
Proof.
  intros [_ Hseq] H H'.
  destruct (register_run scrypt fromZodError req db)
    as [[_ Hfail]|(userData & Hparse & Hrun)]; cbv zeta in *; [congruence|].
  destruct (register_run scrypt fromZodError req db')
    as [[_ Hfail]|(userData' & Hparse' & Hrun')]; cbv zeta in *; [congruence|].
  rewrite Hparse in Hparse'. injection Hparse' as <-.
  destruct Hrun as [_ ->]. destruct Hrun' as [_ ->].
  cbn [outcome]. rewrite Hseq. reflexivity.
Qed.

Lemma profile_alike (req : Req) (db db' : DB) :
  same_but_verifiers db db' ->
  is_success (outcome (patch_api_users_profile req db)) = true ->
  is_success (outcome (patch_api_users_profile req db')) = true ->
  outcome (patch_api_users_profile req db')
  = outcome (patch_api_users_profile req db).
Proof.
  intros Hdb H H'.
  destruct (profile_success _ _ H) as (user & p & updated & Hu & Hp & _ & Hhd & ->).
  destruct (profile_success _ _ H') as (user' & p' & updated' & Hu' & Hp' & _ & Hhd' & ->).
  rewrite Hp in Hp'. injection Hp' as <-.
  pose proof (alike_req_user req Hdb) as Ha.
  rewrite Hu, Hu' in Ha. cbn in Ha.
  destruct (alike_fields Ha) as (Hid & _).
  assert (Hupd : alike_option (Some updated) (Some updated')).
  { rewrite <- Hhd, <- Hhd', <- Hid.
    apply alike_hd_error, alike_map; [intros; apply alike_apply_update; assumption|].
    apply alike_filter; [|exact (proj1 Hdb)].
    intros u1 u2 Hu12. destruct (alike_fields Hu12) as (-> & _). reflexivity. }
  cbn in Hupd. rewrite (alike_userWithoutPassword Hupd). reflexivity.
Qed.

(** C10. A successful answer of login, current-user, registration or
    profile update carries a user object without a [password] property.
    The stored verifiers do not reach these answers: run on a database
    that differs only in stored verifiers, the same request, if it
    succeeds there too, gets the same answer. *)
Theorem responses_omit_verifier (r : Route) (req : Req) (db : DB)
  (Hr : In r [Login; CurrentUser; Register; UpdateProfile])
  (Hok : is_success (outcome (serve scrypt fromZodError r req db)) = true) :
  (exists status o,
      outcome (serve scrypt fromZodError r req db) = Respond status (json (VObj o))
      /\ get "password" o = None)
  /\ forall db',
       same_but_verifiers db db' ->
       is_success (outcome (serve scrypt fromZodError r req db')) = true ->
       outcome (serve scrypt fromZodError r req db')
       = outcome (serve scrypt fromZodError r req db).
Proof.
  cbn [In] in Hr.
  destruct Hr as [<-|[<-|[<-|[<-|[]]]]]; cbn [serve] in *; split.
  - destruct (login_success _ _ _ _ Hok) as (c & u & _ & _ & ->).
    eexists _, _. split; reflexivity.
  - intros db' Hdb H'. apply login_alike; assumption.
  - destruct (current_user_success _ _ Hok) as (u & _ & ->).
    eexists _, _. split; reflexivity.
  - intros db' Hdb H'. apply current_user_alike; assumption.
  - destruct (register_run scrypt fromZodError req db)
      as [[_ Hfail]|(userData & _ & Hrun)]; cbv zeta in *; [congruence|].
    destruct Hrun as [_ ->]. cbn [outcome].
    eexists _, _. split; reflexivity.
  - intros db' Hdb H'. apply register_alike; assumption.
  - destruct (profile_success _ _ Hok) as (user & p & updated & _ & _ & _ & _ & ->).
    eexists _, _. split; reflexivity.
  - intros db' Hdb H'. apply profile_alike; assumption.
Qed.

End VerifierFree.

Lemma same_but_verifiers_sample : same_but_verifiers sample_db sample_db_rehashed.
Proof.
  split; [|reflexivity].
  repeat constructor; vm_compute; reflexivity.
Defined.

Lemma responses_omit_verifier_witness :
  password alice <> fst (hashPassword sample_kdf "secret123"
                           (fun i => sample_entropy (7 + i)%nat))
  /\ outcome (serve sample_kdf sample_fromZodError Login
                (with_body (credentials "alice" "secret123") sample_req)
                sample_db_rehashed)
     = outcome (serve sample_kdf sample_fromZodError Login
                  (with_body (credentials "alice" "secret123") sample_req)
                  sample_db).
Proof.
  split; [vm_compute; discriminate|].
  apply (@responses_omit_verifier sample_kdf sample_fromZodError Login
           (with_body (credentials "alice" "secret123") sample_req) sample_db).
  - cbn. auto.
  - vm_compute. reflexivity.
  - exact same_but_verifiers_sample.
  - vm_compute. reflexivity.
Defined.

(* ================================================================== *)
(** * More on credential hashing *)

Lemma buffer_eqb_eq (a b : list byte) : buffer_eqb a b = true <-> a = b.
Proof.
  split; [|intros ->; apply buffer_eqb_refl].
  revert b. induction a as [|x a IH]; intros [|y b]; cbn [buffer_eqb];
    try discriminate; [reflexivity|].
  intros H. apply andb_true_iff in H. destruct H as [Hxy Hab].
  unfold byte_eqb in Hxy. apply Byte.byte_dec_bl in Hxy.
  rewrite Hxy, (IH b Hab). reflexivity.
Qed.

Section HashingMore.

Variable scrypt : string -> string -> nat -> list byte.
Variable fromZodError : list ZodIssue -> string.

(** A verifier [key.salt] with both parts free of the delimiter is compared
    by decoding the key and deriving with the salt. *)
Lemma comparePasswords_delimited (supplied hashed salt : string) :
  lacks "." hashed = true -> lacks "." salt = true ->
  comparePasswords scrypt supplied (hashed ++ String "." salt)
  = timingSafeEqual (Buffer_from_hex hashed) (scrypt supplied salt 64).
Proof.
  intros Hh Hs. unfold comparePasswords.
  rewrite (split_append _ _ _ Hh), (split_lacks _ _ Hs). reflexivity.
Qed.

Lemma comparePasswords_own_verifier (p : string) (e : Entropy) :
  comparePasswords scrypt p (fst (hashPassword scrypt p e)) = Ok true.
Proof.
  rewrite hashPassword_shape.
  rewrite comparePasswords_delimited by apply toString_hex_lacks_dot.
  rewrite Buffer_from_hex_toString. unfold timingSafeEqual.
  rewrite Nat.eqb_refl, buffer_eqb_refl. reflexivity.
Qed.

(** X1. [comparePasswords] answers [true] exactly when the stored string
    has a first and a second dot-separated part and the first, decoded from
    hex, is the key derived from the supplied plaintext with the second as
    salt. *)
Theorem comparePasswords_true_iff (supplied stored : string) :
  comparePasswords scrypt supplied stored = Ok true
  <-> exists hashed salt,
        nth_error (split "." stored) 0 = Some hashed
        /\ nth_error (split "." stored) 1 = Some salt
        /\ Buffer_from_hex hashed = scrypt supplied salt 64.
Proof.
  unfold comparePasswords.
  destruct (nth_error (split "." stored) 0) as [hashed|]; cbn [Buffer_from bind].
  - destruct (nth_error (split "." stored) 1) as [salt|]; cbn [scryptAsync bind].
    + unfold timingSafeEqual. split.
      * destruct (Nat.eqb _ _); [|discriminate].
        intros H. injection H as H. apply buffer_eqb_eq in H.
        exists hashed, salt. auto.
      * intros (h & s & Hh & Hs & Heq). injection Hh as <-. injection Hs as <-.
        rewrite Heq, Nat.eqb_refl, buffer_eqb_refl. reflexivity.
    + split; [discriminate|]. intros (h & s & _ & Hs & _). discriminate.
  - split; [discriminate|]. intros (h & s & Hh & _). discriminate.
Qed.

(** X2. When the key part of the stored verifier does not decode to as
    many bytes as the derived key has (it was truncated, or is not hex),
    [comparePasswords] throws a [RangeError]; a login for that identity then
    ends in [next(err)] and not in a 401. *)
Theorem comparePasswords_length_mismatch
  (supplied stored hashed salt : string)
  (Hhashed : nth_error (split "." stored) 0 = Some hashed)
  (Hsalt : nth_error (split "." stored) 1 = Some salt)
  (Hlen : List.length (Buffer_from_hex hashed)
          <> List.length (scrypt supplied salt 64)) :
  comparePasswords scrypt supplied stored
  = Throw (RangeError "Input buffers must have the same byte length")
  /\ forall (req : Req) (db : DB) (user : User),
       loginSchema_parse (body req)
       = Ok (mkLoginCredentials (username user) supplied) ->
       getUserByUsername db (username user) = Some user ->
       password user = stored ->
       post_api_login scrypt fromZodError req db
       = mkServed db (session_user req)
           (Next (RangeError "Input buffers must have the same byte length")).
Proof.
  assert (Hthrow : comparePasswords scrypt supplied stored
                   = Throw (RangeError "Input buffers must have the same byte length")).
  { unfold comparePasswords. rewrite Hhashed, Hsalt.
    cbn [Buffer_from scryptAsync bind]. unfold timingSafeEqual.
    apply Nat.eqb_neq in Hlen. rewrite Hlen. reflexivity. }
  split; [exact Hthrow|].
  intros req db user Hvalid Hfind Hpw. unfold post_api_login. rewrite Hvalid.
  rewrite (authenticate_local_validated scrypt db _ Hvalid).
  cbn [lc_username lc_password]. unfold verify. rewrite Hfind, Hpw, Hthrow.
  reflexivity.
Qed.

End HashingMore.

Lemma comparePasswords_length_mismatch_witness :
  comparePasswords sample_kdf "secret123" "c0ffee.0011"
  = Throw (RangeError "Input buffers must have the same byte length").
Proof.
  apply (@comparePasswords_length_mismatch sample_kdf sample_fromZodError
           "secret123" "c0ffee.0011" "c0ffee" "0011").
  - reflexivity.
  - reflexivity.
  - vm_compute. discriminate.
Defined.

Lemma append_dot_inj (h1 s1 h2 s2 : string) :
  lacks "." h1 = true -> lacks "." h2 = true ->
  lacks "." s1 = true -> lacks "." s2 = true ->
  (h1 ++ String "." s1 = h2 ++ String "." s2)%string -> h1 = h2 /\ s1 = s2.
Proof.
  intros Hh1 Hh2 Hs1 Hs2 H.
  assert (Hsplit : split "." (h1 ++ String "." s1) = split "." (h2 ++ String "." s2))
    by (rewrite H; reflexivity).
  rewrite (split_append _ _ _ Hh1), (split_append _ _ _ Hh2) in Hsplit.
  rewrite (split_lacks _ _ Hs1), (split_lacks _ _ Hs2) in Hsplit.
  injection Hsplit as -> ->. auto.
Qed.

(** X3. Two hashings that draw different salts give different verifiers,
    whatever the plaintexts; and the verifier is the hex key, one dot, and
    the 32 hex characters of the salt. *)
Theorem hashPassword_salts_differ
  (scrypt : string -> string -> nat -> list byte)
  (p1 p2 : string) (e1 e2 : Entropy) (i : nat)
  (Hi : (i < 16)%nat) (Hdiff : e1 i <> e2 i) :
  fst (hashPassword scrypt p1 e1) <> fst (hashPassword scrypt p2 e2)
  /\ exists salt,
       split "." (fst (hashPassword scrypt p1 e1))
       = [toString_hex (scrypt p1 salt 64%nat); salt]
       /\ String.length salt = 32%nat
       /\ string_forallb is_hex_char salt = true.
Proof.
  split.
  - rewrite !hashPassword_shape. intros H.
    apply append_dot_inj in H; try apply toString_hex_lacks_dot.
    destruct H as [_ H]. apply toString_hex_inj in H.
    apply (proj1 (randomBytes_fst_eq 16 e1 e2)) with (i := i) in H; auto.
  - exists (toString_hex (fst (randomBytes 16 e1))).
    rewrite hashPassword_shape.
    rewrite split_append, split_lacks by apply toString_hex_lacks_dot.
    rewrite toString_hex_length, randomBytes_length, toString_hex_is_hex.
    repeat split; reflexivity.
Qed.

Lemma hashPassword_salts_differ_witness :
  fst (hashPassword sample_kdf "secret123" sample_entropy)
  <> fst (hashPassword sample_kdf "secret123" (fun i => sample_entropy (7 + i)%nat)).
Proof.
  apply (@hashPassword_salts_differ sample_kdf "secret123" "secret123"
           sample_entropy (fun i => sample_entropy (7 + i)%nat) 0%nat).
  - lia.
  - vm_compute. discriminate.
Defined.

(** X4. Two verification tokens are equal exactly when the 32 random
    bytes drawn for them are equal: the hex encoding loses nothing. *)
Theorem generateVerificationToken_injective (e1 e2 : Entropy) :
  fst (generateVerificationToken e1) = fst (generateVerificationToken e2)
  <-> forall i, (i < 32)%nat -> e1 i = e2 i.
Proof.
  rewrite <- randomBytes_fst_eq. unfold generateVerificationToken.
  rewrite (surjective_pairing (randomBytes 32 e1)).
  rewrite (surjective_pairing (randomBytes 32 e2)). cbn [fst].
  split; [apply toString_hex_inj|intros ->; reflexivity].
Qed.

(* ================================================================== *)
(** * More on the users table *)

Lemma updated_rows_miss (i : Z) (p : PartialUser) (rows : list User) :
  (forall u, In u rows -> id u <> i) -> updated_rows i p rows = rows.
Proof.
  intros H. unfold updated_rows. rewrite <- (map_id rows) at 2.
  apply map_ext_in. intros u Hu. apply H in Hu. apply Z.eqb_neq in Hu.
  rewrite Hu. reflexivity.
Qed.

Lemma updated_rows_app (i : Z) (p : PartialUser) (l1 l2 : list User) :
  updated_rows i p (l1 ++ l2) = updated_rows i p l1 ++ updated_rows i p l2.
Proof. unfold updated_rows. apply map_app. Qed.

Lemma hd_error_filter_None {A : Type} (f : A -> bool) (l : list A) :
  hd_error (filter f l) = None -> forall a, In a l -> f a = false.
Proof.
  intros H a Hin. destruct (f a) eqn:Hf; [|reflexivity].
  assert (Hin' : In a (filter f l)) by (apply filter_In; auto).
  destruct (filter f l); [destruct Hin'|discriminate].
Qed.

Lemma filter_nil {A : Type} (f : A -> bool) (l : list A) :
  (forall a, In a l -> f a = false) -> filter f l = [].
Proof.
  induction l as [|a l IH]; cbn [filter]; [reflexivity|].
  intros H. rewrite (H a (or_introl eq_refl)). apply IH. intros b Hb.
  apply H. right. exact Hb.
Qed.

Lemma distinct_app_single {A : Type} (eqb : A -> A -> bool) (l : list A) (x : A) :
  distinct eqb l = true -> (forall y, In y l -> eqb y x = false) ->
  distinct eqb (l ++ [x]) = true.
Proof.
  induction l as [|a l IH]; cbn [app distinct]; [reflexivity|].
  intros H Hx. apply andb_true_iff in H. destruct H as [Ha Hl].
  apply andb_true_iff. split.
  - rewrite existsb_app. cbn [existsb]. apply negb_true_iff in Ha.
    rewrite Ha, (Hx a (or_introl eq_refl)). reflexivity.
  - apply IH; [exact Hl|]. intros y Hy. apply Hx. right. exact Hy.
Qed.

Lemma constraints_ok_ids (rows : list User) :
  constraints_ok rows = true -> distinct Z.eqb (map id rows) = true.
Proof.
  unfold constraints_ok. intros H.
  apply andb_true_iff in H. destruct H as [H _].
  apply andb_true_iff in H. destruct H as [H _]. exact H.
Qed.

Lemma distinct_ids_filter (rows : list User) (u : User) :
  distinct Z.eqb (map id rows) = true -> In u rows ->
  filter (fun v => Z.eqb (id v) (id u)) rows = [u].
Proof.
  induction rows as [|v rows IH]; cbn [map distinct filter]; [intros _ []|].
  intros H Hin. apply andb_true_iff in H. destruct H as [Hv Hrows].
  apply negb_true_iff in Hv.
  assert (Hnone : forall w, In w rows -> Z.eqb (id v) (id w) = false).
  { intros w Hw. destruct (Z.eqb (id v) (id w)) eqn:E; [|reflexivity].
    assert (Hex : existsb (Z.eqb (id v)) (map id rows) = true).
    { apply existsb_exists. exists (id w). split; [apply in_map; exact Hw|exact E]. }
    congruence. }
  destruct Hin as [->|Hin].
  - rewrite Z.eqb_refl. f_equal. apply filter_nil. intros w Hw.
    rewrite Z.eqb_sym. apply Hnone. exact Hw.
  - rewrite (Hnone u Hin). apply IH; assumption.
Qed.

Lemma getUser_of_In (db : DB) (u : User) :
  db_ok db -> In u (users db) -> getUser db (id u) = Some u.
Proof.
  intros Hok Hin. unfold getUser.
  rewrite (distinct_ids_filter _ _ (constraints_ok_ids _ Hok) Hin). reflexivity.
Qed.

Lemma insertUserSchema_parse_Ok (o : object) (userData : InsertUser) :
  insertUserSchema_parse o = Ok userData ->
  get "username" o = Some (VStr (iu_username userData))
  /\ get "email" o = Some (VStr (iu_email userData))
  /\ get "password" o = Some (VStr (iu_password userData)).
Proof.
  unfold insertUserSchema_parse, expect_string.
  destruct (get "username" o) as [[| | |name| | |]|]; try discriminate.
  destruct (get "email" o) as [[| | |addr| | |]|]; try discriminate.
  destruct (get "password" o) as [[| | |pass| | |]|]; try discriminate.
  cbn [app]. destruct (_ ++ _); [|discriminate].
  intros H. injection H as <-. cbn. auto.
Qed.


Section RegistrationMore.

Variable scrypt : string -> string -> nat -> list byte.
Variable fromZodError : list ZodIssue -> string.

(** Every run of [POST /api/register]: refused before any write, insert
    refused by the database, or row inserted and token written. *)
Lemma register_cases (req : Req) (db : DB) :
  let served := post_api_register scrypt fromZodError req db in
  (exists out, served = mkServed db (session_user req) out /\ is_success out = false)
  \/ (exists e, served = mkServed (mkDB (users db) (users_id_seq db + 1))
                           (session_user req) (Next e))
  \/ exists userData,
       insertUserSchema_parse (body req) = Ok userData
       /\ getUserByUsername db (iu_username userData) = None
       /\ getUserByEmail db (iu_email userData) = None
       /\ constraints_ok (users db ++ [registered_row scrypt req db userData]) = true
       /\ served
          = mkServed
              (mkDB (users db
                     ++ [apply_update (registration_token_update req)
                           (registered_row scrypt req db userData)])
                    (users_id_seq db + 1))
              (Some (users_id_seq db))
              (Respond 201
                 (json (VObj (userWithoutPassword (registered_row scrypt req db userData)
                              ++ created_message)))).
Proof.
  cbv zeta. unfold post_api_register.
  destruct (insertUserSchema_parse (body req)) as [userData|[]];
    try (left; eexists; split; reflexivity).
  destruct (getUserByUsername db _) eqn:Hname; [left; eexists; split; reflexivity|].
  destruct (getUserByEmail db _) eqn:Hmail; [left; eexists; split; reflexivity|].
  rewrite (surjective_pairing (generateVerificationToken (entropy req))).
  rewrite (surjective_pairing (hashPassword scrypt _ _)).
  fold (registered_row scrypt req db userData).
  match goal with
  | |- context [createUser db ?iu ?t] =>
      destruct (createUser_cases db iu t) as [(e & ->)|(Hok & ->)]
  end; [right; left; eexists; reflexivity|].
  fold (registered_row scrypt req db userData) in Hok |- *.
  right. right. exists userData.
  split; [reflexivity|]. split; [exact Hname|]. split; [exact Hmail|].
  split; [exact Hok|].
  match goal with
  | |- context [updateUser ?d ?i ?p] =>
      rewrite (@updateUser_keeps_keys d i p
                 (keeps_keys_token_update _ _ _) eq_refl Hok)
  end.
  cbn [users users_id_seq].
  rewrite updated_rows_app.
  rewrite updated_rows_miss
    by (intros u Hu; exact (constraints_ok_fresh_id _ _ _ Hok Hu)).
  unfold updated_rows at 1. cbn [map]. rewrite Z.eqb_refl.
  reflexivity.
Qed.

(** X5. A registration either answers 201, appends exactly one row whose
    id is the sequence value, unverified and not an administrator, and
    logs that identity in; or it answers no success, leaves every row and
    the session as they were. *)
Theorem register_all_or_nothing (req : Req) (db : DB) :
  let served := post_api_register scrypt fromZodError req db in
  if is_success (outcome served)
  then exists u,
         users (db_after served) = users db ++ [u]
         /\ users_id_seq (db_after served) = users_id_seq db + 1
         /\ id u = users_id_seq db
         /\ session_after served = Some (id u)
         /\ isEmailVerified u = false /\ isAdmin u = false
         /\ getUserByUsername db (username u) = None
         /\ getUserByEmail db (email u) = None
  else users (db_after served) = users db
       /\ session_after served = session_user req.
Proof.
  cbv zeta.
  destruct (register_cases req db)
    as [(out & -> & Hout)|[(e & ->)|(userData & _ & Hname & Hmail & _ & ->)]];
    cbv zeta; cbn [outcome db_after session_after users users_id_seq is_success].
  - rewrite Hout. split; reflexivity.
  - split; reflexivity.
  - cbn. eexists. split; [reflexivity|]. cbn. repeat split; assumption.
Qed.

(** X6. On a database that satisfies its key constraints and whose ids
    lie below the sequence, a registration with a valid body, a free
    username and a free email address succeeds with 201. *)
Theorem register_succeeds (req : Req) (db : DB) (userData : InsertUser)
  (Hok : db_ok db) (Hseq : ids_below_seq db)
  (Hvalid : insertUserSchema_parse (body req) = Ok userData)
  (Hname : getUserByUsername db (iu_username userData) = None)
  (Hmail : getUserByEmail db (iu_email userData) = None) :
  let served := post_api_register scrypt fromZodError req db in
  outcome served
  = Respond 201
      (json (VObj (userWithoutPassword (registered_row scrypt req db userData)
                   ++ created_message)))
  /\ session_after served = Some (users_id_seq db)
  /\ getUserByUsername (db_after served) (iu_username userData)
     = Some (apply_update (registration_token_update req)
               (registered_row scrypt req db userData)).
Proof.
  cbv zeta.
  assert (Hfresh : constraints_ok (users db ++ [registered_row scrypt req db userData])
                   = true).
  { unfold db_ok, constraints_ok in *.
    apply andb_true_iff in Hok. destruct Hok as [Hok Hemails].
    apply andb_true_iff in Hok. destruct Hok as [Hids Hnames].
    rewrite !map_app. cbn [map].
    rewrite !distinct_app_single; auto.
    - intros y Hy. apply in_map_iff in Hy. destruct Hy as (u & <- & Hu).
      exact (hd_error_filter_None _ _ Hmail u Hu).
    - intros y Hy. apply in_map_iff in Hy. destruct Hy as (u & <- & Hu).
      exact (hd_error_filter_None _ _ Hname u Hu).
    - intros y Hy. apply in_map_iff in Hy. destruct Hy as (u & <- & Hu).
      apply Z.eqb_neq. cbn.
      pose proof (proj1 (Forall_forall _ _) Hseq u Hu) as Hlt. cbn in Hlt. lia. }
  unfold post_api_register. rewrite Hvalid, Hname, Hmail.
  rewrite (surjective_pairing (generateVerificationToken (entropy req))).
  rewrite (surjective_pairing (hashPassword scrypt _ _)).
  fold (registered_row scrypt req db userData).
  unfold createUser. fold (registered_row scrypt req db userData). rewrite Hfresh.
  match goal with
  | |- context [updateUser ?d ?i ?p] =>
      rewrite (@updateUser_keeps_keys d i p
                 (keeps_keys_token_update _ _ _) eq_refl Hfresh)
  end.
  cbn [outcome session_after db_after users users_id_seq].
  split; [reflexivity|]. split; [reflexivity|].
  rewrite updated_rows_app.
  rewrite updated_rows_miss
    by (intros u Hu; exact (constraints_ok_fresh_id _ _ _ Hfresh Hu)).
  unfold updated_rows. cbn [map]. rewrite Z.eqb_refl.
  unfold getUserByUsername. cbn [users]. rewrite filter_app.
  rewrite (filter_nil _ _ (hd_error_filter_None _ _ Hname)).
  cbn. rewrite String.eqb_refl. reflexivity.
Qed.

(** X7. A registration whose username is taken is refused with 400
    "Username already exists"; one whose username is free but whose email
    is taken, with 400 "Email already exists".  Neither writes anything. *)
Theorem register_duplicate_rejected (req : Req) (db : DB) (userData : InsertUser)
  (Hvalid : insertUserSchema_parse (body req) = Ok userData)
  (Hdup : getUserByUsername db (iu_username userData) <> None
          \/ getUserByEmail db (iu_email userData) <> None) :
  post_api_register scrypt fromZodError req db
  = mkServed db (session_user req)
      (Respond 400
         (message (match getUserByUsername db (iu_username userData) with
                   | Some _ => "Username already exists"
                   | None => "Email already exists"
                   end))).
Proof.
  unfold post_api_register. rewrite Hvalid.
  destruct (getUserByUsername db _); [reflexivity|].
  destruct (getUserByEmail db _); [reflexivity|].
  destruct Hdup as [H|H]; contradiction.
Qed.

(** X8. After a successful registration, a login with the registered
    username and password succeeds on the resulting database and opens a
    session for the identity the registration created, provided the
    username has at least 3 and the password at least 6 characters.
    Registration asks for neither; the login schema refuses shorter ones,
    and then the login with the registered credentials is answered 400.
    In both cases the login leaves the database as it was. *)
Theorem register_then_login
  (req req' : Req) (db : DB) (name pass : string)
  (Hreg : is_success (outcome (post_api_register scrypt fromZodError req db)) = true)
  (Hname : get "username" (body req) = Some (VStr name))
  (Hpass : get "password" (body req) = Some (VStr pass))
  (Hname' : get "username" (body req') = Some (VStr name))
  (Hpass' : get "password" (body req') = Some (VStr pass)) :
  let served := post_api_register scrypt fromZodError req db in
  let served' := post_api_login scrypt fromZodError req' (db_after served) in
  db_after served' = db_after served
  /\ ((3 <= String.length name)%nat /\ (6 <= String.length pass)%nat ->
      exists u,
        outcome served' = Respond 200 (json (VObj (userWithoutPassword u)))
        /\ username u = name
        /\ getUserByUsername (db_after served) name = Some u
        /\ session_after served' = Some (id u)
        /\ session_after served' = session_after served)
  /\ ((String.length name < 3)%nat \/ (String.length pass < 6)%nat ->
      exists issues,
        issues <> []
        /\ outcome served' = Respond 400 (message (fromZodError issues))
        /\ session_after served' = session_user req').
Proof.
  cbv zeta.
  assert (Hparse :
            loginSchema_parse (body req')
            = if Nat.ltb (String.length name) 3 || Nat.ltb (String.length pass) 6
              then Throw (ZodError
                            ((if Nat.ltb (String.length name) 3
                              then [too_small "username" "Username must be at least 3 characters"]
                              else [])
                             ++ (if Nat.ltb (String.length pass) 6
                                 then [too_small "password" "Password must be at least 6 characters"]
                                 else [])))
              else Ok (mkLoginCredentials name pass)).
  { unfold loginSchema_parse, expect_min. rewrite Hname', Hpass'.
    destruct (Nat.ltb (String.length name) 3), (Nat.ltb (String.length pass) 6);
      reflexivity. }
  destruct (register_cases req db)
    as [(out & Hrun & Hout)|[(e & Hrun)|(userData & Hvalid & Hfree & _ & _ & Hrun)]];
    cbv zeta in *; rewrite Hrun in *; cbn [outcome is_success] in Hreg;
    try congruence.
  clear Hreg Hrun.
  destruct (insertUserSchema_parse_Ok _ Hvalid) as (Hu & _ & Hp).
  rewrite Hname in Hu. injection Hu as Hu. rewrite Hpass in Hp. injection Hp as Hp.
  cbn [db_after session_after].
  set (u := apply_update (registration_token_update req)
              (registered_row scrypt req db userData)).
  assert (Hfind : getUserByUsername
                    (mkDB (users db ++ [u]) (users_id_seq db + 1)) name
                  = Some u).
  { unfold getUserByUsername. cbn [users]. rewrite filter_app.
    rewrite Hu. rewrite (filter_nil _ _ (hd_error_filter_None _ _ Hfree)).
    cbn. rewrite String.eqb_refl. reflexivity. }
  split; [|split].
  - unfold post_api_login.
    destruct (loginSchema_parse (body req')) as [c|[]]; try reflexivity.
    destruct (authenticate_local scrypt _ _); reflexivity.
  - intros [Hn Hl].
    apply Nat.ltb_ge in Hn. apply Nat.ltb_ge in Hl. rewrite Hn, Hl in Hparse.
    cbn [orb] in Hparse.
    exists u. unfold post_api_login. rewrite Hparse.
    rewrite (authenticate_local_validated scrypt _ _ Hparse).
    cbn [lc_username lc_password].
    unfold verify. rewrite Hfind.
    replace (password u)
      with (fst (hashPassword scrypt pass
                   (snd (generateVerificationToken (entropy req)))))
      by (rewrite Hp; reflexivity).
    rewrite comparePasswords_own_verifier. cbn.
    repeat split; try reflexivity. symmetry. exact Hu.
  - intros Hshort.
    assert (Hb : Nat.ltb (String.length name) 3 || Nat.ltb (String.length pass) 6 = true).
    { apply orb_true_iff. destruct Hshort as [H|H]; [left|right];
        apply Nat.ltb_lt; exact H. }
    rewrite Hb in Hparse.
    eexists. split; [|unfold post_api_login; rewrite Hparse; split; reflexivity].
    apply orb_true_iff in Hb. destruct Hb as [-> | ->]; [discriminate|].
    destruct (Nat.ltb (String.length name) 3); discriminate.
Qed.

(** X9. On a database that satisfies its key constraints, the session a
    successful login opens resolves to the identity that logged in:
    [GET /api/user] in that session answers with the user object the login
    answered with. *)
Theorem login_then_current_user (req req' : Req) (db : DB)
  (Hok : db_ok db)
  (Hlogin : is_success (outcome (post_api_login scrypt fromZodError req db)) = true)
  (Hsession : session_user req'
              = session_after (post_api_login scrypt fromZodError req db)) :
  outcome (get_api_user req' db)
  = outcome (post_api_login scrypt fromZodError req db)
  /\ exists u, req_user req' db = Some u
               /\ session_user req' = Some (id u)
               /\ requireAuth req' db = Pass.
Proof.
  revert Hlogin Hsession. unfold post_api_login.
  destruct (loginSchema_parse (body req)) as [c|[]] eqn:Hc; try discriminate.
  rewrite (authenticate_local_validated scrypt db _ Hc).
  destruct (verify scrypt db _ _) as [e|m|u] eqn:Hv; try discriminate.
  cbn [outcome session_after]. intros _ Hsession.
  apply verify_done_user, hd_error_filter_In in Hv. destruct Hv as [Hin _].
  assert (Hu : req_user req' db = Some u).
  { unfold req_user. rewrite Hsession. apply getUser_of_In; assumption. }
  split.
  - unfold get_api_user. rewrite Hu. reflexivity.
  - exists u. split; [exact Hu|]. split; [exact Hsession|].
    unfold requireAuth, isAuthenticated. rewrite Hu. reflexivity.
Qed.

End RegistrationMore.

(* ================================================================== *)
(** * One row among distinct ids *)

(** With distinct ids, a row splits the table into rows before and after
    it, none of which has its id. *)
Lemma split_by_id (rows : list User) (u : User) :
  distinct Z.eqb (map id rows) = true -> In u rows ->
  exists l1 l2,
    rows = l1 ++ u :: l2
    /\ (forall v, In v l1 -> id v <> id u)
    /\ (forall v, In v l2 -> id v <> id u).
Proof.
  intros Hd Hin. pose proof (distinct_ids_filter _ _ Hd Hin) as Hf.
  apply in_split in Hin. destruct Hin as (l1 & l2 & ->).
  exists l1, l2. split; [reflexivity|].
  rewrite filter_app in Hf. cbn [filter] in Hf. rewrite Z.eqb_refl in Hf.
  assert (Hl1 : filter (fun v => Z.eqb (id v) (id u)) l1 = []).
  { destruct (filter _ l1) as [|a [|b l]]; [reflexivity|discriminate|discriminate]. }
  rewrite Hl1 in Hf. cbn [app] in Hf. injection Hf as Hl2.
  split; intros v Hv Heq.
  - assert (Hv' : In v (filter (fun v => Z.eqb (id v) (id u)) l1))
      by (apply filter_In; split; [exact Hv|apply Z.eqb_eq; exact Heq]).
    rewrite Hl1 in Hv'. destruct Hv'.
  - assert (Hv' : In v (filter (fun v => Z.eqb (id v) (id u)) l2))
      by (apply filter_In; split; [exact Hv|apply Z.eqb_eq; exact Heq]).
    rewrite Hl2 in Hv'. destruct Hv'.
Qed.

Lemma updated_rows_split (p : PartialUser) (l1 l2 : list User) (u : User) :
  (forall v, In v l1 -> id v <> id u) ->
  (forall v, In v l2 -> id v <> id u) ->
  updated_rows (id u) p (l1 ++ u :: l2) = l1 ++ apply_update p u :: l2.
Proof.
  intros H1 H2. rewrite updated_rows_app.
  rewrite (updated_rows_miss _ _ H1).
  unfold updated_rows at 1. cbn [map]. rewrite Z.eqb_refl.
  fold (updated_rows (id u) p l2). rewrite (updated_rows_miss _ _ H2).
  reflexivity.
Qed.

Lemma getUser_split_hit (l1 l2 : list User) (u : User) (s : Z) :
  (forall v, In v l1 -> id v <> id u) ->
  getUser (mkDB (l1 ++ u :: l2) s) (id u) = Some u.
Proof.
  intros H1. unfold getUser. cbn [users]. rewrite filter_app.
  rewrite (filter_nil (fun v => Z.eqb (id v) (id u)) l1)
    by (intros v Hv; apply Z.eqb_neq, H1, Hv).
  cbn [filter app]. rewrite Z.eqb_refl. reflexivity.
Qed.

Lemma getUser_split_miss (l1 l2 : list User) (u u' : User) (s s' j : Z) :
  id u' = id u -> j <> id u ->
  getUser (mkDB (l1 ++ u' :: l2) s') j = getUser (mkDB (l1 ++ u :: l2) s) j.
Proof.
  intros Hid Hj. unfold getUser. cbn [users]. rewrite !filter_app.
  cbn [filter]. rewrite Hid.
  assert (Hne : Z.eqb (id u) j = false) by (apply Z.eqb_neq; congruence).
  rewrite Hne. reflexivity.
Qed.

(** The result of [updateUser] for an existing row when the update leaves
    the key columns alone. *)
Lemma updateUser_existing (db : DB) (p : PartialUser) (u : User) :
  keeps_keys p -> sets_something p = true -> db_ok db -> In u (users db) ->
  exists l1 l2,
    users db = l1 ++ u :: l2
    /\ (forall v, In v l1 -> id v <> id u)
    /\ (forall v, In v l2 -> id v <> id u)
    /\ updateUser db (id u) p
       = (mkDB (l1 ++ apply_update p u :: l2) (users_id_seq db),
          Ok (Some (apply_update p u))).
Proof.
  intros Hk Hs Hok Hin.
  destruct (split_by_id _ _ (constraints_ok_ids _ Hok) Hin) as (l1 & l2 & Hrows & H1 & H2).
  exists l1, l2. split; [exact Hrows|]. split; [exact H1|]. split; [exact H2|].
  rewrite (updateUser_keeps_keys (id u) Hk Hs Hok).
  rewrite (distinct_ids_filter _ _ (constraints_ok_ids _ Hok) Hin).
  rewrite Hrows, (updated_rows_split _ _ _ _ H1 H2). reflexivity.
Qed.

Lemma token_holders_split (l1 l2 : list User) (u : User) (s : Z) (token : string) :
  (forall v, In v l1 -> id v <> id u) ->
  (forall v, In v l2 -> id v <> id u) ->
  token_is token u = false ->
  ~ In (id u) (token_holders (mkDB (l1 ++ u :: l2) s) token).
Proof.
  intros H1 H2 Hu Hin. unfold token_holders, getUserByVerificationToken in Hin.
  cbn [users] in Hin. apply in_map_iff in Hin. destruct Hin as (v & Hid & Hv).
  apply filter_In in Hv. destruct Hv as [Hv Htok].
  apply in_app_or in Hv. destruct Hv as [Hv|[<-|Hv]].
  - exact (H1 v Hv Hid).
  - congruence.
  - exact (H2 v Hv Hid).
Qed.

(* ================================================================== *)
(** * More on verification tokens *)

(** X10. A verification request whose token resolves to an identity that
    is not past its expiry (the expiry instant itself still counts, and an
    identity without expiry never expires) is answered 200.  On a database
    that satisfies its key constraints the identity is then marked
    verified with token and expiry cleared, every other identity is as it
    was, and the token no longer resolves to that identity: presented
    again, it is answered 404 unless another identity holds it too. *)
Theorem verify_email_accepts
  (req : Req) (db : DB) (token : string) (user : User) (others : list User)
  (Hok : db_ok db)
  (Htoken : query_token req = Some token)
  (Hnonempty : token <> "")
  (Hmatch : getUserByVerificationToken db token = user :: others)
  (Hvalid : match verificationTokenExpiry user with
            | Some expiry => now req <= expiry
            | None => True
            end) :
  let served := get_verify_email req db in
  let verified := apply_update (token_update (Some true) None None) user in
  outcome served = Respond 200 (html verified_page)
  /\ getUser (db_after served) (id user) = Some verified
  /\ isEmailVerified verified = true
  /\ verificationToken verified = None
  /\ verificationTokenExpiry verified = None
  /\ without_verification verified = without_verification user
  /\ (forall j, j <> id user -> getUser (db_after served) j = getUser db j)
  /\ ~ In (id user) (token_holders (db_after served) token)
  /\ (others = [] ->
      forall req', query_token req' = Some token ->
        outcome (get_verify_email req' (db_after served))
        = Respond 404 (html invalid_link_page)).
Proof.
  cbv zeta.
  assert (Hin : In user (users db)).
  { assert (H : In user (user :: others)) by (left; reflexivity).
    rewrite <- Hmatch in H. apply filter_In in H. apply H. }
  destruct (@updateUser_existing db (token_update (Some true) None None) user
              (keeps_keys_token_update _ _ _) eq_refl Hok Hin)
    as (l1 & l2 & Hrows & H1 & H2 & Hupd).
  assert (Hserved : get_verify_email req db
                    = mkServed
                        (mkDB (l1 ++ apply_update (token_update (Some true) None None) user
                                  :: l2) (users_id_seq db))
                        (session_user req) (Respond 200 (html verified_page))).
  { unfold get_verify_email. rewrite Htoken, (truthy_Some_nonempty Hnonempty).
    cbn [negb or_else]. rewrite Hmatch.
    assert (Hnot : match verificationTokenExpiry user with
                   | Some expiry => expiry <? now req
                   | None => false
                   end = false).
    { destruct (verificationTokenExpiry user); [apply Z.ltb_ge; exact Hvalid|reflexivity]. }
    rewrite Hnot.
    change (updateUser db (id user) _)
      with (updateUser db (id user) (token_update (Some true) None None)).
    rewrite Hupd. reflexivity. }
  rewrite Hserved. cbn [outcome db_after].
  set (verified := apply_update (token_update (Some true) None None) user) in *.
  assert (Hid : id verified = id user) by reflexivity.
  split; [reflexivity|].
  split; [rewrite <- Hid; apply getUser_split_hit; rewrite Hid; exact H1|].
  split; [reflexivity|]. split; [reflexivity|]. split; [reflexivity|].
  split; [reflexivity|].
  split.
  { intros j Hj. rewrite (@getUser_split_miss l1 l2 user verified (users_id_seq db)
                            (users_id_seq db) j Hid Hj).
    unfold getUser. cbn [users]. rewrite Hrows. reflexivity. }
  assert (Hgone : getUserByVerificationToken
                    (mkDB (l1 ++ verified :: l2) (users_id_seq db)) token = others).
  { unfold getUserByVerificationToken in *. cbn [users]. rewrite Hrows in Hmatch.
    rewrite filter_app in Hmatch |- *. cbn [filter] in Hmatch |- *.
    assert (Huser : token_is token user = true).
    { assert (H : In user (user :: others)) by (left; reflexivity).
      rewrite <- Hmatch in H. apply in_app_or in H. destruct H as [H|H].
      - apply filter_In in H. apply H.
      - destruct (token_is token user); [reflexivity|].
        apply filter_In in H. destruct H as [H _]. exfalso. exact (H2 _ H eq_refl). }
    rewrite Huser in Hmatch.
    change (token_is token verified) with false. cbn iota.
    destruct (filter (token_is token) l1) as [|a l] eqn:Hl1.
    - cbn [app] in Hmatch |- *. injection Hmatch as Hm. exact Hm.
    - cbn [app] in Hmatch. injection Hmatch as Ha _.
      assert (Hal1 : In a l1).
      { assert (H : In a (filter (token_is token) l1)) by (rewrite Hl1; left; reflexivity).
        apply filter_In in H. apply H. }
      exfalso. apply (H1 a Hal1). rewrite Ha. reflexivity. }
  split.
  { rewrite <- Hid. apply token_holders_split; rewrite ?Hid; auto. }
  intros -> req' Htoken'. unfold get_verify_email.
  rewrite Htoken', (truthy_Some_nonempty Hnonempty). cbn [negb or_else].
  rewrite Hgone. reflexivity.
Qed.

Lemma token_is_other (token old : string) (u : User) :
  verificationToken u = Some token -> old <> token -> token_is old u = false.
Proof.
  intros Ht Hne. unfold token_is. rewrite Ht. apply String.eqb_neq. congruence.
Qed.

(** X11. A resend for an authenticated, unverified identity, on a database
    that satisfies its key constraints, answers 200 and overwrites the
    stored pair: the identity now holds the new token with expiry
    [now + 24 h], still unverified; no other token resolves to it any
    more, so the token it held before is dead unless it equals the new
    one; every other identity is as it was. *)
Theorem resend_overwrites_token (req : Req) (db : DB) (user : User)
  (Hok : db_ok db)
  (Hauth : req_user req db = Some user)
  (Hunverified : isEmailVerified user = false) :
  let served := post_api_resend_verification req db in
  let token := fst (generateVerificationToken (entropy req)) in
  let renewed :=
    apply_update (token_update None (Some token) (Some (now req + day_ms))) user in
  outcome served
  = Respond 200 (message "Verification email sent successfully. Please check your inbox.")
  /\ getUser (db_after served) (id user) = Some renewed
  /\ without_verification renewed = without_verification user
  /\ isEmailVerified renewed = false
  /\ In (id user) (token_holders (db_after served) token)
  /\ (forall old, old <> token ->
        ~ In (id user) (token_holders (db_after served) old))
  /\ (forall j, j <> id user -> getUser (db_after served) j = getUser db j).
Proof.
  cbv zeta.
  destruct (req_user_In _ _ Hauth) as [Hin _].
  set (token := fst (generateVerificationToken (entropy req))).
  set (p := token_update None (Some token) (Some (now req + day_ms))).
  destruct (@updateUser_existing db p user
              (keeps_keys_token_update _ _ _) eq_refl Hok Hin)
    as (l1 & l2 & Hrows & H1 & H2 & Hupd).
  assert (Hserved : post_api_resend_verification req db
                    = mkServed (mkDB (l1 ++ apply_update p user :: l2) (users_id_seq db))
                        (session_user req)
                        (Respond 200 (message "Verification email sent successfully. Please check your inbox."))).
  { unfold post_api_resend_verification. rewrite Hauth, Hunverified.
    rewrite (surjective_pairing (generateVerificationToken (entropy req))).
    fold token.
    change (updateUser db (id user) _) with (updateUser db (id user) p).
    rewrite Hupd. reflexivity. }
  rewrite Hserved. cbn [outcome db_after].
  set (renewed := apply_update p user) in *.
  assert (Hid : id renewed = id user) by reflexivity.
  split; [reflexivity|].
  split; [rewrite <- Hid; apply getUser_split_hit; rewrite Hid; exact H1|].
  split; [reflexivity|].
  split; [exact Hunverified|].
  split.
  { unfold token_holders, getUserByVerificationToken. cbn [users].
    apply in_map_iff. exists renewed. split; [exact Hid|].
    apply filter_In. split; [apply in_or_app; right; left; reflexivity|].
    unfold token_is. change (verificationToken renewed) with (Some token).
    apply String.eqb_refl. }
  split.
  { intros old Hold. rewrite <- Hid. apply token_holders_split; rewrite ?Hid; auto.
    apply (token_is_other (token := token)); [reflexivity|exact Hold]. }
  intros j Hj.
  rewrite (@getUser_split_miss l1 l2 user renewed (users_id_seq db)
             (users_id_seq db) j Hid Hj).
  unfold getUser. cbn [users]. rewrite Hrows. reflexivity.
Qed.

(* ================================================================== *)
(** * Requests without an authenticated session *)

(** X12. A request without a session passes the session middleware and
    is stopped by both gates before the guarded handler runs, by
    [requireAuth] with 401 "Unauthorized" and by [requireAdmin] with 403
    "Forbidden"; the current-user query, resend-verification and profile
    update answer 401.  A request whose session names an id that has no
    row reaches neither gate nor handler: the session middleware ends it
    with the error "Failed to deserialize user out of session".  None of
    these runs writes to the database or changes the session. *)
Theorem anonymous_rejected (req : Req) (db : DB)
  (Hanon : req_user req db = None) :
  match session_user req with
  | None =>
      (forall h : Handler,
          passport_session (guarded requireAuth h) req db
          = mkServed db None (Respond 401 (message "Unauthorized")))
      /\ (forall h : Handler,
             passport_session (guarded requireAdmin h) req db
             = mkServed db None (Respond 403 (message "Forbidden")))
      /\ passport_session get_api_user req db
         = mkServed db None (Respond 401 (text "Unauthorized"))
      /\ passport_session post_api_resend_verification req db
         = mkServed db None
             (Respond 401 (message "You must be logged in to request a verification email"))
      /\ passport_session patch_api_users_profile req db
         = mkServed db None (Respond 401 (message "Unauthorized"))
  | Some i =>
      getUser db i = None
      /\ forall h : Handler,
           passport_session h req db
           = mkServed db (Some i)
               (Next (Error "Failed to deserialize user out of session"))
  end.
Proof.
  assert (Hauth : requireAuth req db = Block 401 (message "Unauthorized")).
  { unfold requireAuth, isAuthenticated. rewrite Hanon. reflexivity. }
  assert (Hadmin : requireAdmin req db = Block 403 (message "Forbidden")).
  { unfold requireAdmin, isAuthenticated. rewrite Hanon. reflexivity. }
  unfold passport_session.
  unfold req_user in Hanon.
  destruct (session_user req) as [i|] eqn:Hsession.
  - split; [exact Hanon|]. intros h. rewrite Hanon. reflexivity.
  - assert (Hnone : req_user req db = None)
      by (unfold req_user; rewrite Hsession; reflexivity).
    split; [intros h; unfold guarded; rewrite Hauth, Hsession; reflexivity|].
    split; [intros h; unfold guarded; rewrite Hadmin, Hsession; reflexivity|].
    split; [unfold get_api_user; rewrite Hnone, Hsession; reflexivity|].
    split; [unfold post_api_resend_verification; rewrite Hnone, Hsession; reflexivity|].
    unfold patch_api_users_profile, guarded. rewrite Hauth, Hsession. reflexivity.
Qed.

Lemma anonymous_rejected_witness :
  passport_session patch_api_users_profile
    (with_body [("fullName", VStr "Mallory")] sample_req) sample_db
  = mkServed sample_db None (Respond 401 (message "Unauthorized"))
  /\ passport_session patch_api_users_profile
       (with_session (Some 99) (with_body [("fullName", VStr "Mallory")] sample_req))
       sample_db
     = mkServed sample_db (Some 99)
         (Next (Error "Failed to deserialize user out of session")).
Proof.
  split.
  - apply (@anonymous_rejected (with_body [("fullName", VStr "Mallory")] sample_req)
             sample_db eq_refl).
  - apply (@anonymous_rejected
             (with_session (Some 99) (with_body [("fullName", VStr "Mallory")] sample_req))
             sample_db eq_refl).
Defined.

(* ================================================================== *)
(** * Profile updates *)

Lemma collect_updates_shape (o : object) :
  collect_updates o
  = match get "fullName" o, get "bankDetails" o with
    | Some v, Some w => [("fullName", v); ("bankDetails", w)]
    | Some v, None => [("fullName", v)]
    | None, Some w => [("bankDetails", w)]
    | None, None => []
    end.
Proof.
  unfold collect_updates, allowedUpdates. cbn [fold_left].
  destruct (get "fullName" o), (get "bankDetails" o); reflexivity.
Qed.

(** The update a profile request amounts to names no column but
    [fullName] and [bankDetails]. *)
Lemma profile_update_shape (o : object) (p : PartialUser) :
  as_PartialUser (collect_updates o) = Ok p ->
  p = {| p_id := None; p_username := None; p_email := None;
         p_password := None; p_fullName := p_fullName p; p_country := None;
         p_isAdmin := None; p_isEmailVerified := None;
         p_verificationToken := None; p_verificationTokenExpiry := None;
         p_bankDetails := p_bankDetails p; p_createdAt := None |}.
Proof.
  intros Hp. apply as_PartialUser_Ok in Hp.
  destruct Hp as (H1 & H2 & H3 & H4 & _ & H6 & H7 & H8 & H9 & H10 & _ & H12).
  repeat match goal with
         | H : column _ _ (collect_updates o) = Ok _ |- _ =>
             rewrite column_absent in H by (apply collect_updates_get; discriminate);
             injection H as H; symmetry in H
         end.
  destruct p. cbn in *. subst. reflexivity.
Qed.

Lemma without_profile_apply_update (p : PartialUser) (u : User) :
  p = {| p_id := None; p_username := None; p_email := None;
         p_password := None; p_fullName := p_fullName p; p_country := None;
         p_isAdmin := None; p_isEmailVerified := None;
         p_verificationToken := None; p_verificationTokenExpiry := None;
         p_bankDetails := p_bankDetails p; p_createdAt := None |} ->
  without_profile (apply_update p u) = without_profile u.
Proof. intros ->. reflexivity. Qed.

(** X13. Whatever the request body names, a profile update changes no
    column of any row other than [fullName] and [bankDetails]: username,
    email, password verifier, administrator flag, verification state and
    the rest are as before, for every identity; no row is added or
    removed, and the session is kept. *)
Theorem profile_update_touches_profile_only (req : Req) (db : DB) :
  let served := patch_api_users_profile req db in
  map without_profile (users (db_after served)) = map without_profile (users db)
  /\ users_id_seq (db_after served) = users_id_seq db
  /\ session_after served = session_user req.
Proof.
  cbv zeta. unfold patch_api_users_profile, guarded.
  destruct (requireAuth req db); [|repeat split; reflexivity].
  destruct (req_user req db) as [user|]; [|repeat split; reflexivity].
  destruct (as_PartialUser (collect_updates (body req))) as [p|] eqn:Hp;
    [|repeat split; reflexivity].
  apply profile_update_shape in Hp.
  destruct (updateUser_cases db (id user) p) as [(e & ->)|(_ & _ & ->)];
    [repeat split; reflexivity|].
  assert (Hrows : map without_profile (updated_rows (id user) p (users db))
                  = map without_profile (users db)).
  { unfold updated_rows. rewrite map_map. apply map_ext. intros u.
    destruct (Z.eqb (id u) (id user)); [|reflexivity].
    apply without_profile_apply_update. exact Hp. }
  destruct (hd_error _); cbn [db_after session_after users users_id_seq];
    repeat split; auto.
Qed.

(** X14. A profile update whose body names neither [fullName] nor
    [bankDetails] is not a no-op with a success answer: the empty update is
    refused, the answer is 500 "Failed to update profile", and nothing is
    written. *)
Theorem profile_update_without_fields (req : Req) (db : DB) (user : User)
  (Hauth : req_user req db = Some user)
  (Hname : get "fullName" (body req) = None)
  (Hbank : get "bankDetails" (body req) = None) :
  patch_api_users_profile req db
  = mkServed db (session_user req)
      (Respond 500 (message "Failed to update profile")).
Proof.
  unfold patch_api_users_profile, guarded, requireAuth, isAuthenticated.
  rewrite Hauth. cbn [is_set negb]. rewrite collect_updates_shape, Hname, Hbank.
  reflexivity.
Qed.

Lemma profile_update_without_fields_witness :
  patch_api_users_profile
    (with_session (Some 1) (with_body [("isAdmin", VBool true)] sample_req)) sample_db
  = mkServed sample_db (Some 1) (Respond 500 (message "Failed to update profile")).
Proof.
  apply (@profile_update_without_fields
           (with_session (Some 1) (with_body [("isAdmin", VBool true)] sample_req))
           sample_db alice).
  - reflexivity.
  - reflexivity.
  - reflexivity.
Defined.

(** X15. An authenticated profile update that gives a new full name, on a
    database that satisfies its key constraints, stores it for the
    identity of the session and answers 200 with the updated row without
    its password; every other identity is as it was. *)
Theorem profile_update_stores_fullName
  (req : Req) (db : DB) (user : User) (name : string)
  (Hok : db_ok db)
  (Hauth : req_user req db = Some user)
  (Hname : get "fullName" (body req) = Some (VStr name))
  (Hbank : get "bankDetails" (body req) = None) :
  let served := patch_api_users_profile req db in
  let renamed :=
    apply_update
      {| p_id := None; p_username := None; p_email := None;
         p_password := None; p_fullName := Some (Some name); p_country := None;
         p_isAdmin := None; p_isEmailVerified := None;
         p_verificationToken := None; p_verificationTokenExpiry := None;
         p_bankDetails := None; p_createdAt := None |} user in
  outcome served = Respond 200 (json (VObj (userWithoutPassword renamed)))
  /\ getUser (db_after served) (id user) = Some renamed
  /\ fullName renamed = Some name
  /\ (forall j, j <> id user -> getUser (db_after served) j = getUser db j).
Proof.
  cbv zeta.
  destruct (req_user_In _ _ Hauth) as [Hin _].
  set (p := {| p_id := None; p_username := None; p_email := None;
               p_password := None; p_fullName := Some (Some name); p_country := None;
               p_isAdmin := None; p_isEmailVerified := None;
               p_verificationToken := None; p_verificationTokenExpiry := None;
               p_bankDetails := None; p_createdAt := None |}).
  assert (Hk : keeps_keys p) by (repeat split; reflexivity).
  destruct (@updateUser_existing db p user Hk eq_refl Hok Hin)
    as (l1 & l2 & Hrows & H1 & H2 & Hupd).
  assert (Hserved : patch_api_users_profile req db
                    = mkServed (mkDB (l1 ++ apply_update p user :: l2) (users_id_seq db))
                        (session_user req)
                        (Respond 200 (json (VObj (userWithoutPassword (apply_update p user)))))).
  { unfold patch_api_users_profile, guarded, requireAuth, isAuthenticated.
    rewrite Hauth. cbn [is_set negb].
    rewrite collect_updates_shape, Hname, Hbank.
    change (as_PartialUser [("fullName", VStr name)]) with (Ok p).
    cbv beta iota zeta. rewrite Hupd. reflexivity. }
  rewrite Hserved. cbn [outcome db_after].
  set (renamed := apply_update p user) in *.
  assert (Hid : id renamed = id user) by reflexivity.
  split; [reflexivity|].
  split; [rewrite <- Hid; apply getUser_split_hit; rewrite Hid; exact H1|].
  split; [reflexivity|].
  intros j Hj.
  rewrite (@getUser_split_miss l1 l2 user renamed (users_id_seq db)
             (users_id_seq db) j Hid Hj).
  unfold getUser. cbn [users]. rewrite Hrows. reflexivity.
Qed.

(* ================================================================== *)
(** * The admin surface *)

Lemma requireAdminToken_nonempty (req : Req) (db : DB) (cookie : string) :
  cookies_adminToken req = Some cookie -> cookie <> "" ->
  requireAdminToken req db = Pass.
Proof.
  intros Hc Hne. unfold requireAdminToken. rewrite Hc, (truthy_Some_nonempty Hne).
  reflexivity.
Qed.

(** X16. [PATCH /api/admin/users/:id] asks for nothing but a non-empty
    [adminToken] cookie: no session and no issued token is consulted.  With
    any such cookie and the body [{ "isAdmin": true }] it answers 200 and
    turns the addressed identity into an administrator, for whom
    [requireAdmin] then passes. *)
Theorem admin_cookie_promotes
  (req : Req) (db : DB) (user : User) (cookie : string)
  (Hok : db_ok db)
  (Hcookie : cookies_adminToken req = Some cookie)
  (Hnonempty : cookie <> "")
  (Hbody : body req = [("isAdmin", VBool true)])
  (Hid : params_id req = id user)
  (Hin : In user (users db)) :
  let served := patch_api_admin_users req db in
  let promoted :=
    apply_update
      {| p_id := None; p_username := None; p_email := None;
         p_password := None; p_fullName := None; p_country := None;
         p_isAdmin := Some true; p_isEmailVerified := None;
         p_verificationToken := None; p_verificationTokenExpiry := None;
         p_bankDetails := None; p_createdAt := None |} user in
  outcome served = Respond 200 (json (VObj (user_object promoted)))
  /\ getUser (db_after served) (id user) = Some promoted
  /\ isAdmin promoted = true
  /\ forall req', session_user req' = Some (id user) ->
                  requireAdmin req' (db_after served) = Pass.
Proof.
  cbv zeta.
  set (p := {| p_id := None; p_username := None; p_email := None;
               p_password := None; p_fullName := None; p_country := None;
               p_isAdmin := Some true; p_isEmailVerified := None;
               p_verificationToken := None; p_verificationTokenExpiry := None;
               p_bankDetails := None; p_createdAt := None |}).
  assert (Hk : keeps_keys p) by (repeat split; reflexivity).
  destruct (@updateUser_existing db p user Hk eq_refl Hok Hin)
    as (l1 & l2 & Hrows & H1 & H2 & Hupd).
  assert (Hserved : patch_api_admin_users req db
                    = mkServed (mkDB (l1 ++ apply_update p user :: l2) (users_id_seq db))
                        (session_user req)
                        (Respond 200 (json (VObj (user_object (apply_update p user)))))).
  { unfold patch_api_admin_users, guarded.
    rewrite (requireAdminToken_nonempty req db Hcookie Hnonempty), Hbody, Hid.
    change (as_PartialUser [("isAdmin", VBool true)]) with (Ok p).
    cbv beta iota zeta. rewrite Hupd. reflexivity. }
  rewrite Hserved. cbn [outcome db_after].
  set (promoted := apply_update p user) in *.
  assert (Hpid : id promoted = id user) by reflexivity.
  assert (Hget : getUser (mkDB (l1 ++ promoted :: l2) (users_id_seq db)) (id user)
                 = Some promoted).
  { rewrite <- Hpid. apply getUser_split_hit. rewrite Hpid. exact H1. }
  split; [reflexivity|]. split; [exact Hget|]. split; [reflexivity|].
  intros req' Hsession. unfold requireAdmin, isAuthenticated, req_user.
  rewrite Hsession, Hget. reflexivity.
Qed.

(** X17. A successful admin user update answers with the whole updated
    row, stored password verifier included. *)
Theorem admin_update_returns_verifier (req : Req) (db : DB)
  (Hsuccess : is_success (outcome (patch_api_admin_users req db)) = true) :
  exists u,
    In u (users (db_after (patch_api_admin_users req db)))
    /\ outcome (patch_api_admin_users req db)
       = Respond 200 (json (VObj (user_object u)))
    /\ get "password" (user_object u) = Some (VStr (password u)).
Proof.
  revert Hsuccess. unfold patch_api_admin_users, guarded.
  destruct (requireAdminToken req db) as [|status b] eqn:Hgate.
  - destruct (as_PartialUser (body req)) as [p|]; [|discriminate].
    destruct (updateUser_cases db (params_id req) p) as [(e & ->)|(_ & Hok & ->)];
      [discriminate|].
    destruct (filter _ (users db)) as [|u0 rest] eqn:Hf; [discriminate|].
    cbn [map hd_error outcome db_after users]. intros _.
    assert (Hu0 : In u0 (filter (fun u => Z.eqb (id u) (params_id req)) (users db)))
      by (rewrite Hf; left; reflexivity).
    apply filter_In in Hu0. destruct Hu0 as [Hin Hid]. apply Z.eqb_eq in Hid.
    exists (apply_update p u0).
    split; [apply updated_rows_hit; assumption|].
    split; reflexivity.
  - unfold requireAdminToken in Hgate.
    destruct (negb (truthy (cookies_adminToken req))); [|discriminate].
    injection Hgate as <- <-. discriminate.
Qed.

(** X18. [POST /api/admin/login] accepts exactly the username "admin"
    with the password "admin123", both as strings.  It then sets the
    [adminToken] cookie to 64 hexadecimal characters, with which the next
    request passes [requireAdminToken] and a logout clears the cookie, so
    that the request after that is stopped with 401.  Any other body is
    answered 401 and leaves the cookie alone. *)
Theorem admin_login_cookie (req : Req) :
  let served := post_api_admin_login req in
  if is_string (get "username" (body req)) "admin"
     && is_string (get "password" (body req)) "admin123"
  then
    exists token,
      cookie_change served = cookie_set token
      /\ String.length token = 64%nat
      /\ string_forallb is_hex_char token = true
      /\ is_success (admin_outcome served) = true
      /\ forall req' db,
           cookies_adminToken req'
           = next_cookie (cookie_change served) (cookies_adminToken req) ->
           requireAdminToken req' db = Pass
           /\ cookie_change (post_api_admin_logout req' db) = cookie_cleared
           /\ forall req'' db',
                cookies_adminToken req''
                = next_cookie (cookie_change (post_api_admin_logout req' db))
                    (cookies_adminToken req') ->
                requireAdminToken req'' db'
                = Block 401 (message "Admin authentication required")
  else
    cookie_change served = cookie_kept
    /\ admin_outcome served
       = Respond 401 (json (VObj [("success", VBool false);
                                  ("message", VStr "Invalid admin credentials")])).
Proof.
  cbv zeta. unfold post_api_admin_login.
  destruct (is_string _ "admin" && is_string _ "admin123"); [|split; reflexivity].
  rewrite (surjective_pairing (randomBytes 32 (entropy req))).
  cbn [cookie_change admin_outcome next_cookie].
  set (token := toString_hex (fst (randomBytes 32 (entropy req)))).
  assert (Hlen : String.length token = 64%nat).
  { unfold token. rewrite toString_hex_length, randomBytes_length. reflexivity. }
  exists token. split; [reflexivity|]. split; [exact Hlen|].
  split; [apply toString_hex_is_hex|]. split; [reflexivity|].
  intros req' db Hcookie.
  assert (Hpass : requireAdminToken req' db = Pass).
  { apply (requireAdminToken_nonempty req' db Hcookie).
    intros E. rewrite E in Hlen. discriminate Hlen. }
  split; [exact Hpass|].
  unfold post_api_admin_logout. rewrite Hpass. cbn [cookie_change next_cookie].
  split; [reflexivity|].
  intros req'' db' Hnone. unfold requireAdminToken. rewrite Hnone. reflexivity.
Qed.

(* ================================================================== *)
(** * Sorting *)

Lemma insert_sorted_perm {A : Type} (before : A -> A -> bool) (x : A) (l : list A) :
  Permutation (insert_sorted before x l) (x :: l).
Proof.
  induction l as [|y l IH]; cbn [insert_sorted]; [reflexivity|].
  destruct (before x y); [reflexivity|].
  rewrite IH. apply perm_swap.
Qed.

Lemma stable_sort_perm {A : Type} (before : A -> A -> bool) (l : list A) :
  Permutation (stable_sort before l) l.
Proof.
  induction l as [|x l IH]; cbn [stable_sort]; [reflexivity|].
  rewrite insert_sorted_perm, IH. reflexivity.
Qed.

Lemma stable_sort_In {A : Type} (before : A -> A -> bool) (l : list A) (x : A) :
  In x (stable_sort before l) <-> In x l.
Proof.
  split; apply Permutation_in;
    [apply stable_sort_perm|apply Permutation_sym, stable_sort_perm].
Qed.

Section SortedByKey.

Variable A : Type.
Variable key : A -> Z.
Variable before : A -> A -> bool.
Hypothesis before_key : forall x y, before x y = (key x <=? key y).

Lemma insert_sorted_sorted (x : A) (l : list A) :
  StronglySorted (fun a b => key a <= key b) l ->
  StronglySorted (fun a b => key a <= key b) (insert_sorted before x l).
Proof.
  induction l as [|y l IH]; cbn [insert_sorted]; intros Hs.
  - constructor; constructor.
  - inversion Hs as [|? ? Hl Hy]; subst.
    rewrite before_key. destruct (Z.leb_spec (key x) (key y)) as [Hle|Hgt].
    + constructor; [exact Hs|]. constructor; [exact Hle|].
      apply Forall_forall. intros z Hz.
      pose proof (proj1 (Forall_forall _ _) Hy z Hz) as Hyz. cbv beta in Hyz. lia.
    + constructor; [apply IH; exact Hl|].
      apply Forall_forall. intros z Hz.
      apply (Permutation_in _ (insert_sorted_perm before x l)) in Hz.
      destruct Hz as [<-|Hz]; [lia|].
      exact (proj1 (Forall_forall _ _) Hy z Hz).
Qed.

Lemma stable_sort_sorted (l : list A) :
  StronglySorted (fun a b => key a <= key b) (stable_sort before l).
Proof.
  induction l as [|x l IH]; cbn [stable_sort]; [constructor|].
  apply insert_sorted_sorted. exact IH.
Qed.

End SortedByKey.

(* ================================================================== *)
(** * Messages *)

Lemma get_put_other (k k' : string) (v : value) (o : object) :
  k' <> k -> get k' (put k v o) = get k' o.
Proof.
  intros Hne. induction o as [|[k0 v0] o IH]; cbn [put get].
  - apply String.eqb_neq in Hne. rewrite Hne. reflexivity.
  - destruct (String.eqb_spec k k0) as [<-|Hk]; cbn [get].
    + apply String.eqb_neq in Hne. rewrite Hne. reflexivity.
    + rewrite IH. reflexivity.
Qed.

Lemma get_put_same (k : string) (v : value) (o : object) :
  get k (put k v o) = Some v.
Proof.
  induction o as [|[k0 v0] o IH]; cbn [put get].
  - rewrite String.eqb_refl. reflexivity.
  - destruct (String.eqb_spec k k0) as [<-|Hk]; cbn [get].
    + rewrite String.eqb_refl. reflexivity.
    + apply String.eqb_neq in Hk. rewrite Hk. exact IH.
Qed.

Lemma expect_integer_nil (path : string) (o : object) :
  expect_integer path o = [] <->
  exists n, get path o = Some (VNum n) /\ in_int4 n = true.
Proof.
  unfold expect_integer, in_int4. split.
  - destruct (get path o) as [[| |n| | | |]|]; try discriminate.
    destruct (Z.ltb_spec n int4_min); [discriminate|].
    destruct (Z.ltb_spec int4_max n); [discriminate|].
    intros _. exists n. split; [reflexivity|].
    apply andb_true_iff. split; apply Z.leb_le; lia.
  - intros (n & -> & Hn). apply andb_true_iff in Hn. destruct Hn as [Hlo Hhi].
    apply Z.leb_le in Hlo. apply Z.leb_le in Hhi.
    destruct (Z.ltb_spec n int4_min); [lia|].
    destruct (Z.ltb_spec int4_max n); [lia|reflexivity].
Qed.

Lemma expect_integer_out_of_range (path : string) (o : object) (n : Z) :
  get path o = Some (VNum n) -> in_int4 n = false ->
  expect_integer path o
  = [if n <? int4_min
     then too_small path "Number must be greater than or equal to -2147483648"
     else too_big path "Number must be less than or equal to 2147483647"].
Proof.
  unfold expect_integer, in_int4. intros -> Hn.
  destruct (Z.ltb_spec n int4_min); [reflexivity|].
  destruct (Z.ltb_spec int4_max n); [reflexivity|].
  apply andb_false_iff in Hn. destruct Hn as [Hn|Hn]; apply Z.leb_gt in Hn; lia.
Qed.

Lemma app_nil_inv {A : Type} (l l' : list A) : l ++ l' = [] -> l = [] /\ l' = [].
Proof. destruct l; [auto|discriminate]. Qed.

Lemma insertMessageSchema_parse_Ok (o : object) (d : InsertMessage) :
  insertMessageSchema_parse o = Ok d ->
  get "senderId" o = Some (VNum (im_senderId d))
  /\ get "receiverId" o = Some (VNum (im_receiverId d))
  /\ get "message" o = Some (VStr (im_message d))
  /\ in_int4 (im_senderId d) = true
  /\ in_int4 (im_receiverId d) = true.
Proof.
  unfold insertMessageSchema_parse.
  destruct (expect_integer "senderId" o ++ expect_integer "receiverId" o
            ++ expect_string "message" o) eqn:Hissues; [|discriminate].
  apply app_nil_inv in Hissues. destruct Hissues as [Hs Hissues].
  apply app_nil_inv in Hissues. destruct Hissues as [Hr Ht].
  apply expect_integer_nil in Hs. destruct Hs as (s & Hs & Hs4).
  apply expect_integer_nil in Hr. destruct Hr as (r & Hr & Hr4).
  unfold expect_string in Ht.
  destruct (get "message" o) as [[| | |t| | |]|]; try discriminate.
  rewrite Hs, Hr. intros H. injection H as <-. cbn. auto.
Qed.

Lemma ids_int4_In (db : DB) (u : User) :
  ids_int4 db -> In u (users db) -> in_int4 (id u) = true.
Proof. intros H Hin. exact (proj1 (Forall_forall _ _) H u Hin). Qed.

Lemma createMessage_cases (db : MessagesDB) (d : InsertMessage) (t : Z) :
  let msg := mkMessage (messages_id_seq db) (im_senderId d) (im_receiverId d)
               (im_message d) false t in
  (exists e, createMessage db d t
             = (mkMessagesDB (accounts db) (messages db) (messages_id_seq db + 1),
                Throw e))
  \/ (user_exists (accounts db) (im_receiverId d) = true
      /\ createMessage db d t
         = (mkMessagesDB (accounts db) (messages db ++ [msg]) (messages_id_seq db + 1),
            Ok msg)).
Proof.
  cbv zeta. unfold createMessage. cbn [m_senderId m_receiverId].
  destruct (distinct Z.eqb _); cbn [andb]; [|left; eauto].
  destruct (user_exists _ (im_senderId d)); cbn [andb]; [|left; eauto].
  destruct (user_exists _ (im_receiverId d)) eqn:Hr; [right; auto|left; eauto].
Qed.

Section MessageProps.

Variable fromZodError : list ZodIssue -> string.

(** X19. The conversation view answers with exactly the messages the two
    users exchanged, those from the one to the other and those back, and
    no message of anyone else, oldest first. *)
Theorem conversation_exact_and_sorted (req : Req) (db : MessagesDB) (user : User)
  (Hauth : req_user req (accounts db) = Some user) :
  let mine m := Z.eqb (m_senderId m) (id user) && Z.eqb (m_receiverId m) (params_id req) in
  let theirs m := Z.eqb (m_senderId m) (params_id req) && Z.eqb (m_receiverId m) (id user) in
  let allMessages := conversation db (id user) (params_id req) in
  get_api_messages req db
  = mkMessagesServed db
      (Answered 200 (json (VArr (map (fun m => VObj (message_object m)) allMessages))))
  /\ Permutation allMessages (filter mine (messages db) ++ filter theirs (messages db))
  /\ StronglySorted (fun a b => m_createdAt a <= m_createdAt b) allMessages
  /\ forall m, In m allMessages
               <-> In m (messages db) /\ between (id user) (params_id req) m = true.
Proof.
  cbv zeta.
  assert (Hperm : Permutation (conversation db (id user) (params_id req))
                    (filter (fun m => Z.eqb (m_senderId m) (id user)
                                      && Z.eqb (m_receiverId m) (params_id req))
                            (messages db)
                     ++ filter (fun m => Z.eqb (m_senderId m) (params_id req)
                                         && Z.eqb (m_receiverId m) (id user))
                               (messages db))).
  { unfold conversation, getMessages. cbn [matches].
    rewrite stable_sort_perm. apply Permutation_app; apply stable_sort_perm. }
  split.
  { unfold get_api_messages, requireAuth, isAuthenticated. rewrite Hauth. reflexivity. }
  split; [exact Hperm|].
  split.
  { unfold conversation.
    apply stable_sort_sorted. intros x y. unfold Z.leb.
    rewrite <- Z.compare_sub. reflexivity. }
  intros m. split.
  - intros Hin. apply (Permutation_in _ Hperm) in Hin.
    apply in_app_or in Hin. unfold between.
    destruct Hin as [Hin|Hin]; apply filter_In in Hin; destruct Hin as [Hin Hc];
      rewrite Hc; split; auto using orb_true_r.
  - intros [Hin Hb]. apply (Permutation_in _ (Permutation_sym Hperm)).
    apply in_or_app. unfold between in Hb. apply orb_true_iff in Hb.
    destruct Hb as [Hb|Hb]; [left|right]; apply filter_In; auto.
Qed.

(** X20. Whatever the body of [POST /api/messages] says, the route stores
    at most one message, and a stored message is from the identity of the
    session, unread, addressed to an existing user, and carries the
    recipient and text of the body: a [senderId], [isRead] or [id] in the
    body has no effect.  The users are never touched. *)
Theorem sent_message_integrity (req : Req) (db : MessagesDB) :
  let served := post_api_messages fromZodError req db in
  accounts (messages_after served) = accounts db
  /\ (messages (messages_after served) = messages db
      \/ exists user m,
           req_user req (accounts db) = Some user
           /\ messages (messages_after served) = messages db ++ [m]
           /\ reply served = Answered 201 (json (VObj (message_object m)))
           /\ m_senderId m = id user
           /\ m_isRead m = false
           /\ m_id m = messages_id_seq db
           /\ m_createdAt m = now req
           /\ get "receiverId" (body req) = Some (VNum (m_receiverId m))
           /\ get "message" (body req) = Some (VStr (m_message m))
           /\ user_exists (accounts db) (m_receiverId m) = true).
Proof.
  cbv zeta. unfold post_api_messages.
  destruct (requireAuth req (accounts db)); [|split; [reflexivity|left; reflexivity]].
  destruct (req_user req (accounts db)) as [user|] eqn:Hu;
    [|split; [reflexivity|left; reflexivity]].
  destruct (insertMessageSchema_parse _) as [d|] eqn:Hd;
    [|split; [reflexivity|left; reflexivity]].
  destruct (getUser (accounts db) (im_receiverId d));
    [|split; [reflexivity|left; reflexivity]].
  apply insertMessageSchema_parse_Ok in Hd. destruct Hd as (Hs & Hr & Ht & _ & _).
  rewrite get_put_same in Hs. injection Hs as Hs.
  rewrite get_put_other in Hr, Ht by discriminate.
  destruct (createMessage_cases db d (now req)) as [(e & ->)|(Hex & ->)];
    cbn [messages_after accounts messages reply];
    [split; [reflexivity|left; reflexivity]|].
  split; [reflexivity|]. right. eexists user, _.
  split; [reflexivity|]. split; [reflexivity|]. split; [reflexivity|].
  cbn. repeat split; auto.
Qed.

(** X21. An authenticated user who addresses a text to an existing user
    gets 201 on a well-formed messages table whose user ids are 4-byte
    integers.  The message is appended with the next id, can be looked up
    under that id, and appears in the recipient's view of the conversation
    with the sender. *)
Theorem send_message_then_read_back
  (req : Req) (db : MessagesDB) (user recipient : User) (r : Z) (t : string)
  (Hok : messages_ok db)
  (Hint4 : ids_int4 (accounts db))
  (Hauth : req_user req (accounts db) = Some user)
  (Hreceiver : get "receiverId" (body req) = Some (VNum r))
  (Htext : get "message" (body req) = Some (VStr t))
  (Hexists : getUser (accounts db) r = Some recipient) :
  let served := post_api_messages fromZodError req db in
  let m := mkMessage (messages_id_seq db) (id user) r t false (now req) in
  served
  = mkMessagesServed
      (mkMessagesDB (accounts db) (messages db ++ [m]) (messages_id_seq db + 1))
      (Answered 201 (json (VObj (message_object m))))
  /\ getMessage (messages_after served) (m_id m) = Some m
  /\ In m (conversation (messages_after served) r (id user))
  /\ messages_ok (messages_after served).
Proof.
  cbv zeta. destruct Hok as [Hdistinct Hbelow].
  set (m := mkMessage (messages_id_seq db) (id user) r t false (now req)).
  assert (Hfresh : forall x, In x (messages db) -> Z.eqb (m_id x) (messages_id_seq db) = false).
  { intros x Hx. apply Z.eqb_neq.
    pose proof (proj1 (Forall_forall _ _) Hbelow x Hx) as Hlt. cbv beta in Hlt. lia. }
  assert (Hdistinct' : distinct Z.eqb (map m_id (messages db ++ [m])) = true).
  { rewrite map_app. cbn [map]. apply distinct_app_single; [exact Hdistinct|].
    intros y Hy. apply in_map_iff in Hy. destruct Hy as (x & <- & Hx).
    apply Hfresh. exact Hx. }
  assert (Hsender : user_exists (accounts db) (id user) = true).
  { destruct (req_user_In _ _ Hauth) as [Hin _]. unfold user_exists.
    apply existsb_exists. exists user. split; [exact Hin|apply Z.eqb_refl]. }
  assert (Hrecipient : user_exists (accounts db) r = true).
  { apply getUser_In in Hexists. destruct Hexists as [Hin Hid]. unfold user_exists.
    apply existsb_exists. exists recipient. split; [exact Hin|apply Z.eqb_eq; exact Hid]. }
  assert (Hserved : post_api_messages fromZodError req db
                    = mkMessagesServed
                        (mkMessagesDB (accounts db) (messages db ++ [m])
                           (messages_id_seq db + 1))
                        (Answered 201 (json (VObj (message_object m))))).
  { unfold post_api_messages, requireAuth, isAuthenticated. rewrite Hauth.
    cbn [is_set negb].
    unfold insertMessageSchema_parse, expect_string.
    rewrite (proj2 (expect_integer_nil "senderId" _))
      by (exists (id user); split;
          [apply get_put_same
          |exact (@ids_int4_In _ _ Hint4 (proj1 (req_user_In _ _ Hauth)))]).
    rewrite (proj2 (expect_integer_nil "receiverId" _))
      by (exists r; split;
          [rewrite get_put_other by discriminate; exact Hreceiver
          |rewrite <- (proj2 (getUser_In _ _ Hexists));
           exact (@ids_int4_In _ _ Hint4 (proj1 (getUser_In _ _ Hexists)))]).
    rewrite get_put_same. rewrite !get_put_other by discriminate.
    rewrite Hreceiver, Htext. cbn [app number_of string_of im_receiverId].
    rewrite Hexists. unfold createMessage.
    cbn [im_senderId im_receiverId im_message m_senderId m_receiverId].
    fold m. rewrite Hdistinct', Hsender, Hrecipient. reflexivity. }
  rewrite Hserved. cbn [messages_after].
  split; [reflexivity|].
  split.
  { unfold getMessage. cbn [messages]. change (m_id m) with (messages_id_seq db).
    rewrite filter_app, (filter_nil _ _ Hfresh). cbn [filter app].
    change (m_id m) with (messages_id_seq db). rewrite Z.eqb_refl. reflexivity. }
  split.
  { unfold conversation, getMessages. cbn [matches messages].
    apply stable_sort_In. apply in_or_app. right.
    apply stable_sort_In. apply filter_In.
    split; [apply in_or_app; right; left; reflexivity|].
    cbn. rewrite !Z.eqb_refl. reflexivity. }
  split; [exact Hdistinct'|]. cbn [messages messages_id_seq].
  apply Forall_app. split.
  - apply Forall_forall. intros x Hx.
    pose proof (proj1 (Forall_forall _ _) Hbelow x Hx) as Hlt. cbv beta in Hlt. lia.
  - constructor; [cbn; lia|constructor].
Qed.

(** X22. A message addressed to a user id that does not exist is never
    stored.  When the id is a 4-byte integer the answer is 404 "Recipient
    not found"; an id beyond that range is refused earlier, by the insert
    schema, with 400. *)
Theorem send_message_unknown_recipient
  (req : Req) (db : MessagesDB) (user : User) (r : Z) (t : string)
  (Hint4 : ids_int4 (accounts db))
  (Hauth : req_user req (accounts db) = Some user)
  (Hreceiver : get "receiverId" (body req) = Some (VNum r))
  (Htext : get "message" (body req) = Some (VStr t))
  (Hmissing : getUser (accounts db) r = None) :
  post_api_messages fromZodError req db
  = mkMessagesServed db
      (if in_int4 r
       then Answered 404 (message "Recipient not found")
       else Answered 400
              (message
                 (fromZodError
                    [if r <? int4_min
                     then too_small "receiverId"
                            "Number must be greater than or equal to -2147483648"
                     else too_big "receiverId"
                            "Number must be less than or equal to 2147483647"]))).
Proof.
  unfold post_api_messages, requireAuth, isAuthenticated. rewrite Hauth.
  cbn [is_set negb].
  unfold insertMessageSchema_parse, expect_string.
  rewrite (proj2 (expect_integer_nil "senderId" _))
    by (exists (id user); split;
        [apply get_put_same
        |exact (@ids_int4_In _ _ Hint4 (proj1 (req_user_In _ _ Hauth)))]).
  assert (Hreceiver' : get "receiverId" (put "senderId" (VNum (id user)) (body req))
                       = Some (VNum r))
    by (rewrite get_put_other by discriminate; exact Hreceiver).
  destruct (in_int4 r) eqn:Hr.
  - rewrite (proj2 (expect_integer_nil "receiverId" _)) by (exists r; auto).
    rewrite get_put_same. rewrite !get_put_other by discriminate.
    rewrite Hreceiver, Htext. cbn [app number_of string_of im_receiverId].
    rewrite Hmissing. reflexivity.
  - rewrite (expect_integer_out_of_range _ _ Hreceiver' Hr).
    rewrite !get_put_other by discriminate. rewrite Htext. reflexivity.
Qed.

End MessageProps.

Lemma getMessage_In (db : MessagesDB) (i : Z) (m : Message) :
  getMessage db i = Some m -> In m (messages db) /\ m_id m = i.
Proof.
  intros H. apply hd_error_filter_In in H. destruct H as [Hin Hid].
  apply Z.eqb_eq in Hid. auto.
Qed.

Lemma lookup_marked (i j : Z) (l : list Message) :
  hd_error (filter (fun m => Z.eqb (m_id m) j)
              (map (fun m => if Z.eqb (m_id m) i then read m else m) l))
  = option_map (fun m => if Z.eqb (m_id m) i then read m else m)
      (hd_error (filter (fun m => Z.eqb (m_id m) j) l)).
Proof.
  induction l as [|m l IH]; [reflexivity|].
  cbn [map filter].
  assert (Hid : m_id (if Z.eqb (m_id m) i then read m else m) = m_id m)
    by (destruct (Z.eqb (m_id m) i); reflexivity).
  rewrite Hid. destruct (Z.eqb (m_id m) j); [reflexivity|exact IH].
Qed.

(** X23. Only the receiver can mark a message as read: for any other
    authenticated user the answer is 403 and the table is unchanged.  And
    whoever asks, the route changes nothing but read flags: with the flags
    blanked, the table after is the table before. *)
Theorem mark_read_only_by_receiver
  (req : Req) (db : MessagesDB) (user : User) (msg : Message)
  (Hauth : req_user req (accounts db) = Some user)
  (Hfound : getMessage db (params_id req) = Some msg)
  (Hother : m_receiverId msg <> id user) :
  patch_api_messages_read req db
  = mkMessagesServed db
      (Answered 403 (message "You can only mark messages sent to you as read"))
  /\ forall req' db',
       map unread (messages (messages_after (patch_api_messages_read req' db')))
       = map unread (messages db')
       /\ accounts (messages_after (patch_api_messages_read req' db')) = accounts db'.
Proof.
  split.
  - unfold patch_api_messages_read, requireAuth, isAuthenticated.
    rewrite Hauth. cbn [is_set negb]. rewrite Hfound.
    apply Z.eqb_neq in Hother. rewrite Hother. reflexivity.
  - intros req' db'. unfold patch_api_messages_read.
    destruct (requireAuth req' (accounts db')); [|split; reflexivity].
    destruct (getMessage db' (params_id req')) as [found|]; [|split; reflexivity].
    destruct (req_user req' (accounts db')) as [me|]; [|split; reflexivity].
    destruct (negb _); [split; reflexivity|].
    unfold markMessageAsRead. cbn [messages_after messages accounts].
    split; [|reflexivity].
    rewrite map_map. apply map_ext. intros x.
    destruct (Z.eqb (m_id x) (params_id req')); reflexivity.
Qed.

(** X24. When the receiver marks a message as read, the answer is 200
    with the message now read, a lookup under that id gives the message
    with its read flag set and nothing else changed, and a lookup under
    any other id gives what it gave before; doing it again changes
    nothing. *)
Theorem mark_read_sets_flag
  (req : Req) (db : MessagesDB) (user : User) (msg : Message)
  (Hauth : req_user req (accounts db) = Some user)
  (Hfound : getMessage db (params_id req) = Some msg)
  (Hmine : m_receiverId msg = id user) :
  let served := patch_api_messages_read req db in
  reply served = Answered 200 (json (VObj (message_object (read msg))))
  /\ getMessage (messages_after served) (params_id req) = Some (read msg)
  /\ (forall j, j <> params_id req ->
                getMessage (messages_after served) j = getMessage db j)
  /\ messages_after (patch_api_messages_read req (messages_after served))
     = messages_after served.
Proof.
  cbv zeta.
  assert (Hserved : patch_api_messages_read req db
                    = mkMessagesServed
                        (mkMessagesDB (accounts db)
                           (map (fun m => if Z.eqb (m_id m) (params_id req)
                                          then read m else m) (messages db))
                           (messages_id_seq db))
                        (Answered 200 (json (VObj (message_object (read msg)))))).
  { unfold patch_api_messages_read, requireAuth, isAuthenticated.
    rewrite Hauth. cbn [is_set negb]. rewrite Hfound, Hmine, Z.eqb_refl.
    cbn [negb]. unfold markMessageAsRead.
    unfold getMessage in Hfound.
    destruct (filter _ (messages db)) as [|m0 rest]; [discriminate|].
    injection Hfound as ->. reflexivity. }
  assert (Hlookup : forall j,
             getMessage
               (mkMessagesDB (accounts db)
                  (map (fun m => if Z.eqb (m_id m) (params_id req) then read m else m)
                       (messages db)) (messages_id_seq db)) j
             = option_map (fun m => if Z.eqb (m_id m) (params_id req) then read m else m)
                 (getMessage db j)).
  { intros j. unfold getMessage. cbn [messages]. apply lookup_marked. }
  rewrite Hserved. cbn [reply messages_after].
  split; [reflexivity|].
  split.
  { rewrite Hlookup, Hfound. cbn [option_map].
    apply getMessage_In in Hfound. destruct Hfound as [_ ->].
    rewrite Z.eqb_refl. reflexivity. }
  split.
  { intros j Hj. rewrite Hlookup.
    destruct (getMessage db j) as [m|] eqn:Hm; [|reflexivity].
    apply getMessage_In in Hm. destruct Hm as [_ Hid]. cbn [option_map].
    assert (Hne : Z.eqb (m_id m) (params_id req) = false)
      by (apply Z.eqb_neq; congruence).
    rewrite Hne. reflexivity. }
  unfold patch_api_messages_read at 1. cbn [accounts].
  unfold requireAuth, isAuthenticated. rewrite Hauth. cbn [is_set negb].
  rewrite Hlookup, Hfound. cbn [option_map].
  pose proof Hfound as Hid. apply getMessage_In in Hid. destruct Hid as [_ Hid].
  rewrite Hid, Z.eqb_refl. cbn [read m_receiverId].
  rewrite Hmine, Z.eqb_refl. cbn [negb].
  unfold markMessageAsRead. cbn [messages_after accounts messages messages_id_seq].
  f_equal. rewrite map_map. apply map_ext. intros m.
  destruct (Z.eqb (m_id m) (params_id req)) eqn:E; cbn [read m_id]; rewrite ?E;
    reflexivity.
Qed.

(* ================================================================== *)
(** * Advertisements *)

Lemma StronglySorted_weaken {A : Type} (R R' : A -> A -> Prop) (l : list A) :
  (forall a b, R a b -> R' a b) -> StronglySorted R l -> StronglySorted R' l.
Proof.
  intros HR Hs. induction Hs as [|a l _ IH Hall]; constructor; [exact IH|].
  apply Forall_forall. intros b Hb. apply HR.
  exact (proj1 (Forall_forall _ _) Hall b Hb).
Qed.

(** X25. The public advertisement list holds exactly the ads of the table
    that are active, whose start date is absent or not after now and whose
    end date is absent or not before now, whose placement equals the
    requested one if a non-empty placement is requested, and whose country
    is absent or equals the requested one if a non-empty country is
    requested.  It is ordered by falling priority, and lists each such ad
    as often as the table holds it. *)
Theorem public_advertisements_exact
  (ads : list Advertisement) (query_placement query_country : option string)
  (currentDate : Z) :
  let shown ad :=
    ad_isActive ad
    && match ad_startDate ad with Some s => s <=? currentDate | None => true end
    && match ad_endDate ad with Some e => currentDate <=? e | None => true end
    && match query_placement with
       | Some "" | None => true
       | Some p => String.eqb (ad_placement ad) p
       end
    && match query_country, ad_country ad with
       | Some "", _ | None, _ | _, None => true
       | Some c, Some c' => String.eqb c' c
       end in
  let listed := get_api_advertisements ads query_placement query_country currentDate in
  (forall ad, In ad listed <-> In ad ads /\ shown ad = true)
  /\ Permutation listed (filter shown ads)
  /\ StronglySorted (fun a b => ad_priority b <= ad_priority a) listed.
Proof.
  cbv zeta. unfold get_api_advertisements, getAdvertisements.
  set (cond := fun ad => placement_matches _ ad && country_matches _ ad
                         && isActive_matches _ ad && window_matches _ currentDate ad).
  set (shown := fun ad : Advertisement => _ && _ && _ && _ && _).
  assert (Hsame : forall ad, cond ad = shown ad).
  { intros ad. unfold cond, shown, placement_matches, country_matches,
      isActive_matches, window_matches, public_ad_params.
    cbn [ap_placement ap_country ap_isActive].
    destruct query_placement as [[|c p]|], query_country as [[|c' q]|];
      cbn [truthy];
      destruct (ad_isActive ad), (ad_startDate ad) as [s|], (ad_endDate ad) as [e|],
        (ad_country ad) as [k|]; cbn [Bool.eqb andb];
      repeat match goal with
             | |- context [?a <=? ?b] => destruct (a <=? b)
             | |- context [String.eqb ?a ?b] => destruct (String.eqb a b)
             end; reflexivity. }
  assert (Hfilter : filter cond ads = filter shown ads)
    by (apply filter_ext; exact Hsame).
  rewrite Hfilter.
  split; [|split].
  - intros ad. rewrite stable_sort_In. apply filter_In.
  - apply stable_sort_perm.
  - pose proof (stable_sort_sorted (fun ad => - ad_priority ad)
                  (descending ad_priority)) as Hs.
    eapply StronglySorted_weaken; [|apply Hs].
    + intros a b Hab. cbv beta in Hab. lia.
    + intros x y. unfold descending.
      destruct (Z.leb_spec (ad_priority y) (ad_priority x));
        destruct (Z.leb_spec (- ad_priority x) (- ad_priority y)); try reflexivity; lia.
Qed.

(* ================================================================== *)
(** * Bet codes, transactions and reviews *)

Section MarketplaceProps.

Variable real : Type.
Variable real_add : real -> real -> real.
Variable real_of_Z : Z -> real.
Variable real_column : real -> option real.
Variable fromZodError : list ZodIssue -> string.

Lemma getBetCode_In (db : Market real) (i : Z) (b : BetCode real) :
  getBetCode db i = Some b -> In b (betCodes db) /\ bc_id b = i.
Proof.
  intros H. apply hd_error_filter_In in H. destruct H as [Hin Hid].
  apply Z.eqb_eq in Hid. auto.
Qed.

Lemma insertTransactionSchema_parse_Ok (o : object) (b : Z) (f : option (option string)) :
  insertTransactionSchema_parse o = Ok (b, f) ->
  get "betCodeId" o = Some (VNum b) /\ in_int4 b = true.
Proof.
  unfold insertTransactionSchema_parse.
  destruct (expect_integer "buyerId" o ++ expect_integer "sellerId" o
            ++ expect_integer "betCodeId" o ++ _) eqn:Hissues; [|discriminate].
  apply app_nil_inv in Hissues. destruct Hissues as [_ Hissues].
  apply app_nil_inv in Hissues. destruct Hissues as [_ Hissues].
  apply app_nil_inv in Hissues. destruct Hissues as [Hb _].
  apply expect_integer_nil in Hb. destruct Hb as (n & Hb & Hn).
  rewrite Hb. intros H. injection H as <- _. auto.
Qed.

Lemma createTransaction_cases (db : Market real) (d : InsertTransaction real) (t : Z) :
  (exists e db1, createTransaction real_column db d t = (db1, Throw e)
                 /\ market_users db1 = market_users db
                 /\ betCodes db1 = betCodes db
                 /\ transactions db1 = transactions db
                 /\ reviews db1 = reviews db)
  \/ exists amount,
       real_column (it_amount d) = Some amount
       /\ let row := mkTransaction (transactions_id_seq db) (it_buyerId d)
                       (it_sellerId d) (it_betCodeId d) amount
                       (or_else (it_flutterwaveRef d) None)
                       (it_status d) None t None in
          createTransaction real_column db d t
          = (mkMarket (market_users db) (betCodes db) (transactions db ++ [row])
               (transactions_id_seq db + 1) (reviews db) (reviews_id_seq db),
             Ok row).
Proof.
  unfold createTransaction.
  destruct (real_column (it_amount d)) as [amount|];
    [|left; eexists _, _; repeat split; reflexivity].
  cbv zeta.
  destruct (_ && _ && _ && _);
    [right; exists amount; split; reflexivity
    |left; eexists _, _; repeat split; reflexivity].
Qed.

Lemma createReview_cases (db : Market real) (d : InsertReview) (t : Z) :
  let row := mkReview (reviews_id_seq db) (ir_sellerId d) (ir_reviewerId d)
               (or_else (ir_betCodeId d) None) (ir_rating d)
               (or_else (ir_comment d) None) t in
  (exists e, createReview db d t
             = (mkMarket (market_users db) (betCodes db) (transactions db)
                  (transactions_id_seq db) (reviews db) (reviews_id_seq db + 1),
                Throw e))
  \/ createReview db d t
     = (mkMarket (market_users db) (betCodes db) (transactions db)
          (transactions_id_seq db) (reviews db ++ [row]) (reviews_id_seq db + 1),
        Ok row).
Proof.
  cbv zeta. unfold createReview.
  destruct (_ && _ && _ && _); [right; reflexivity|left; eauto].
Qed.

(** X26. Whatever the body of [POST /api/transactions] says, the route
    stores at most one transaction, and a stored transaction has the
    identity of the session as buyer, the seller of the bet code the body
    names as seller (never the buyer), and the status "completed"; its
    amount is what the [real] column keeps of the price of that bet code
    plus 200, the sum rounded to a 4-byte float.  The [buyerId],
    [sellerId], [amount] and [status] the schema makes the body carry have
    no effect.  Users, bet codes and reviews are not touched. *)
Theorem purchase_integrity (req : Req) (db : Market real) :
  let served :=
    post_api_transactions real_add real_of_Z real_column fromZodError req db in
  market_users (market_after served) = market_users db
  /\ betCodes (market_after served) = betCodes db
  /\ reviews (market_after served) = reviews db
  /\ (transactions (market_after served) = transactions db
      \/ exists user betCode t,
           req_user req (market_users db) = Some user
           /\ get "betCodeId" (body req) = Some (VNum (tx_betCodeId t))
           /\ getBetCode db (tx_betCodeId t) = Some betCode
           /\ transactions (market_after served) = transactions db ++ [t]
           /\ market_reply served = replied_transaction 201 t
           /\ tx_id t = transactions_id_seq db
           /\ tx_buyerId t = id user
           /\ tx_sellerId t = bc_sellerId betCode
           /\ tx_sellerId t <> tx_buyerId t
           /\ real_column (real_add (bc_price betCode) (real_of_Z 200))
              = Some (tx_amount t)
           /\ tx_status t = "completed").
Proof.
  cbv zeta. unfold post_api_transactions.
  destruct (requireAuth req (market_users db));
    [|repeat split; try reflexivity; left; reflexivity].
  destruct (insertTransactionSchema_parse (body req)) as [[b f]|] eqn:Hparse;
    [|repeat split; try reflexivity; left; reflexivity].
  destruct (getBetCode db b) as [betCode|] eqn:Hcode;
    [|repeat split; try reflexivity; left; reflexivity].
  destruct (req_user req (market_users db)) as [user|] eqn:Huser;
    [|repeat split; try reflexivity; left; reflexivity].
  destruct (Z.eqb (bc_sellerId betCode) (id user)) eqn:Hown;
    [repeat split; try reflexivity; left; reflexivity|].
  match goal with
  | |- context [createTransaction real_column db ?d ?t] =>
      destruct (createTransaction_cases db d t)
        as [(e & db1 & -> & Hu & Hb & Ht & Hr)|(amount & Hamount & Hrun)]
  end.
  { cbn [market_after]. repeat split; try assumption. left. exact Ht. }
  cbv zeta in Hrun. rewrite Hrun.
  cbn [market_after market_users betCodes reviews transactions market_reply].
  split; [reflexivity|]. split; [reflexivity|]. split; [reflexivity|].
  right.
  exists user, betCode,
    (mkTransaction (transactions_id_seq db) (id user) (bc_sellerId betCode) b
       amount (or_else f None) "completed" None (now req) None).
  split; [reflexivity|]. cbn.
  split; [exact (proj1 (insertTransactionSchema_parse_Ok _ Hparse))|].
  split; [exact Hcode|].
  repeat split; try reflexivity; [|exact Hamount].
  apply Z.eqb_neq. exact Hown.
Qed.

(** X27. A purchase whose body passes the insert schema (so that its
    [betCodeId] is a 4-byte integer) and names a bet code that does not
    exist is answered 404 "Bet code not found", and a purchase of one's
    own bet code is answered 400 "You cannot buy your own bet code";
    neither stores anything. *)
Theorem purchase_rejected
  (req : Req) (db : Market real) (user : User) (b : Z) (f : option (option string))
  (Hauth : req_user req (market_users db) = Some user)
  (Hvalid : insertTransactionSchema_parse (body req) = Ok (b, f))
  (Hbad : match getBetCode db b with
          | Some betCode => bc_sellerId betCode = id user
          | None => True
          end) :
  post_api_transactions real_add real_of_Z real_column fromZodError req db
  = mkMarketServed db
      (@replied real (match getBetCode db b with
                | Some _ => Answered 400 (message "You cannot buy your own bet code")
                | None => Answered 404 (message "Bet code not found")
                end)).
Proof.
  unfold post_api_transactions, requireAuth, isAuthenticated.
  rewrite Hauth. cbn [is_set negb]. rewrite Hvalid.
  destruct (getBetCode db b) as [betCode|]; [|reflexivity].
  rewrite Hbad, Z.eqb_refl. reflexivity.
Qed.

Lemma getTransactions_In (db : Market real) (params : TransactionParams)
  (t : Transaction real) :
  In t (getTransactions db params) ->
  In t (transactions db)
  /\ matches (tp_buyerId params) (tx_buyerId t) = true
  /\ matches (tp_betCodeId params) (tx_betCodeId t) = true
  /\ match tp_status params with
     | Some s => tx_status t = s
     | None => True
     end.
Proof.
  unfold getTransactions. intros H. apply stable_sort_In in H.
  apply filter_In in H. destruct H as [Hin Hc].
  apply andb_true_iff in Hc. destruct Hc as [Hc Hs].
  apply andb_true_iff in Hc. destruct Hc as [Hc Hb].
  apply andb_true_iff in Hc. destruct Hc as [Hbuyer _].
  repeat split; auto.
  destruct (tp_status params); [apply String.eqb_eq; exact Hs|exact I].
Qed.

(** X28. Whatever the body of [POST /api/reviews] says, the route stores
    at most one review; a stored review has the identity of the session as
    reviewer and an existing user as seller, and if it names a bet code
    (other than id 0) the reviewer has a completed transaction as buyer of
    that bet code.  Users, bet codes and transactions are not touched. *)
Theorem review_requires_purchase (req : Req) (db : Market real) :
  let served := post_api_reviews fromZodError req db in
  market_users (market_after served) = market_users db
  /\ betCodes (market_after served) = betCodes db
  /\ transactions (market_after served) = transactions db
  /\ (reviews (market_after served) = reviews db
      \/ exists user r,
           req_user req (market_users db) = Some user
           /\ reviews (market_after served) = reviews db ++ [r]
           /\ market_reply served = @replied_review real 201 r
           /\ rv_reviewerId r = id user
           /\ getUser (market_users db) (rv_sellerId r) <> None
           /\ forall b, rv_betCodeId r = Some b -> b <> 0 ->
                exists t, In t (transactions db)
                          /\ tx_buyerId t = id user
                          /\ tx_betCodeId t = b
                          /\ tx_status t = "completed").
Proof.
  cbv zeta. unfold post_api_reviews.
  destruct (requireAuth req (market_users db));
    [|repeat split; try reflexivity; left; reflexivity].
  destruct (req_user req (market_users db)) as [user|] eqn:Huser;
    [|repeat split; try reflexivity; left; reflexivity].
  destruct (insertReviewSchema_parse _) as [d|] eqn:Hparse;
    [|repeat split; try reflexivity; left; reflexivity].
  destruct (getUser (market_users db) (ir_sellerId d)) as [seller|] eqn:Hseller;
    [|repeat split; try reflexivity; left; reflexivity].
  assert (Hreviewer : ir_reviewerId d = id user).
  { revert Hparse. unfold insertReviewSchema_parse.
    rewrite get_put_same.
    destruct (_ ++ _); [|discriminate].
    intros H. injection H as <-. reflexivity. }
  assert (Hstore : forall purchased : Prop,
             purchased ->
             let served :=
               match createReview db d (now req) with
               | (db1, Throw error) =>
                   mkMarketServed db1 (@replied real (handleValidationError fromZodError error))
               | (db1, Ok newReview) => mkMarketServed db1 (@replied_review real 201 newReview)
               end in
             market_users (market_after served) = market_users db
             /\ betCodes (market_after served) = betCodes db
             /\ transactions (market_after served) = transactions db
             /\ (reviews (market_after served) = reviews db
                 \/ exists user0 r,
                      Some user = Some user0
                      /\ reviews (market_after served) = reviews db ++ [r]
                      /\ market_reply served = @replied_review real 201 r
                      /\ rv_reviewerId r = id user0
                      /\ getUser (market_users db) (rv_sellerId r) <> None
                      /\ (rv_betCodeId r = or_else (ir_betCodeId d) None /\ purchased))).
  { intros purchased Hp. cbv zeta.
    destruct (createReview_cases db d (now req)) as [(e & ->)| ->];
      cbn [market_after market_users betCodes reviews transactions market_reply];
      [repeat split; try reflexivity; left; reflexivity|].
    split; [reflexivity|]. split; [reflexivity|]. split; [reflexivity|].
    right.
    exists user,
      (mkReview (reviews_id_seq db) (ir_sellerId d) (ir_reviewerId d)
         (or_else (ir_betCodeId d) None) (ir_rating d)
         (or_else (ir_comment d) None) (now req)).
    split; [reflexivity|]. split; [reflexivity|].
    split; [reflexivity|]. cbn. split; [exact Hreviewer|].
    split; [rewrite Hseller; discriminate|]. split; [reflexivity|exact Hp]. }
  destruct (truthy_id (or_else (ir_betCodeId d) None)) eqn:Htruthy.
  - destruct (getBetCode db _) as [code|];
      [|repeat split; try reflexivity; left; reflexivity].
    destruct (getTransactions db _) as [|t rest] eqn:Htx;
      [repeat split; try reflexivity; left; reflexivity|].
    assert (Hin : In t (getTransactions db
                          {| tp_buyerId := Some (id user); tp_sellerId := None;
                             tp_betCodeId := or_else (ir_betCodeId d) None;
                             tp_status := Some "completed" |}))
      by (rewrite Htx; left; reflexivity).
    apply getTransactions_In in Hin. cbn in Hin.
    destruct Hin as (Hin & Hbuyer & Hcode & Hstatus).
    destruct (Hstore (exists t, In t (transactions db)
                                /\ tx_buyerId t = id user
                                /\ matches (or_else (ir_betCodeId d) None)
                                     (tx_betCodeId t) = true
                                /\ tx_status t = "completed"))
      as (H1 & H2 & H3 & H4).
    { exists t. apply Z.eqb_eq in Hbuyer. auto. }
    split; [exact H1|]. split; [exact H2|]. split; [exact H3|].
    destruct H4 as [H4|(user0 & r & Hu & Hr & Hreply & Hrev & Hsel & Hb & Hp)];
      [left; exact H4|].
    right. exists user0, r. injection Hu as <-.
    repeat split; auto.
    intros b Hb' Hne. destruct Hp as (t' & Ht' & Hbuy & Hm & Hst).
    exists t'. rewrite Hb in Hb'. rewrite Hb' in Hm. cbn in Hm.
    apply Z.eqb_eq in Hm. auto.
  - destruct (Hstore True I) as (H1 & H2 & H3 & H4).
    split; [exact H1|]. split; [exact H2|]. split; [exact H3|].
    destruct H4 as [H4|(user0 & r & Hu & Hr & Hreply & Hrev & Hsel & Hb & _)];
      [left; exact H4|].
    right. exists user0, r. injection Hu as <-.
    repeat split; auto.
    intros b Hb' Hne. rewrite Hb in Hb'. rewrite Hb' in Htruthy. cbn in Htruthy.
    apply negb_false_iff, Z.eqb_eq in Htruthy. contradiction.
Qed.

(** X29. [DELETE /api/betcodes/:id] removes a bet code only for its seller
    or an administrator, and only when no transaction or review refers to
    it: in every other run the bet codes are as before.  Users,
    transactions and reviews are never touched. *)
Theorem delete_betcode_authorized (req : Req) (db : Market real) :
  let served := delete_api_betcodes req db in
  market_users (market_after served) = market_users db
  /\ transactions (market_after served) = transactions db
  /\ reviews (market_after served) = reviews db
  /\ (betCodes (market_after served) = betCodes db
      \/ exists user betCode,
           req_user req (market_users db) = Some user
           /\ getBetCode db (params_id req) = Some betCode
           /\ (bc_sellerId betCode = id user \/ isAdmin user = true)
           /\ betCode_referenced db (params_id req) = false
           /\ betCodes (market_after served)
              = filter (fun b => negb (Z.eqb (bc_id b) (params_id req))) (betCodes db)
           /\ getBetCode (market_after served) (params_id req) = None
           /\ market_reply served = @replied_empty real 204).
Proof.
  cbv zeta. unfold delete_api_betcodes.
  destruct (requireAuth req (market_users db));
    [|repeat split; try reflexivity; left; reflexivity].
  destruct (getBetCode db (params_id req)) as [betCode|] eqn:Hcode;
    [|repeat split; try reflexivity; left; reflexivity].
  destruct (req_user req (market_users db)) as [user|] eqn:Huser;
    [|repeat split; try reflexivity; left; reflexivity].
  destruct (negb (Z.eqb (bc_sellerId betCode) (id user)) && negb (isAdmin user))
    eqn:Hdenied; [repeat split; try reflexivity; left; reflexivity|].
  unfold deleteBetCode.
  assert (Hexists : betCode_exists db (params_id req) = true).
  { unfold betCode_exists. apply existsb_exists. exists betCode.
    apply getBetCode_In in Hcode. destruct Hcode as [Hin Hid].
    split; [exact Hin|apply Z.eqb_eq; exact Hid]. }
  rewrite Hexists. cbn [andb].
  destruct (betCode_referenced db (params_id req)) eqn:Href;
    cbn [market_after market_users betCodes reviews transactions market_reply];
    [repeat split; try reflexivity; left; reflexivity|].
  split; [reflexivity|]. split; [reflexivity|]. split; [reflexivity|].
  right. exists user, betCode. split; [reflexivity|]. split; [reflexivity|].
  split.
  { apply andb_false_iff in Hdenied. destruct Hdenied as [H|H];
      apply negb_false_iff in H; [left; apply Z.eqb_eq; exact H|right; exact H]. }
  split; [reflexivity|]. split; [reflexivity|]. split; [|reflexivity].
  unfold getBetCode. cbn [betCodes].
  rewrite filter_nil; [reflexivity|].
  intros b Hb. apply filter_In in Hb. destruct Hb as [_ Hb].
  apply negb_true_iff in Hb. exact Hb.
Qed.

(** X30. A bet code that a transaction or a review refers to cannot be
    deleted, not even by its seller or an administrator: the answer is 500
    "Failed to delete bet code" and the tables are as before. *)
Theorem delete_referenced_betcode_fails
  (req : Req) (db : Market real) (user : User) (betCode : BetCode real)
  (Hauth : req_user req (market_users db) = Some user)
  (Hfound : getBetCode db (params_id req) = Some betCode)
  (Hallowed : bc_sellerId betCode = id user \/ isAdmin user = true)
  (Hreferenced : betCode_referenced db (params_id req) = true) :
  delete_api_betcodes req db
  = mkMarketServed db (@replied real (Answered 500 (message "Failed to delete bet code"))).
Proof.
  unfold delete_api_betcodes, requireAuth, isAuthenticated.
  rewrite Hauth. cbn [is_set negb]. rewrite Hfound.
  assert (Hpass : negb (Z.eqb (bc_sellerId betCode) (id user)) && negb (isAdmin user)
                  = false).
  { apply andb_false_iff. destruct Hallowed as [-> | ->];
      [left; rewrite Z.eqb_refl|right]; reflexivity. }
  rewrite Hpass. unfold deleteBetCode.
  assert (Hexists : betCode_exists db (params_id req) = true).
  { unfold betCode_exists. apply existsb_exists. exists betCode.
    apply getBetCode_In in Hfound. destruct Hfound as [Hin Hid].
    split; [exact Hin|apply Z.eqb_eq; exact Hid]. }
  rewrite Hexists, Hreferenced. reflexivity.
Qed.

End MarketplaceProps.

(* ================================================================== *)
(** * Runs on the sample data *)

Lemma db_ok_sample_db : db_ok sample_db.
Proof. reflexivity. Defined.

Lemma ids_below_seq_sample_db : ids_below_seq sample_db.
Proof. repeat constructor. Defined.

Lemma ids_int4_sample_db : ids_int4 sample_db.
Proof. repeat constructor. Defined.

Lemma register_succeeds_witness :
  session_after (post_api_register sample_kdf sample_fromZodError
                   (with_body bob_registration sample_req) sample_db)
  = Some 3.
Proof.
  apply (@register_succeeds sample_kdf sample_fromZodError
           (with_body bob_registration sample_req) sample_db
           (mkInsertUser "bob" "bob@example.com" "hunter22" None None None)).
  - exact db_ok_sample_db.
  - exact ids_below_seq_sample_db.
  - reflexivity.
  - reflexivity.
  - reflexivity.
Defined.

Lemma register_duplicate_rejected_witness :
  outcome (post_api_register sample_kdf sample_fromZodError
             (with_body [("username", VStr "alice"); ("email", VStr "new@example.com");
                         ("password", VStr "hunter22")] sample_req) sample_db)
  = Respond 400 (message "Username already exists").
Proof.
  rewrite (@register_duplicate_rejected sample_kdf sample_fromZodError
             (with_body [("username", VStr "alice"); ("email", VStr "new@example.com");
                         ("password", VStr "hunter22")] sample_req) sample_db
             (mkInsertUser "alice" "new@example.com" "hunter22" None None None)).
  - reflexivity.
  - reflexivity.
  - left. discriminate.
Defined.

Lemma register_then_login_witness :
  exists u,
    outcome (post_api_login sample_kdf sample_fromZodError
               (with_body (credentials "bob" "hunter22") sample_req)
               (db_after (post_api_register sample_kdf sample_fromZodError
                            (with_body bob_registration sample_req) sample_db)))
    = Respond 200 (json (VObj (userWithoutPassword u)))
    /\ username u = "bob".
Proof.
  destruct (@register_then_login sample_kdf sample_fromZodError
              (with_body bob_registration sample_req)
              (with_body (credentials "bob" "hunter22") sample_req)
              sample_db "bob" "hunter22")
    as (_ & Hlong & _).
  - vm_compute. reflexivity.
  - reflexivity.
  - reflexivity.
  - reflexivity.
  - reflexivity.
  - destruct Hlong as (u & Hout & Hname & _); [cbn; lia|].
    exists u. split; assumption.
Defined.

(** A registration with the password "abc" is accepted, and the identity
    it creates is refused at login. *)
Example short_password_registers_but_cannot_login :
  let served := post_api_register sample_kdf sample_fromZodError
                  (with_body [("username", VStr "dave"); ("email", VStr "dave@example.com");
                              ("password", VStr "abc")] sample_req) sample_db in
  let served' := post_api_login sample_kdf sample_fromZodError
                   (with_body (credentials "dave" "abc") sample_req)
                   (db_after served) in
  is_success (outcome served) = true
  /\ outcome served' = Respond 400 (message "Validation error").
Proof. vm_compute. split; reflexivity. Qed.

Lemma login_then_current_user_witness :
  outcome (get_api_user (with_session (Some 1) sample_req) sample_db)
  = outcome (post_api_login sample_kdf sample_fromZodError
               (with_body (credentials "alice" "secret123") sample_req) sample_db).
Proof.
  apply (@login_then_current_user sample_kdf sample_fromZodError
           (with_body (credentials "alice" "secret123") sample_req)
           (with_session (Some 1) sample_req) sample_db).
  - exact db_ok_sample_db.
  - vm_compute. reflexivity.
  - vm_compute. reflexivity.
Defined.

Lemma verify_email_accepts_witness :
  outcome (get_verify_email
             (with_now 1000 (with_query_token (Some "c0ffee") sample_req)) sample_db)
  = Respond 200 (html verified_page).
Proof.
  apply (@verify_email_accepts
           (with_now 1000 (with_query_token (Some "c0ffee") sample_req))
           sample_db "c0ffee" alice []).
  - exact db_ok_sample_db.
  - reflexivity.
  - discriminate.
  - reflexivity.
  - cbn. lia.
Defined.

Lemma resend_overwrites_token_witness :
  outcome (post_api_resend_verification (with_session (Some 1) sample_req) sample_db)
  = Respond 200 (message "Verification email sent successfully. Please check your inbox.").
Proof.
  apply (@resend_overwrites_token (with_session (Some 1) sample_req) sample_db alice).
  - exact db_ok_sample_db.
  - reflexivity.
  - reflexivity.
Defined.

Lemma profile_update_stores_fullName_witness :
  option_map fullName
    (getUser (db_after (patch_api_users_profile
                          (with_session (Some 2)
                             (with_body [("fullName", VStr "Carol C")] sample_req))
                          sample_db)) 2)
  = Some (Some "Carol C").
Proof.
  pose proof (@profile_update_stores_fullName
                (with_session (Some 2)
                   (with_body [("fullName", VStr "Carol C")] sample_req))
                sample_db carol "Carol C" db_ok_sample_db eq_refl eq_refl eq_refl)
    as (_ & Hget & _).
  cbv zeta in Hget. change (id carol) with 2 in Hget. rewrite Hget. reflexivity.
Defined.

Lemma admin_cookie_promotes_witness :
  requireAdmin (with_session (Some 2) sample_req)
    (db_after (patch_api_admin_users
                 (with_params_id 2
                    (with_cookie (Some "x")
                       (with_body [("isAdmin", VBool true)] sample_req)))
                 sample_db))
  = Pass.
Proof.
  apply (@admin_cookie_promotes
           (with_params_id 2
              (with_cookie (Some "x") (with_body [("isAdmin", VBool true)] sample_req)))
           sample_db carol "x").
  - exact db_ok_sample_db.
  - reflexivity.
  - discriminate.
  - reflexivity.
  - reflexivity.
  - right. left. reflexivity.
  - reflexivity.
Defined.

Lemma admin_update_returns_verifier_witness :
  exists u,
    outcome (patch_api_admin_users
               (with_params_id 1
                  (with_cookie (Some "x")
                     (with_body [("country", VStr "GH")] sample_req)))
               sample_db)
    = Respond 200 (json (VObj (user_object u)))
    /\ get "password" (user_object u) = Some (VStr (password u)).
Proof.
  destruct (@admin_update_returns_verifier
              (with_params_id 1
                 (with_cookie (Some "x") (with_body [("country", VStr "GH")] sample_req)))
              sample_db)
    as (u & _ & Hout & Hpw).
  - vm_compute. reflexivity.
  - exists u. split; assumption.
Defined.

Lemma conversation_exact_and_sorted_witness :
  StronglySorted (fun a b => m_createdAt a <= m_createdAt b)
    (conversation sample_messages 1 2).
Proof.
  exact (proj1 (proj2 (proj2
           (@conversation_exact_and_sorted
              (with_params_id 2 (with_session (Some 1) sample_req))
              sample_messages alice eq_refl)))).
Defined.

Lemma send_message_then_read_back_witness :
  reply (post_api_messages sample_fromZodError
           (with_session (Some 1) (with_body forged_message sample_req))
           sample_messages)
  = Answered 201 (json (VObj (message_object (mkMessage 4 1 2 "hello" false 5000)))).
Proof.
  pose proof (@send_message_then_read_back sample_fromZodError
                (with_session (Some 1) (with_body forged_message sample_req))
                sample_messages alice carol 2 "hello") as H.
  cbv zeta in H. destruct H as (H & _).
  - split; [reflexivity|]. repeat constructor.
  - exact ids_int4_sample_db.
  - reflexivity.
  - reflexivity.
  - reflexivity.
  - reflexivity.
  - rewrite H. reflexivity.
Defined.

Lemma send_message_unknown_recipient_witness :
  post_api_messages sample_fromZodError
    (with_session (Some 1)
       (with_body [("receiverId", VNum 99); ("message", VStr "hello")] sample_req))
    sample_messages
  = mkMessagesServed sample_messages (Answered 404 (message "Recipient not found"))
  /\ post_api_messages sample_fromZodError
       (with_session (Some 1)
          (with_body [("receiverId", VNum 2147483648); ("message", VStr "hello")]
             sample_req))
       sample_messages
     = mkMessagesServed sample_messages (Answered 400 (message "Validation error")).
Proof.
  split.
  - exact (@send_message_unknown_recipient sample_fromZodError
             (with_session (Some 1)
                (with_body [("receiverId", VNum 99); ("message", VStr "hello")] sample_req))
             sample_messages alice 99 "hello"
             ids_int4_sample_db eq_refl eq_refl eq_refl eq_refl).
  - exact (@send_message_unknown_recipient sample_fromZodError
             (with_session (Some 1)
                (with_body [("receiverId", VNum 2147483648); ("message", VStr "hello")]
                   sample_req))
             sample_messages alice 2147483648 "hello"
             ids_int4_sample_db eq_refl eq_refl eq_refl eq_refl).
Defined.

Lemma mark_read_only_by_receiver_witness :
  patch_api_messages_read (with_params_id 1 (with_session (Some 1) sample_req))
    sample_messages
  = mkMessagesServed sample_messages
      (Answered 403 (message "You can only mark messages sent to you as read")).
Proof.
  apply (@mark_read_only_by_receiver
           (with_params_id 1 (with_session (Some 1) sample_req))
           sample_messages alice (mkMessage 1 1 2 "Is the code still valid?" false 10)).
  - reflexivity.
  - reflexivity.
  - discriminate.
Defined.

Lemma mark_read_sets_flag_witness :
  option_map m_isRead
    (getMessage
       (messages_after
          (patch_api_messages_read (with_params_id 1 (with_session (Some 2) sample_req))
             sample_messages)) 1)
  = Some true.
Proof.
  pose proof (@mark_read_sets_flag
                (with_params_id 1 (with_session (Some 2) sample_req))
                sample_messages carol (mkMessage 1 1 2 "Is the code still valid?" false 10)
                eq_refl eq_refl eq_refl) as (_ & H & _).
  cbv zeta in H. change (params_id _) with 1 in H. rewrite H. reflexivity.
Defined.

Lemma purchase_rejected_witness :
  post_api_transactions number_add number_of_Z float4_column sample_fromZodError
    (with_session (Some 1) (with_body (purchase_of 1) sample_req)) sample_market
  = mkMarketServed sample_market
      (@replied number (Answered 400 (message "You cannot buy your own bet code"))).
Proof.
  apply (@purchase_rejected number number_add number_of_Z float4_column
           sample_fromZodError
           (with_session (Some 1) (with_body (purchase_of 1) sample_req))
           sample_market alice 1 None).
  - reflexivity.
  - reflexivity.
  - reflexivity.
Defined.

Lemma delete_referenced_betcode_fails_witness :
  delete_api_betcodes (with_params_id 1 (with_session (Some 1) sample_req))
    sample_market
  = mkMarketServed sample_market
      (@replied number (Answered 500 (message "Failed to delete bet code"))).
Proof.
  apply (@delete_referenced_betcode_fails number
           (with_params_id 1 (with_session (Some 1) sample_req)) sample_market alice
           (mkBetCode 1 1 "NG" "Bet9ja" "B9-12345" "Weekend accumulator" None
              (number_of_Z 1000) "NGN" 900000 true 100)).
  - reflexivity.
  - reflexivity.
  - left. reflexivity.
  - reflexivity.
Defined.

(** On the sample market carol, who has bought alice's first code, buys it
    once more and pays the price plus 200, whatever her request says. *)
Example carol_buys_again :
  market_reply
    (post_api_transactions number_add number_of_Z float4_column sample_fromZodError
       (with_session (Some 2) (with_body (purchase_of 1) sample_req)) sample_market)
  = replied_transaction 201
      (mkTransaction 2 2 1 1 (number_of_Z 1200) None "completed" None 5000 None).
Proof. vm_compute. reflexivity. Qed.

(** The second code costs 16777215; the sum 16777415 is not a 4-byte
    float, and the transaction the route stores and returns carries
    16777416. *)
Example carol_buys_the_season_ticket :
  number_add (number_of_Z 16777215) (number_of_Z 200) = number_of_Z 16777415
  /\ float4_column (number_of_Z 16777415) = Some (number_of_Z 16777416)
  /\ number_of_Z 16777415 <> number_of_Z 16777416
  /\ market_reply
       (post_api_transactions number_add number_of_Z float4_column sample_fromZodError
          (with_session (Some 2) (with_body (purchase_of 2) sample_req)) sample_market)
     = replied_transaction 201
         (mkTransaction 2 2 1 2 (number_of_Z 16777416) None "completed" None 5000 None).
Proof.
  split; [vm_compute; reflexivity|].
  split; [vm_compute; reflexivity|].
  split; [|vm_compute; reflexivity].
  intros H. apply (f_equal FloatOps.Prim2SF) in H. vm_compute in H. discriminate H.
Qed.
